(** * ONNX Runtime backend of the inference server: execution contexts and
      the batched run path

    Shallow embedding of [src/backends/onnx/onnx_backend.cc] (with the
    declarations of [onnx_backend.h] and the macro of [onnx_utils.h]) and
    the properties of its instance creation, schema validation, batch
    dispatch and run-resource release. *)

From stdpp Require Import gmap strings list pretty.
From Stdlib Require Import ZArith Lia.

Set Default Proof Using "Type".
Open Scope Z_scope.

(** ** Scalars and strings *)

(** [std::to_string] on the integer types the backend prints. *)
Definition to_string {A : Type} `{Pretty A} (x : A) : string := pretty x.

(** [size_t] is 64 bits wide; unsigned arithmetic wraps. *)
Definition SIZE_MAX_plus_1 : N := (2 ^ 64)%N.

Definition size_t_add (a b : N) : N := ((a + b) mod SIZE_MAX_plus_1)%N.

(** The conversion [(size_t)i] of a (signed) [int]. *)
Definition size_t_of_int (i : Z) : N := Z.to_N (i mod Z.of_N SIZE_MAX_plus_1).

(** A message names [s] when [s] occurs in it. *)
Definition mentions (msg s : string) : Prop :=
  ∃ pre post : string, msg = pre +:+ s +:+ post.

(** ** Status ([src/core/status.h], used through its interface) *)

Inductive RequestStatusCode :=
  | INVALID | SUCCESS | UNKNOWN | INTERNAL | NOT_FOUND
  | INVALID_ARG | UNAVAILABLE | UNSUPPORTED | ALREADY_EXISTS.

Global Instance RequestStatusCode_eq_dec : EqDecision RequestStatusCode.
Proof. solve_decision. Defined.

Record Status := mkStatus { Code : RequestStatusCode; Message : string }.

Global Instance Status_eq_dec : EqDecision Status.
Proof. solve_decision. Defined.

Definition Status_Success : Status := mkStatus SUCCESS "".

Definition IsOk (s : Status) : bool := bool_decide (Code s = SUCCESS).

(** ** Handles of the runtime's C API *)

Definition OrtSession := N.
Definition OrtAllocatorInfo := N.
Definition OrtValue := N.

(** A non-null [OrtStatus*] carries an error code and a message. *)
Record OrtStatus := mkOrtStatus { OrtGetErrorCode : Z; OrtGetErrorMessage : string }.

Record OrtSessionOptions := mkOrtSessionOptions {
  thread_pool_size : Z;
  graph_optimization_level : Z;
  cuda_provider : option Z
}.

(** Logical datatypes of the model configuration and the runtime's element
    types are enumerations, kept as their numeric values. *)
Definition DataType := Z.
Definition ONNXTensorElementDataType := Z.
Definition ONNX_TENSOR_ELEMENT_DATA_TYPE_UNDEFINED : ONNXTensorElementDataType := 0.

Definition DimsList := list Z.

(** ** Model configuration (the fields the backend reads) *)

Record ModelInput := mkModelInput {
  mi_name : string; mi_data_type : DataType; mi_dims : DimsList }.

Record ModelOutput := mkModelOutput {
  mo_name : string; mo_data_type : DataType; mo_dims : DimsList }.

Record ModelConfig := mkModelConfig {
  cfg_name : string;
  max_batch_size : Z;
  input : list ModelInput;
  output : list ModelOutput;
  default_model_filename : string;
  cc_model_filenames : gmap string string
}.

(** ** Scheduler payloads *)

(** One input of a request header, with the bytes the request supplies. *)
Record RequestInput := mkRequestInput {
  ri_name : string; ri_dims : DimsList; ri_content : list Byte.byte }.

Record InputOverride := mkInputOverride {
  content_ : list Byte.byte; dims_ : DimsList; datatype_ : DataType }.

Record InferRequestProvider := mkInferRequestProvider {
  batch_size : N;
  request_input : list RequestInput;
  GetInputOverride : option (list (string * InputOverride))
}.

(** The per-request statistics object, as far as [Run] writes it. *)
Record ModelInferStats := mkModelInferStats {
  compute_timer_started : bool; stats_gpu_device : Z }.

Record Payload := mkPayload {
  queue_timer_ : bool;
  stats_ : option ModelInferStats;
  request_provider_ : InferRequestProvider;
  response_outputs_ : list (string * list Byte.byte);
  status_ : Status
}.

(** ** Calls into collaborators, as they appear in a run *)

Inductive Event :=
  | EvCudaGetDeviceProperties (gpu_device : Z)
  | EvOrtCreateSession (path : string) (options : OrtSessionOptions)
  | EvInputNames (session : option OrtSession)
  | EvOutputNames (session : option OrtSession)
  | EvOrtCreateCpuAllocatorInfo
  | EvOrtRun (session : option OrtSession) (input_names : list string)
      (inputs : list (option OrtValue)) (output_names : list string)
      (outputs : list (option OrtValue))
  | EvOrtReleaseValue (tensor : OrtValue)
  | EvOnCompleteQueuedPayloads (status : Status).

(** The collaborators the backend calls: the CUDA and ONNX Runtime C APIs,
    the helpers of [onnx_utils.cc] and [model_config_utils.cc], and the
    base class's input lookup.  Their results are what a call returns;
    the call itself is recorded by the caller as an [Event]. *)
Class Collaborators := {
  (** [cudaGetDeviceProperties]: an error string, or (major, minor). *)
  cudaGetDeviceProperties : Z → string + Z * Z;
  OrtSessionOptionsAppendExecutionProvider_CUDA : OrtSessionOptions → Z → option OrtStatus;
  OrtCreateSession : string → OrtSessionOptions → OrtStatus + OrtSession;
  OrtCreateCpuAllocatorInfo : OrtStatus + OrtAllocatorInfo;
  (** [OrtRun]: the status, and the output array as the call leaves it. *)
  OrtRun : option OrtSession → list string → list (option OrtValue) →
           list string → list (option OrtValue) →
           option OrtStatus * list (option OrtValue);
  InputNames : option OrtSession → Status * gset string;
  OutputNames : option OrtSession → Status * gset string;
  ConvertDataType : DataType → ONNXTensorElementDataType;
  DataType_Name : DataType → string;
  (** [InferenceBackend::GetInput] of the base class. *)
  GetInput : ModelConfig → string → Status * ModelInput
}.

(** ** Control flow: functions that return a [Status], with early return *)

Inductive Flow (A : Type) :=
  | Go (a : A)
  | Return (s : Status).
Arguments Go {A} a.
Arguments Return {A} s.

(** A statement sequence over a state [S]. *)
Definition Stm (S A : Type) : Type := S → Flow A * S.

(** A completed function: its returned [Status] and the state it leaves. *)
Definition Fn (S : Type) : Type := S → Status * S.

Definition ret {S A : Type} (a : A) : Stm S A := λ s, (Go a, s).

Definition bind {S A B : Type} (c : Stm S A) (k : A → Stm S B) : Stm S B :=
  λ s, match c s with
       | (Go a, s') => k a s'
       | (Return st, s') => (Return st, s')
       end.

Definition return_ {S A : Type} (st : Status) : Stm S A := λ s, (Return st, s).

Definition get {S : Type} : Stm S S := λ s, (Go s, s).

Definition modify {S : Type} (f : S → S) : Stm S unit := λ s, (Go tt, f s).

Notation "'let*' x := c 'in' k" := (bind c (λ x, k))
  (at level 10, x pattern, c at level 99, k at level 200).
Notation "c ;; k" := (bind c (λ _, k))
  (at level 100, right associativity).

(** The body of a function with return type [Status]; the last statement is
    its final [return]. *)
Definition body {S : Type} (c : Stm S Status) : Fn S :=
  λ s, match c s with
       | (Go st, s') => (st, s')
       | (Return st, s') => (st, s')
       end.

(** [RETURN_IF_ERROR(S)] of [src/core/status.h]. *)
Definition RETURN_IF_ERROR {S : Type} (f : Fn S) : Stm S unit :=
  λ s, let '(st, s') := f s in
       if IsOk st then (Go tt, s') else (Return st, s').

(** The [Status] that [RETURN_IF_ORT_ERROR] returns for a non-null
    [OrtStatus*] ([onnx_utils.h]). *)
Definition ort_error_status (onnx_status : OrtStatus) : Status :=
  mkStatus INTERNAL
    ("onnx runtime error " +:+ to_string (OrtGetErrorCode onnx_status) +:+ ": "
     +:+ OrtGetErrorMessage onnx_status).

Definition RETURN_IF_ORT_ERROR {S : Type} (onnx_status : option OrtStatus) : Stm S unit :=
  match onnx_status with
  | Some e => return_ (ort_error_status e)
  | None => ret tt
  end.

(** [return f(...);] *)
Definition return_call {S A : Type} (f : Fn S) : Stm S A :=
  λ s, let '(st, s') := f s in (Return st, s').

(** A range-based [for] whose body may return from the function. *)
Fixpoint for_each {S A : Type} (l : list A) (f : A → Stm S unit) : Stm S unit :=
  match l with
  | [] => ret tt
  | x :: l' => f x ;; for_each l' f
  end.

(** ** The backend and its execution contexts ([onnx_backend.h]) *)

Module OnnxBackend.

(** GPU device number that indicates that no gpu is available. *)
Definition NO_GPU_DEVICE : Z := -1.

(** Max batch size value that indicates batching is not supported. *)
Definition NO_BATCHING : Z := 0.

Record Context := mkContext {
  name_ : string;
  gpu_device_ : Z;
  max_batch_size_ : Z;
  session_ : option OrtSession;
  allocator_info_ : option OrtAllocatorInfo;
  input_tensors_ : list (option OrtValue);
  output_tensors_ : list (option OrtValue)
}.

(** [Context::Context]: both handles null, both tensor containers empty. *)
Definition new_Context (name : string) (gpu_device max_batch_size : Z) : Context :=
  mkContext name gpu_device max_batch_size None None [] [].

Record t := mkBackend {
  Config : ModelConfig;
  contexts_ : list Context
}.

Definition Name (b : t) : string := cfg_name (Config b).

(** *** State of one [Context::Run] call

    The context object, the payload vector it is handed by pointer, the
    collaborator calls made so far, and the locals of [Context::Run] that
    its helper functions receive by pointer or that its loops update. *)
Record RunFrame := mkRunFrame {
  this : Context;
  payloads : list Payload;
  trace : list Event;
  total_batch_size : N;
  input_request_provider : option InferRequestProvider;
  input_buffers : list (list Byte.byte);
  input_names : list string;
  output_names : list string
}.

Definition set_this (f : Context → Context) (fr : RunFrame) : RunFrame :=
  mkRunFrame (f (this fr)) (payloads fr) (trace fr) (total_batch_size fr)
    (input_request_provider fr) (input_buffers fr) (input_names fr) (output_names fr).

Definition set_trace (f : list Event → list Event) (fr : RunFrame) : RunFrame :=
  mkRunFrame (this fr) (payloads fr) (f (trace fr)) (total_batch_size fr)
    (input_request_provider fr) (input_buffers fr) (input_names fr) (output_names fr).

Definition set_total_batch_size (f : N → N) (fr : RunFrame) : RunFrame :=
  mkRunFrame (this fr) (payloads fr) (trace fr) (f (total_batch_size fr))
    (input_request_provider fr) (input_buffers fr) (input_names fr) (output_names fr).

Definition set_input_request_provider (p : InferRequestProvider) (fr : RunFrame) : RunFrame :=
  mkRunFrame (this fr) (payloads fr) (trace fr) (total_batch_size fr)
    (Some p) (input_buffers fr) (input_names fr) (output_names fr).

Definition set_output_names (f : list string → list string) (fr : RunFrame) : RunFrame :=
  mkRunFrame (this fr) (payloads fr) (trace fr) (total_batch_size fr)
    (input_request_provider fr) (input_buffers fr) (input_names fr) (f (output_names fr)).

Definition set_output_tensors (f : list (option OrtValue) → list (option OrtValue))
    (c : Context) : Context :=
  mkContext (name_ c) (gpu_device_ c) (max_batch_size_ c) (session_ c)
    (allocator_info_ c) (input_tensors_ c) (f (output_tensors_ c)).

Definition set_input_tensors (f : list (option OrtValue) → list (option OrtValue))
    (c : Context) : Context :=
  mkContext (name_ c) (gpu_device_ c) (max_batch_size_ c) (session_ c)
    (allocator_info_ c) (f (input_tensors_ c)) (output_tensors_ c).

(** What the caller of [Context::Run] holds before and after the call. *)
Record RunState := mkRunState {
  rs_context : Context;
  rs_payloads : list Payload;
  rs_trace : list Event
}.

Definition enter (s : RunState) : RunFrame :=
  mkRunFrame (rs_context s) (rs_payloads s) (rs_trace s) 0%N None [] [] [].

Definition leave (fr : RunFrame) : RunState :=
  mkRunState (this fr) (payloads fr) (trace fr).

Section Run.
Context `{!Collaborators}.

(** [Context::SetInputTensor].  Its first statement returns; the statements
    that follow it in the source are never executed. *)
Definition SetInputTensor (name : string) (datatype : DataType) (dims : DimsList)
    (total_batch_size : N) : Fn RunFrame :=
  body (return_ (mkStatus UNSUPPORTED "SetInputTensor() implemented")).

(** [Context::ReadOutputTensors].  Its first statement returns as well. *)
Definition ReadOutputTensors (base : t) (total_batch_size : N)
    (output_names : list string) : Fn RunFrame :=
  body (return_ (mkStatus UNSUPPORTED "ReadOutputTensors() implemented")).

(** [base->GetInput(name, &input_config)], leaving the configuration entry
    for the statements that follow. *)
Definition base_GetInput (base : t) (name : string) : Fn RunFrame :=
  λ fr, (fst (GetInput (Config base) name), fr).

(** [Context::Run], first loop: one payload of the group. *)
Definition collect_payload (payload : Payload) : Stm RunFrame unit :=
  let* fr := get in
  if negb (IsOk (status_ payload)) then
    return_ (mkStatus INTERNAL
      ("unexpected payload with non-OK status given to runner for '"
       +:+ name_ (this fr) +:+ "'"))
  else
    modify (set_total_batch_size
              (λ total, size_t_add total (batch_size (request_provider_ payload)))) ;;
    modify (set_input_request_provider (request_provider_ payload)).

(** [Context::Run], the part below the banner "Onnx Specific section":
    fan-in of every input, the single [OrtRun], fan-out. *)
Definition Context_Run_onnx_section (base : t) (provider : InferRequestProvider)
    : Stm RunFrame Status :=
  let* fr1 := get in
  for_each (request_input provider) (λ input,
    let name := ri_name input in
    RETURN_IF_ERROR (base_GetInput base name) ;;
    let input_config := snd (GetInput (Config base) name) in
    RETURN_IF_ERROR
      (SetInputTensor name (mi_data_type input_config) (ri_dims input)
         (total_batch_size fr1))) ;;
  match GetInputOverride provider with
  | None => ret tt
  | Some input_override_map =>
      for_each input_override_map (λ pr,
        let name := fst pr in
        let override := snd pr in
        RETURN_IF_ERROR
          (SetInputTensor name (datatype_ override) (dims_ override)
             (total_batch_size fr1)))
  end ;;
  for_each (output (Config base)) (λ output,
    modify (set_output_names (λ names, names ++ [mo_name output])) ;;
    modify (set_this (set_output_tensors (λ ts, ts ++ [None])))) ;;
  let* fr2 := get in
  let run := OrtRun (session_ (this fr2)) (input_names fr2)
               (input_tensors_ (this fr2)) (output_names fr2)
               (output_tensors_ (this fr2)) in
  modify (set_this (set_output_tensors (λ _, snd run))) ;;
  modify (set_trace (λ tr, tr ++
    [EvOrtRun (session_ (this fr2)) (input_names fr2)
       (input_tensors_ (this fr2)) (output_names fr2) (snd run)])) ;;
  RETURN_IF_ORT_ERROR (fst run) ;;
  return_call (ReadOutputTensors base (total_batch_size fr1) (output_names fr2)).

(** [Context::Run]. *)
Definition Context_Run_body (base : t) : Stm RunFrame Status :=
  let* fr0 := get in
  for_each (payloads fr0) collect_payload ;;
  let* fr1 := get in
  if (total_batch_size fr1 =? 0)%N then return_ Status_Success else
  if negb (total_batch_size fr1 =? 1)%N
     && (size_t_of_int (max_batch_size_ (this fr1)) <? total_batch_size fr1)%N
  then
    return_ (mkStatus INTERNAL
      ("dynamic batch size " +:+ to_string (total_batch_size fr1) +:+ " for '"
       +:+ name_ (this fr1) +:+ "', max allowed is "
       +:+ to_string (max_batch_size_ (this fr1))))
  else
  match input_request_provider fr1 with
  | Some provider => Context_Run_onnx_section base provider
  | None =>
      (* not reached: a non-zero total means the loop visited a payload *)
      ret Status_Success
  end.

Definition Context_Run (base : t) : Fn RunState :=
  λ s, let '(status, fr) := body (Context_Run_body base) (enter s) in
       (status, leave fr).

(** One release loop of [Context::ReleaseOrtRunResources]: every non-null
    tensor of a container is handed to [OrtReleaseValue]. *)
Definition release_tensors (tensors : list (option OrtValue)) (tr : list Event) : list Event :=
  foldl (λ tr tensor,
           match tensor with
           | Some v => tr ++ [EvOrtReleaseValue v]
           | None => tr
           end) tr tensors.

(** [Context::ReleaseOrtRunResources]. *)
Definition ReleaseOrtRunResources (s : RunState) : RunState :=
  let tr1 := release_tensors (input_tensors_ (rs_context s)) (rs_trace s) in
  let c1 := set_input_tensors (λ _, []) (rs_context s) in
  let tr2 := release_tensors (output_tensors_ c1) tr1 in
  let c2 := set_output_tensors (λ _, []) c1 in
  mkRunState c2 (rs_payloads s) tr2.

(** *** The dispatcher [OnnxBackend::Run] *)

Record BackendState := mkBackendState {
  backend : t;
  queued_payloads : list Payload;
  events : list Event
}.

(** The per-payload loop that stops the queue timer and starts the compute
    timer. *)
Definition start_compute (gpu_device : Z) (payload : Payload) : Payload :=
  mkPayload
    (if queue_timer_ payload then false else queue_timer_ payload)
    (match stats_ payload with
     | Some _ => Some (mkModelInferStats true gpu_device)
     | None => None
     end)
    (request_provider_ payload) (response_outputs_ payload) (status_ payload).

Definition Run (runner_idx : N) (s : BackendState) : BackendState :=
  let contexts := contexts_ (backend s) in
  if (N.of_nat (length contexts) <=? runner_idx)%N then
    mkBackendState (backend s) (queued_payloads s)
      (events s ++ [EvOnCompleteQueuedPayloads (mkStatus INTERNAL
         ("unexpected runner index" +:+ to_string runner_idx +:+ ", max allowed "
          +:+ to_string (length contexts)))])
  else
    match contexts !! N.to_nat runner_idx with
    | None => s (* excluded by the test above *)
    | Some context =>
        let payloads1 := start_compute (gpu_device_ context) <$> queued_payloads s in
        let '(status, rs) :=
          Context_Run (backend s) (mkRunState context payloads1 (events s)) in
        let rs' := ReleaseOrtRunResources rs in
        mkBackendState
          (mkBackend (Config (backend s))
             (<[N.to_nat runner_idx := rs_context rs']> contexts))
          (rs_payloads rs')
          (rs_trace rs' ++ [EvOnCompleteQueuedPayloads status])
    end.

(** *** Instance creation and schema validation *)

Record CreateState := mkCreateState {
  cs_backend : t;
  cs_events : list Event
}.

Definition record (e : Event) : Stm CreateState unit :=
  modify (λ s, mkCreateState (cs_backend s) (cs_events s ++ [e])).

Definition set_contexts (f : list Context → list Context) : Stm CreateState unit :=
  modify (λ s, mkCreateState
                 (mkBackend (Config (cs_backend s)) (f (contexts_ (cs_backend s))))
                 (cs_events s)).

(** A write through the pointer [contexts_.back().get()]. *)
Definition on_back (f : Context → Context) (l : list Context) : list Context :=
  alter f (Nat.pred (length l)) l.

Definition set_session (session : option OrtSession) (c : Context) : Context :=
  mkContext (name_ c) (gpu_device_ c) (max_batch_size_ c) session
    (allocator_info_ c) (input_tensors_ c) (output_tensors_ c).

Definition set_allocator_info (info : option OrtAllocatorInfo) (c : Context) : Context :=
  mkContext (name_ c) (gpu_device_ c) (max_batch_size_ c) (session_ c)
    info (input_tensors_ c) (output_tensors_ c).

(** Modelled from the spec: [CheckAllowedModelInput] of
    [model_config_utils.cc], which is not among the sources.  Schema
    validation fails, naming the offending input, if a declared name is
    absent from the runtime's exposed names. *)
Definition CheckAllowedModelInput (io : ModelInput) (allowed : gset string) : Status :=
  if decide (mi_name io ∈ allowed) then Status_Success
  else mkStatus INVALID_ARG ("unexpected inference input '" +:+ mi_name io +:+ "'").

(** Modelled from the spec: [CheckAllowedModelOutput] of
    [model_config_utils.cc], which is not among the sources.  Schema
    validation fails, naming the offending output, if a declared name is
    absent from the runtime's exposed names. *)
Definition CheckAllowedModelOutput (io : ModelOutput) (allowed : gset string) : Status :=
  if decide (mo_name io ∈ allowed) then Status_Success
  else mkStatus INVALID_ARG ("unexpected inference output '" +:+ mo_name io +:+ "'").

(** A call whose [Status] is already at hand. *)
Definition call {S : Type} (st : Status) : Fn S := λ s, (st, s).

(** [Context::ValidateInputs]. *)
Definition ValidateInputs (this : Context) (ios : list ModelInput) : Fn CreateState :=
  body (
    record (EvInputNames (session_ this)) ;;
    let '(names_status, input_node_names) := InputNames (session_ this) in
    RETURN_IF_ERROR (call names_status) ;;
    for_each ios (λ io,
      RETURN_IF_ERROR (call (CheckAllowedModelInput io input_node_names)) ;;
      if ConvertDataType (mi_data_type io) =? ONNX_TENSOR_ELEMENT_DATA_TYPE_UNDEFINED
      then
        return_ (mkStatus INTERNAL
          ("unsupported datatype " +:+ DataType_Name (mi_data_type io)
           +:+ " for input '" +:+ mi_name io +:+ "' for model '"
           +:+ name_ this +:+ "'"))
      else ret tt) ;;
    ret Status_Success).

(** [Context::ValidateOutputs]. *)
Definition ValidateOutputs (this : Context) (ios : list ModelOutput) : Fn CreateState :=
  body (
    record (EvOutputNames (session_ this)) ;;
    let '(names_status, output_node_names) := OutputNames (session_ this) in
    RETURN_IF_ERROR (call names_status) ;;
    for_each ios (λ io,
      RETURN_IF_ERROR (call (CheckAllowedModelOutput io output_node_names)) ;;
      if ConvertDataType (mo_data_type io) =? ONNX_TENSOR_ELEMENT_DATA_TYPE_UNDEFINED
      then
        return_ (mkStatus INTERNAL
          ("unsupported datatype " +:+ DataType_Name (mo_data_type io)
           +:+ " for output '" +:+ mo_name io +:+ "' for model '"
           +:+ name_ this +:+ "'"))
      else ret tt) ;;
    ret Status_Success).

(** The model file for an instance: the first part of
    [CreateExecutionContext], up to the lookup in [paths]. *)
Definition select_model_filename (gpu_device : Z) : Stm CreateState (string * string) :=
  let* s := get in
  let config := Config (cs_backend s) in
  if gpu_device =? NO_GPU_DEVICE then
    ret ("", default_model_filename config)
  else
    record (EvCudaGetDeviceProperties gpu_device) ;;
    match cudaGetDeviceProperties gpu_device with
    | inl cuerr =>
        return_ (mkStatus INTERNAL
          ("unable to get CUDA device properties for " +:+ Name (cs_backend s)
           +:+ ": " +:+ cuerr))
    | inr (major, minor) =>
        let cc := to_string major +:+ "." +:+ to_string minor in
        ret (cc, match cc_model_filenames config !! cc with
                 | None => default_model_filename config
                 | Some filename => filename
                 end)
    end.

(** The block "Create Onnx session" of [CreateExecutionContext]: the
    status it leaves in [onnx_status], and the context object as the block
    leaves it. *)
Definition create_session (gpu_device : Z) (base_session_options : OrtSessionOptions)
    (path : string) (context0 : Context)
    : Stm CreateState (option OrtStatus * Context) :=
  let appended :=
    if negb (gpu_device =? NO_GPU_DEVICE) then
      (OrtSessionOptionsAppendExecutionProvider_CUDA base_session_options gpu_device,
       mkOrtSessionOptions (thread_pool_size base_session_options)
         (graph_optimization_level base_session_options) (Some gpu_device))
    else (None, base_session_options) in
  let options := snd appended in
  match fst appended with
  | Some e => ret (Some e, context0)
  | None =>
      record (EvOrtCreateSession path options) ;;
      match OrtCreateSession path options with
      | inl e => ret (Some e, context0)
      | inr session =>
          set_contexts (on_back (set_session (Some session))) ;;
          ret (None, set_session (Some session) context0)
      end
  end.

(** [CreateExecutionContext] from the comment "Max batch size" on, with the
    model file found at [path]. *)
Definition CreateExecutionContext_load (instance_name : string) (gpu_device : Z)
    (base_session_options : OrtSessionOptions) (path : string)
    : Stm CreateState Status :=
  let* s := get in
  let config := Config (cs_backend s) in
  (* Max batch size. A value of 0 in the config becomes NO_BATCHING. *)
  let mbs := if max_batch_size config <=? 0 then NO_BATCHING
             else max_batch_size config in
  let context0 := new_Context instance_name gpu_device mbs in
  set_contexts (λ cs, cs ++ [context0]) ;;
  let* (onnx_status, context) :=
    create_session gpu_device base_session_options path context0 in
  (* RETURN_IF_ORT_ERROR(onnx_status): the macro's body opens with its own
     [OrtStatus* onnx_status = nullptr; onnx_status = (S);], so the argument
     names the macro's local, which is null, and not the variable above. *)
  (let onnx_status : option OrtStatus := None in
   RETURN_IF_ORT_ERROR onnx_status) ;;
  RETURN_IF_ERROR (ValidateInputs context (input config)) ;;
  RETURN_IF_ERROR (ValidateOutputs context (output config)) ;;
  record EvOrtCreateCpuAllocatorInfo ;;
  match OrtCreateCpuAllocatorInfo with
  | inl e => return_ (ort_error_status e)
  | inr info =>
      set_contexts (on_back (set_allocator_info (Some info))) ;;
      ret Status_Success
  end.

(** [OnnxBackend::CreateExecutionContext]. *)
Definition CreateExecutionContext (instance_name : string) (gpu_device : Z)
    (base_session_options : OrtSessionOptions) (paths : gmap string string)
    : Fn CreateState :=
  body (
    let* (cc, cc_model_filename) := select_model_filename gpu_device in
    let* s := get in
    match paths !! cc_model_filename with
    | None =>
        return_ (mkStatus INTERNAL
          ("unable to find model '" +:+ cc_model_filename +:+ "' for "
           +:+ Name (cs_backend s)))
    | Some path =>
        CreateExecutionContext_load instance_name gpu_device
          base_session_options path
    end).

End Run.

End OnnxBackend.

Import OnnxBackend.

(** ** Notions the statements use *)

(** Every payload of the group carries an OK status. *)
Definition all_ok (ps : list Payload) : Prop :=
  Forall (λ p, IsOk (status_ p) = true) ps.

(** The total batch size as [Context::Run] accumulates it, in [size_t]. *)
Definition accumulated_batch_size (total : N) (ps : list Payload) : N :=
  foldl (λ total p, size_t_add total (batch_size (request_provider_ p))) total ps.

(** The sum of the payloads' batch sizes, as a number. *)
Definition sum_batch_size (ps : list Payload) : N :=
  foldr (λ p n, (batch_size (request_provider_ p) + n)%N) 0%N ps.

(** The provider [Context::Run] takes as representative: the last one. *)
Definition representative (ps : list Payload) : option InferRequestProvider :=
  request_provider_ <$> last ps.

Definition INT_MAX : Z := 2 ^ 31 - 1.

Section Notions.
Context `{!Collaborators}.

(** [Context::Run] from the banner "Onnx Specific section" on, entered with
    the locals as the two checks above it leave them. *)
Definition Context_Run_past_checks (base : t) (provider : InferRequestProvider)
    (total : N) (s : RunState) : Status * RunState :=
  let '(status, fr) :=
    body (Context_Run_onnx_section base provider)
      (mkRunFrame (rs_context s) (rs_payloads s) (rs_trace s) total
         (Some provider) [] [] []) in
  (status, leave fr).

Definition SetInputTensor_status : Status :=
  mkStatus UNSUPPORTED "SetInputTensor() implemented".

Definition ReadOutputTensors_status : Status :=
  mkStatus UNSUPPORTED "ReadOutputTensors() implemented".

(** The status with which the fan-in loops of [Context::Run] return from
    it, if they do: the first input, else the first override, decides. *)
Definition fan_in_failure (base : t) (provider : InferRequestProvider) : option Status :=
  match request_input provider with
  | input :: _ =>
      let st := fst (GetInput (Config base) (ri_name input)) in
      Some (if IsOk st then SetInputTensor_status else st)
  | [] =>
      match GetInputOverride provider with
      | Some (_ :: _) => Some SetInputTensor_status
      | _ => None
      end
  end.

(** The single runtime invocation of a group whose representative request
    has no input and no override: the output array holds one null
    placeholder per configured output behind what the context held. *)
Definition the_OrtRun (base : t) (c : Context)
    : option OrtStatus * list (option OrtValue) :=
  OrtRun (session_ c) [] (input_tensors_ c) (mo_name <$> output (Config base))
    (output_tensors_ c ++ replicate (length (output (Config base))) None).

Definition the_OrtRun_event (base : t) (c : Context) : Event :=
  EvOrtRun (session_ c) [] (input_tensors_ c) (mo_name <$> output (Config base))
    (snd (the_OrtRun base c)).

Definition non_ok_payload_error (c : Context) : Status :=
  mkStatus INTERNAL
    ("unexpected payload with non-OK status given to runner for '"
     +:+ name_ c +:+ "'").

Definition batch_size_error (c : Context) (total : N) : Status :=
  mkStatus INTERNAL
    ("dynamic batch size " +:+ to_string total +:+ " for '" +:+ name_ c
     +:+ "', max allowed is " +:+ to_string (max_batch_size_ c)).

(** A tensor handle that a runtime invocation recorded in [tr] left in the
    output array. *)
Definition left_by_OrtRun (tr : list Event) (v : OrtValue) : Prop :=
  ∃ session input_names inputs output_names outputs,
    EvOrtRun session input_names inputs output_names outputs ∈ tr
    ∧ Some v ∈ outputs.

Definition is_OrtRun (e : Event) : bool :=
  match e with EvOrtRun _ _ _ _ _ => true | _ => false end.

Definition is_release (e : Event) : bool :=
  match e with EvOrtReleaseValue _ => true | _ => false end.

Definition is_callback (e : Event) : bool :=
  match e with EvOnCompleteQueuedPayloads _ => true | _ => false end.

Definition is_schema_query (e : Event) : bool :=
  match e with EvInputNames _ | EvOutputNames _ => true | _ => false end.

(** How often an event of a kind occurs in a trace. *)
Definition count (kind : Event → bool) (tr : list Event) : nat :=
  length (List.filter kind tr).

(** The events [ReleaseOrtRunResources] adds for one container. *)
Definition releases (tensors : list (option OrtValue)) : list Event :=
  EvOrtReleaseValue <$> omap id tensors.

(** *** Notions for instance creation *)

(** The configured maximum as a context receives it. *)
Definition context_max_batch_size (config : ModelConfig) : Z :=
  if max_batch_size config <=? 0 then NO_BATCHING else max_batch_size config.

(** The compute-capability string of a device, "major.minor". *)
Definition compute_capability (major minor : Z) : string :=
  to_string major +:+ "." +:+ to_string minor.

(** The model file the resolver is to use, in the words of its contract:
    the default for a CPU instance; for a GPU instance the override for
    the device's compute capability, else the default.  There is none
    when the device cannot be queried. *)
Definition spec_model_filename (config : ModelConfig) (gpu_device : Z) : option string :=
  if decide (gpu_device = NO_GPU_DEVICE) then Some (default_model_filename config)
  else match cudaGetDeviceProperties gpu_device with
       | inl _ => None
       | inr (major, minor) =>
           Some (default (default_model_filename config)
                   (cc_model_filenames config !! compute_capability major minor))
       end.

Definition model_not_found_error (b : t) (filename : string) : Status :=
  mkStatus INTERNAL ("unable to find model '" +:+ filename +:+ "' for " +:+ Name b).

(** A declared input the schema validation must refuse. *)
Definition invalid_input (exposed : gset string) (io : ModelInput) : Prop :=
  mi_name io ∉ exposed
  ∨ ConvertDataType (mi_data_type io) = ONNX_TENSOR_ELEMENT_DATA_TYPE_UNDEFINED.

Definition invalid_output (exposed : gset string) (io : ModelOutput) : Prop :=
  mo_name io ∉ exposed
  ∨ ConvertDataType (mo_data_type io) = ONNX_TENSOR_ELEMENT_DATA_TYPE_UNDEFINED.

(** The status with which one round of the validation loops returns, if it
    does. *)
Definition input_error (this : Context) (exposed : gset string) (io : ModelInput)
    : option Status :=
  if negb (IsOk (CheckAllowedModelInput io exposed)) then
    Some (CheckAllowedModelInput io exposed)
  else if ConvertDataType (mi_data_type io) =? ONNX_TENSOR_ELEMENT_DATA_TYPE_UNDEFINED
  then Some (mkStatus INTERNAL
               ("unsupported datatype " +:+ DataType_Name (mi_data_type io)
                +:+ " for input '" +:+ mi_name io +:+ "' for model '"
                +:+ name_ this +:+ "'"))
  else None.

Definition output_error (this : Context) (exposed : gset string) (io : ModelOutput)
    : option Status :=
  if negb (IsOk (CheckAllowedModelOutput io exposed)) then
    Some (CheckAllowedModelOutput io exposed)
  else if ConvertDataType (mo_data_type io) =? ONNX_TENSOR_ELEMENT_DATA_TYPE_UNDEFINED
  then Some (mkStatus INTERNAL
               ("unsupported datatype " +:+ DataType_Name (mo_data_type io)
                +:+ " for output '" +:+ mo_name io +:+ "' for model '"
                +:+ name_ this +:+ "'"))
  else None.

(** The status of a validation whose name query gave [names_status]. *)
Definition validation_status {A : Type} (names_status : Status)
    (error : A → option Status) (ios : list A) : Status :=
  if IsOk names_status then default Status_Success (head (omap error ios))
  else names_status.

(** The session that the block "Create Onnx session" stores in the context,
    if it stores one. *)
Definition session_loaded (gpu_device : Z) (base_session_options : OrtSessionOptions)
    (path : string) : option OrtSession :=
  if gpu_device =? NO_GPU_DEVICE then
    match OrtCreateSession path base_session_options with
    | inr session => Some session
    | inl _ => None
    end
  else
    match OrtSessionOptionsAppendExecutionProvider_CUDA base_session_options gpu_device with
    | Some _ => None
    | None =>
        match OrtCreateSession path
                (mkOrtSessionOptions (thread_pool_size base_session_options)
                   (graph_optimization_level base_session_options) (Some gpu_device))
        with
        | inr session => Some session
        | inl _ => None
        end
    end.

Definition is_input_query (e : Event) : bool :=
  match e with EvInputNames _ => true | _ => false end.

Definition is_output_query (e : Event) : bool :=
  match e with EvOutputNames _ => true | _ => false end.

(** *** Notions for the fan-in and fan-out of bytes *)

Definition element_count (dims : DimsList) : Z := foldr Z.mul 1 dims.

(** The byte size a payload's input is expected to have: dims x datatype
    width x that payload's batch size.  The width of a datatype is a
    parameter. *)
Definition expected_byte_size (width : DataType → Z) (datatype : DataType)
    (dims : DimsList) (batch : N) : Z :=
  element_count dims * width datatype * Z.of_N batch.



(** The bytes a payload submitted, and the bytes it has been handed back. *)
Definition submitted_bytes (payload : Payload) : list Byte.byte :=
  concat (ri_content <$> request_input (request_provider_ payload)).

Definition returned_bytes (payload : Payload) : list Byte.byte :=
  concat (snd <$> response_outputs_ payload).

(** A runtime that hands its input tensors back as its outputs. *)
Definition pass_through : Prop :=
  ∀ session input_names inputs output_names outputs,
    OrtRun session input_names inputs output_names outputs = (None, inputs).



Definition with_event (e : Event) (s : CreateState) : CreateState :=
  mkCreateState (cs_backend s) (cs_events s ++ [e]).

(** A statement sequence keeps a property of the state. *)
Definition preserves {S A : Type} (P : S → Prop) (c : Stm S A) : Prop :=
  ∀ s, P s → P (c s).2.

(** The context that [CreateExecutionContext] emplaced is the last of
    [contexts_], behind the [old] ones, and has the fields given to its
    constructor and empty tensor containers. *)
Definition emplaced (old : list Context) (name : string) (gpu_device mbs : Z)
    (s : CreateState) : Prop :=
  ∃ c, contexts_ (cs_backend s) = old ++ [c]
       ∧ name_ c = name ∧ gpu_device_ c = gpu_device ∧ max_batch_size_ c = mbs
       ∧ input_tensors_ c = [] ∧ output_tensors_ c = [].

End Notions.

(** ** Sample collaborators, configurations and groups *)

Module Samples.

Definition lookup_input (config : ModelConfig) (name : string) : Status * ModelInput :=
  match List.find (λ io, String.eqb (mi_name io) name) (input config) with
  | Some io => (Status_Success, io)
  | None =>
      (mkStatus INVALID_ARG ("unexpected inference input '" +:+ name +:+ "'"),
       mkModelInput "" 0 [])
  end.

(** A stub runtime around a given [OrtRun]: two devices of compute
    capability 6.1 and 7.0, sessions that load, exposed inputs {a, b} and
    exposed output {y}, datatypes numbered alike on both sides with 0
    undefined. *)
Definition stub
    (run : option OrtSession → list string → list (option OrtValue) →
           list string → list (option OrtValue) →
           option OrtStatus * list (option OrtValue)) : Collaborators := {|
  cudaGetDeviceProperties gpu :=
    if gpu =? 0 then inr (6, 1)
    else if gpu =? 1 then inr (7, 0)
    else inl "invalid device ordinal";
  OrtSessionOptionsAppendExecutionProvider_CUDA _ _ := None;
  OrtCreateSession _ _ := inr 1%N;
  OrtCreateCpuAllocatorInfo := inr 2%N;
  OrtRun := run;
  InputNames _ := (Status_Success, {["a"; "b"]});
  OutputNames _ := (Status_Success, {["y"]});
  ConvertDataType dt := dt;
  DataType_Name dt := "TYPE_" +:+ to_string dt;
  GetInput := lookup_input
|}.

(** Every slot of the output array receives a tensor handle. *)
Definition fill (outputs : list (option OrtValue)) : list (option OrtValue) :=
  imap (λ i _, Some (100 + N.of_nat i)%N) outputs.

Definition filling_runtime : Collaborators :=
  stub (λ _ _ _ _ outputs, (None, fill outputs)).

(** A runtime whose invocation fails after it has produced its outputs. *)
Definition failing_runtime : Collaborators :=
  stub (λ _ _ _ _ outputs, (Some (mkOrtStatus 1 "run failed"), fill outputs)).

Definition passthrough_runtime : Collaborators :=
  stub (λ _ _ inputs _ _, (None, inputs)).

Definition TYPE_UINT8 : DataType := 2.

Definition config_of (inputs : list string) (max_batch : Z) : ModelConfig :=
  mkModelConfig "m" max_batch
    ((λ name, mkModelInput name TYPE_UINT8 [2]) <$> inputs)
    [mkModelOutput "y" TYPE_UINT8 [2]]
    "model.onnx"
    {["6.1" := "model_61.onnx"]}.

Definition paths : gmap string string := {["model.onnx" := "/models/m/1/model.onnx"]}.

Definition base_options : OrtSessionOptions := mkOrtSessionOptions 1 0 None.

Definition cpu_context (max_batch : Z) : Context :=
  mkContext "m_0_cpu" NO_GPU_DEVICE max_batch (Some 1%N) (Some 2%N) [] [].

Definition payload_of (batch : N) (inputs : list RequestInput) (status : Status) : Payload :=
  mkPayload true (Some (mkModelInferStats false 0))
    (mkInferRequestProvider batch inputs None) [] status.

Definition bytes (n : nat) : list Byte.byte := replicate n Byte.x01.

(** A request with input "a" that supplies [n] bytes. *)
Definition request_a (batch : N) (n : nat) : Payload :=
  payload_of batch [mkRequestInput "a" [2] (bytes n)] Status_Success.

(** A request without inputs. *)
Definition request_none (batch : N) : Payload := payload_of batch [] Status_Success.

Definition run_state (max_batch : Z) (group : list Payload) : RunState :=
  mkRunState (cpu_context max_batch) group [].

Definition backend_of (inputs : list string) (max_batch : Z) : t :=
  mkBackend (config_of inputs max_batch) [cpu_context max_batch].

Definition dispatch_state (group : list Payload) : BackendState :=
  mkBackendState (backend_of ["a"] 4) group [].

Definition create_state (inputs : list string) (max_batch : Z) : CreateState :=
  mkCreateState (mkBackend (config_of inputs max_batch) []) [].

(** The width of a datatype in the samples: one byte. *)
Definition width (datatype : DataType) : Z := 1.

End Samples.

(** ** The rest of the backend: teardown and the creation of all instances *)

Module Lifecycle.

(** *** [Context::~Context] *)

(** What the destructor hands back to the runtime: the tensors that
    [ReleaseOrtRunResources] releases, then the session, then the
    allocator information. *)
Inductive TeardownEvent :=
  | TdRunResources (e : Event)
  | TdOrtReleaseSession (session : OrtSession)
  | TdOrtReleaseAllocatorInfo (info : OrtAllocatorInfo).

Definition Context_destroy (c : Context) : list TeardownEvent :=
  let s := ReleaseOrtRunResources (mkRunState c [] []) in
  (TdRunResources <$> rs_trace s)
  ++ match session_ (rs_context s) with
     | Some session => [TdOrtReleaseSession session]
     | None => []
     end
  ++ match allocator_info_ (rs_context s) with
     | Some info => [TdOrtReleaseAllocatorInfo info]
     | None => []
     end.

(** *** [OnnxBackend::CreateExecutionContexts] *)

(** [ModelInstanceGroup] of the model configuration.  [Config()] hands its
    [instance_group()] list to the loops below; the run path does not read
    it. *)
Inductive ModelInstanceGroup_Kind := KIND_AUTO | KIND_GPU | KIND_CPU.

Global Instance ModelInstanceGroup_Kind_eq_dec : EqDecision ModelInstanceGroup_Kind.
Proof. solve_decision. Defined.

Record ModelInstanceGroup := mkModelInstanceGroup {
  ig_name : string;
  ig_kind : ModelInstanceGroup_Kind;
  ig_count : Z;
  ig_gpus : list Z
}.

(** [uint32_t] arithmetic wraps. *)
Definition UINT32_MAX_plus_1 : N := (2 ^ 32)%N.

(** The state of one [CreateExecutionContexts] call: the backend and the
    collaborator calls, the local [total_context_cnt], and the runner
    count with which [SetConfiguredScheduler] has been called, if it has. *)
Record CreateAllState := mkCreateAllState {
  ca_create : CreateState;
  total_context_cnt : N;
  scheduler_runners : option N
}.

Definition on_create (f : Fn CreateState) : Fn CreateAllState :=
  λ s, let '(status, c) := f (ca_create s) in
       (status, mkCreateAllState c (total_context_cnt s) (scheduler_runners s)).

Definition increment_total_context_cnt (s : CreateAllState) : CreateAllState :=
  mkCreateAllState (ca_create s)
    ((total_context_cnt s + 1) mod UINT32_MAX_plus_1)%N (scheduler_runners s).

Section CreateAll.
Context `{!Collaborators}.

(** [InferenceBackend::SetConfiguredScheduler] of the base class, as the
    status it answers for a runner count. *)
Variable SetConfiguredScheduler : N → Status.

Definition call_SetConfiguredScheduler : Fn CreateAllState :=
  λ s, (SetConfiguredScheduler (total_context_cnt s),
        mkCreateAllState (ca_create s) (total_context_cnt s)
          (Some (total_context_cnt s))).

(** One [RETURN_IF_ERROR(CreateExecutionContext(...)); total_context_cnt++;]. *)
Definition create_instance (instance_name : string) (gpu_device : Z)
    (session_options : OrtSessionOptions) (paths : gmap string string)
    : Stm CreateAllState unit :=
  RETURN_IF_ERROR
    (on_create (CreateExecutionContext instance_name gpu_device session_options paths)) ;;
  modify increment_total_context_cnt.

Definition CreateExecutionContexts_body (instance_group : list ModelInstanceGroup)
    (paths : gmap string string) : Stm CreateAllState Status :=
  (* the "prototype" session option: one thread, graph optimization off *)
  let session_options := mkOrtSessionOptions 1 0 None in
  for_each instance_group (λ group,
    for_each (seqZ 0 (ig_count group)) (λ c,
      if decide (ig_kind group = KIND_CPU) then
        let instance_name := ig_name group +:+ "_" +:+ to_string c +:+ "_cpu" in
        create_instance instance_name NO_GPU_DEVICE session_options paths
      else
        for_each (ig_gpus group) (λ gpu_device,
          let instance_name := ig_name group +:+ "_" +:+ to_string c +:+ "_gpu"
                               +:+ to_string gpu_device in
          create_instance instance_name gpu_device session_options paths))) ;;
  RETURN_IF_ERROR call_SetConfiguredScheduler ;;
  ret Status_Success.

(** [OnnxBackend::CreateExecutionContexts]: the status, the backend and
    trace it leaves, and the runner count the scheduler was asked for. *)
Definition CreateExecutionContexts (instance_group : list ModelInstanceGroup)
    (paths : gmap string string) (s : CreateState)
    : Status * CreateState * option N :=
  let '(status, s') :=
    body (CreateExecutionContexts_body instance_group paths)
      (mkCreateAllState s 0%N None) in
  (status, ca_create s', scheduler_runners s').

End CreateAll.

End Lifecycle.

(** ** The SavedModel loader ([src/backends/tensorflow/loader.cc]) *)

Module TensorflowLoader.

Definition TF_Session := N.
Definition SignatureDef := N.
Definition TF_Code := Z.
Definition TF_OK : TF_Code := 0.

(** The meta graph that [ParseFromArray] reads out of the loader's buffer,
    as far as [LoadSavedModel] looks at it. *)
Record MetaGraphDef := mkMetaGraphDef {
  tags : list string;
  signature_def : gmap string SignatureDef
}.

(** What [TF_LoadSessionFromSavedModel] leaves behind: the status code and
    message, the session pointer it returned, and the meta graph in its
    buffer. *)
Record Loaded := mkLoaded {
  TF_GetCode : TF_Code;
  TF_Message : string;
  loaded_session : option TF_Session;
  meta_graph_def : MetaGraphDef
}.

(** What the caller holds after the call: [*session] and [*sig]. *)
Record Outcome := mkOutcome {
  out_session : option TF_Session;
  out_sig : option SignatureDef
}.

Definition DEFAULT_SERVING_SIGNATURE_DEF_KEY : string := "serving_default".

(** The loop that looks for the "serve" tag, leaving at the first hit. *)
Fixpoint find_serve_tag (kSavedModelTagServe : string) (tags : list string)
    (found_serve_tag : bool) : bool :=
  match tags with
  | [] => found_serve_tag
  | tag :: tags' =>
      if String.eqb tag kSavedModelTagServe then true
      else find_serve_tag kSavedModelTagServe tags' found_serve_tag
  end.

Section Loader.

(** [tensorflow::kSavedModelTagServe] and [FromTFError], which the loader
    takes from TensorFlow and from the server's status header. *)
Variable kSavedModelTagServe : string.
Variable FromTFError : TF_Code → RequestStatusCode.

(** [LoadSavedModel].  [sig] is what [*sig] held before the call, or [None]
    together with [sig_is_null] for a null pointer. *)
Definition LoadSavedModel (model_name : string) (loaded : Loaded)
    (sig_is_null : bool) (sig : option SignatureDef) : Status * Outcome :=
  if negb (TF_GetCode loaded =? TF_OK) then
    (mkStatus (FromTFError (TF_GetCode loaded)) (TF_Message loaded),
     mkOutcome None sig)
  else
    let session := loaded_session loaded in
    if negb (find_serve_tag kSavedModelTagServe (tags (meta_graph_def loaded)) false) then
      (mkStatus INTERNAL
         ("unable to load model '" +:+ model_name +:+ "', expected '"
          +:+ kSavedModelTagServe +:+ "' tag"),
       mkOutcome session sig)
    else
      match signature_def (meta_graph_def loaded) !! DEFAULT_SERVING_SIGNATURE_DEF_KEY with
      | None =>
          (mkStatus INVALID_ARG
             ("unable to load model '" +:+ model_name +:+ "', expected '"
              +:+ DEFAULT_SERVING_SIGNATURE_DEF_KEY +:+ "' signature"),
           mkOutcome session sig)
      | Some signature =>
          (Status_Success,
           mkOutcome session (if sig_is_null then sig else Some signature))
      end.

End Loader.

End TensorflowLoader.

(** ** Debug strings of the LibTorch workspace *)

Module LibTorch.

(** The loop of [DimsDebugString], from element [dims] on. *)
Fixpoint DimsDebugString_loop (dims : list Z) (first : bool) (str : string) : string :=
  match dims with
  | [] => str
  | d :: dims' =>
      let str1 := if negb first then str +:+ "," else str in
      DimsDebugString_loop dims' false (str1 +:+ to_string d)
  end.

Definition DimsDebugString (dims : list Z) : string :=
  DimsDebugString_loop dims true ("" +:+ "[") +:+ "]".

End LibTorch.

(** ** Notions for the rest of the backend *)

Section MoreNotions.
Context `{!Collaborators}.
Import Lifecycle.

(** A context between runs: no tensor is held. *)
Definition idle (c : Context) : Prop :=
  input_tensors_ c = [] ∧ output_tensors_ c = [].

(** A context with both tensor containers emptied. *)
Definition cleared (c : Context) : Context :=
  set_output_tensors (λ _, []) (set_input_tensors (λ _, []) c).

(** The session options an instance's session is created with. *)
Definition session_options_for (gpu_device : Z) (base : OrtSessionOptions)
    : OrtSessionOptions :=
  if gpu_device =? NO_GPU_DEVICE then base
  else mkOrtSessionOptions (thread_pool_size base) (graph_optimization_level base)
         (Some gpu_device).

(** The error with which the block "Create Onnx session" leaves
    [onnx_status], if it does, and whether [OrtCreateSession] was called
    on the way. *)
Definition session_failure (gpu_device : Z) (base : OrtSessionOptions)
    (path : string) : option (OrtStatus * bool) :=
  if gpu_device =? NO_GPU_DEVICE then
    match OrtCreateSession path base with
    | inl e => Some (e, true)
    | inr _ => None
    end
  else
    match OrtSessionOptionsAppendExecutionProvider_CUDA base gpu_device with
    | Some e => Some (e, false)
    | None =>
        match OrtCreateSession path (session_options_for gpu_device base) with
        | inl e => Some (e, true)
        | inr _ => None
        end
    end.

(** The instances of one group, in the order of the loops: the name and
    the device of each. *)
Definition instances_of_group (group : ModelInstanceGroup) : list (string * Z) :=
  c ← seqZ 0 (ig_count group);
  if decide (ig_kind group = KIND_CPU) then
    [(ig_name group +:+ "_" +:+ to_string c +:+ "_cpu", NO_GPU_DEVICE)]
  else
    (λ gpu_device,
       (ig_name group +:+ "_" +:+ to_string c +:+ "_gpu" +:+ to_string gpu_device,
        gpu_device)) <$> ig_gpus group.

Definition instances (instance_group : list ModelInstanceGroup) : list (string * Z) :=
  instance_group ≫= instances_of_group.

(** Whether the block "Create Onnx session" gets as far as calling
    [OrtCreateSession]: always for a CPU instance, and for a GPU instance
    when the CUDA provider could be appended. *)
Definition session_requested (gpu_device : Z) (base : OrtSessionOptions) : bool :=
  if gpu_device =? NO_GPU_DEVICE then true
  else match OrtSessionOptionsAppendExecutionProvider_CUDA base gpu_device with
       | Some _ => false
       | None => true
       end.

Definition session_events (gpu_device : Z) (base : OrtSessionOptions) (path : string)
    : list Event :=
  if session_requested gpu_device base
  then [EvOrtCreateSession path (session_options_for gpu_device base)]
  else [].

(** The device query of a GPU instance. *)
Definition device_query_events (gpu_device : Z) : list Event :=
  if decide (gpu_device = NO_GPU_DEVICE) then []
  else [EvCudaGetDeviceProperties gpu_device].

(** The artifact path of an instance's model file, when the file resolves
    and is among the artifacts. *)
Definition instance_path (config : ModelConfig) (paths : gmap string string)
    (gpu_device : Z) : option string :=
  filename ← spec_model_filename config gpu_device; paths !! filename.

(** What the schema validation of a context with session [session] and
    name [instance_name] answers. *)
Definition inputs_status (config : ModelConfig) (instance_name : string)
    (gpu_device : Z) (session : option OrtSession) : Status :=
  validation_status (InputNames session).1
    (input_error
       (mkContext instance_name gpu_device (context_max_batch_size config)
          session None [] [])
       (InputNames session).2)
    (input config).

Definition outputs_status (config : ModelConfig) (instance_name : string)
    (gpu_device : Z) (session : option OrtSession) : Status :=
  validation_status (OutputNames session).1
    (output_error
       (mkContext instance_name gpu_device (context_max_batch_size config)
          session None [] [])
       (OutputNames session).2)
    (output config).

(** Everything one instance creation needs is there: the model file, the
    answers to both name queries on the session pointer that the block
    "Create Onnx session" left in the context -- null if the session did
    not load --, valid declarations, and the allocator information. *)
Definition ready_to_create (config : ModelConfig) (gpu_device : Z)
    (options : OrtSessionOptions) (paths : gmap string string)
    (filename path : string) (info : OrtAllocatorInfo) : Prop :=
  let session := session_loaded gpu_device options path in
  spec_model_filename config gpu_device = Some filename
  ∧ paths !! filename = Some path
  ∧ IsOk (InputNames session).1 = true
  ∧ (∀ io, io ∈ input config → ¬ invalid_input (InputNames session).2 io)
  ∧ IsOk (OutputNames session).1 = true
  ∧ (∀ io, io ∈ output config → ¬ invalid_output (OutputNames session).2 io)
  ∧ OrtCreateCpuAllocatorInfo = inr info.

Definition creatable (config : ModelConfig) (options : OrtSessionOptions)
    (paths : gmap string string) (gpu_device : Z) : Prop :=
  ∃ filename path info,
    ready_to_create config gpu_device options paths filename path info.

(** A context as a creation that returned OK leaves it.  Its session is
    what the block "Create Onnx session" stored for the instance's
    artifact, which is null when the session did not load. *)
Definition initialised (config : ModelConfig) (options : OrtSessionOptions)
    (paths : gmap string string) (instance : string * Z) (c : Context) : Prop :=
  name_ c = instance.1 ∧ gpu_device_ c = instance.2
  ∧ max_batch_size_ c = context_max_batch_size config
  ∧ session_ c = (instance_path config paths instance.2
                  ≫= session_loaded instance.2 options)
  ∧ is_Some (allocator_info_ c) ∧ idle c.

(** The context that a creation which returned an error has left in
    [contexts_]: none if it returned before the model file was found, else
    the emplaced one, with the session pointer as the block "Create Onnx
    session" left it and no allocator information. *)
Definition left_by_failure (config : ModelConfig) (options : OrtSessionOptions)
    (paths : gmap string string) (instance : string * Z) : list Context :=
  match instance_path config paths instance.2 with
  | Some path =>
      [mkContext instance.1 instance.2 (context_max_batch_size config)
         (session_loaded instance.2 options path) None [] []]
  | None => []
  end.

(** A context as [CreateExecutionContext] leaves it on any path that
    emplaces one. *)
Definition well_formed (config : ModelConfig) (c : Context) : Prop :=
  max_batch_size_ c = context_max_batch_size config ∧ idle c.

Definition is_create_session (e : Event) : bool :=
  match e with EvOrtCreateSession _ _ => true | _ => false end.

Definition is_tensor_release (e : TeardownEvent) : bool :=
  match e with TdRunResources _ => true | _ => false end.

End MoreNotions.

(** ** More samples *)

Module MoreSamples.
Import Lifecycle TensorflowLoader.

(** A runtime none of whose sessions load. *)
Definition session_failing_runtime : Collaborators := {|
  cudaGetDeviceProperties gpu := inr (6, 1);
  OrtSessionOptionsAppendExecutionProvider_CUDA _ _ := None;
  OrtCreateSession _ _ := inl (mkOrtStatus 3 "no such file");
  OrtCreateCpuAllocatorInfo := inr 2%N;
  OrtRun _ _ _ _ outputs := (None, outputs);
  InputNames _ := (Status_Success, {["a"; "b"]});
  OutputNames _ := (Status_Success, {["y"]});
  ConvertDataType dt := dt;
  DataType_Name dt := "TYPE_" +:+ to_string dt;
  GetInput := Samples.lookup_input
|}.

(** One CPU instance, and two replicas on device 1. *)
Definition groups : list ModelInstanceGroup :=
  [mkModelInstanceGroup "g" KIND_CPU 1 [];
   mkModelInstanceGroup "h" KIND_GPU 2 [1]].

Definition scheduler_accepts (runners : N) : Status := Status_Success.

Definition from_tf_error (code : TF_Code) : RequestStatusCode :=
  if code =? TF_OK then SUCCESS else INTERNAL.

Definition loaded_model : Loaded :=
  mkLoaded TF_OK "" (Some 7%N)
    (mkMetaGraphDef ["train"; "serve"] {["serving_default" := 3%N]}).

(** One CPU instance, and one replica on a device that does not exist. *)
Definition groups_with_bad_device : list ModelInstanceGroup :=
  [mkModelInstanceGroup "g" KIND_CPU 1 [];
   mkModelInstanceGroup "h" KIND_GPU 1 [5]].

(** Two CPU instances. *)
Definition cpu_groups : list ModelInstanceGroup :=
  [mkModelInstanceGroup "g" KIND_CPU 2 []].

(** A declaration whose second input converts to the undefined type. *)
Definition TYPE_INVALID : DataType := 0.

Definition declared : list ModelInput :=
  [mkModelInput "a" Samples.TYPE_UINT8 [2];
   mkModelInput "b" TYPE_INVALID [2];
   mkModelInput "c" Samples.TYPE_UINT8 [2]].

End MoreSamples.

Section RunProperties.
Context `{!Collaborators}.

Lemma collect_payloads_ok (ps : list Payload) (fr : RunFrame) :
  all_ok ps →
  for_each ps collect_payload fr =
    (Go tt,
     mkRunFrame (this fr) (payloads fr) (trace fr)
       (accumulated_batch_size (total_batch_size fr) ps)
       (match representative ps with
        | Some p => Some p
        | None => input_request_provider fr
        end)
       (input_buffers fr) (input_names fr) (output_names fr)).
Proof.
  intros Hok. revert fr.
  induction Hok as [|p ps Hp Hps IH]; intros fr.
  - by destruct fr.
  - cbn [for_each]. unfold bind at 1. unfold collect_payload at 1.
    unfold bind, get, modify. rewrite Hp. cbn.
    rewrite IH. cbn. do 2 f_equal.
    unfold representative. destruct ps as [|q ps']; [done|].
    change (last (p :: q :: ps')) with (last (q :: ps')).
    destruct (last (q :: ps')) eqn:E; [done|].
    by apply last_None in E.
Qed.

Lemma collect_payloads_bad (ps : list Payload) (fr : RunFrame) :
  Exists (λ p, IsOk (status_ p) = false) ps →
  ∃ fr', for_each ps collect_payload fr = (Return (non_ok_payload_error (this fr)), fr')
         ∧ leave fr' = leave fr.
Proof.
  intros Hbad. revert fr.
  induction ps as [|p ps IH]; intros fr; [by apply Exists_nil in Hbad|].
  cbn [for_each]. unfold bind at 1. unfold collect_payload at 1.
  unfold bind, get, modify, return_.
  destruct (IsOk (status_ p)) eqn:Hp; cbn.
  - apply Exists_cons in Hbad as [Hbad|Hbad]; [congruence|].
    destruct (IH Hbad (set_input_request_provider (request_provider_ p)
                (set_total_batch_size
                   (λ total, size_t_add total (batch_size (request_provider_ p))) fr)))
      as (fr' & -> & Hleave).
    eauto.
  - eauto.
Qed.

Lemma accumulated_batch_size_sum (ps : list Payload) (total : N) :
  (total < SIZE_MAX_plus_1)%N →
  accumulated_batch_size total ps = ((total + sum_batch_size ps) mod SIZE_MAX_plus_1)%N.
Proof.
  revert total. induction ps as [|p ps IH]; intros total Hlt; cbn.
  - rewrite N.add_0_r. by rewrite N.mod_small.
  - rewrite IH by (apply N.mod_lt; by vm_compute).
    unfold size_t_add. rewrite N.Div0.add_mod_idemp_l.
    fold (sum_batch_size ps). by rewrite N.add_assoc.
Qed.

Lemma accumulated_batch_size_fits (ps : list Payload) :
  (sum_batch_size ps < SIZE_MAX_plus_1)%N →
  accumulated_batch_size 0 ps = sum_batch_size ps.
Proof.
  intros Hlt. rewrite accumulated_batch_size_sum by done.
  by rewrite N.add_0_l, N.mod_small.
Qed.

Lemma not_all_ok (ps : list Payload) :
  ¬ all_ok ps → Exists (λ p, IsOk (status_ p) = false) ps.
Proof.
  intros Hn. apply not_Forall_Exists in Hn; [|intros p; apply _].
  eapply Exists_impl; [exact Hn|]. intros p Hp. cbn in Hp.
  by destruct (IsOk (status_ p)).
Qed.

(** The three early exits of [Context::Run] and the way past them. *)
Lemma Context_Run_non_ok (base : t) (s : RunState) :
  Exists (λ p, IsOk (status_ p) = false) (rs_payloads s) →
  Context_Run base s = (non_ok_payload_error (rs_context s), s).
Proof.
  intros Hbad. unfold Context_Run, body, Context_Run_body.
  unfold bind at 1. unfold get at 1. unfold bind at 1.
  destruct (collect_payloads_bad _ (enter s) Hbad) as (fr' & Hrun & Hleave).
  cbn [payloads enter]. cbn [payloads enter] in Hrun. rewrite Hrun.
  rewrite Hleave. by destruct s.
Qed.

Lemma Context_Run_ok (base : t) (s : RunState) :
  all_ok (rs_payloads s) →
  let total := accumulated_batch_size 0 (rs_payloads s) in
  Context_Run base s =
    if (total =? 0)%N then (Status_Success, s)
    else if negb (total =? 1)%N
            && (size_t_of_int (max_batch_size_ (rs_context s)) <? total)%N
    then (batch_size_error (rs_context s) total, s)
    else match representative (rs_payloads s) with
         | Some provider => Context_Run_past_checks base provider total s
         | None => (Status_Success, s)
         end.
Proof.
  intros Hok total. unfold Context_Run, body, Context_Run_body.
  unfold bind at 1. unfold get at 1. unfold bind at 1.
  cbn [payloads enter].
  pose proof (collect_payloads_ok _ (enter s) Hok) as Hrun.
  cbn [payloads enter this trace total_batch_size input_request_provider
       input_buffers input_names output_names] in Hrun.
  rewrite Hrun. fold total. unfold bind at 1. unfold get at 1.
  cbn [total_batch_size this input_request_provider].
  destruct (total =? 0)%N; [by destruct s|].
  destruct (negb (total =? 1)%N
            && (size_t_of_int (max_batch_size_ (rs_context s)) <? total)%N);
    [by destruct s|].
  unfold Context_Run_past_checks, body.
  destruct (representative (rs_payloads s)); [done|by destruct s].
Qed.

Lemma output_placeholders (outs : list ModelOutput) (fr : RunFrame) :
  for_each outs (λ output,
    modify (set_output_names (λ names, names ++ [mo_name output])) ;;
    modify (set_this (set_output_tensors (λ ts, ts ++ [None])))) fr =
  (Go tt,
   set_this (set_output_tensors (λ ts, ts ++ replicate (length outs) None))
     (set_output_names (λ names, names ++ (mo_name <$> outs)) fr)).
Proof.
  revert fr. induction outs as [|o outs IH]; intros fr.
  - cbn. unfold ret, set_this, set_output_names, set_output_tensors. cbn.
    rewrite !app_nil_r. by destruct fr as [[] ? ? ? ? ? ? ?].
  - cbn [for_each]. unfold bind at 1. unfold bind at 1. unfold modify at 1 2.
    rewrite IH. unfold set_this, set_output_names, set_output_tensors. cbn.
    by rewrite <- !app_assoc.
Qed.

Lemma past_checks_fan_in_fails (base : t) (provider : InferRequestProvider)
    (total : N) (s : RunState) (st : Status) :
  fan_in_failure base provider = Some st →
  Context_Run_past_checks base provider total s = (st, s).
Proof.
  unfold fan_in_failure, Context_Run_past_checks, body, Context_Run_onnx_section.
  unfold bind at 1. unfold get at 1. unfold bind at 1.
  destruct (request_input provider) as [|input inputs].
  - cbn [for_each]. unfold ret at 1. unfold bind at 1.
    destruct (GetInputOverride provider) as [[|pr prs]|]; [done| |done].
    intros [= <-]. cbn [for_each]. unfold bind at 1.
    unfold RETURN_IF_ERROR, SetInputTensor, body, return_. cbn.
    by destruct s.
  - intros [= <-]. cbn [for_each]. unfold bind at 1. unfold bind at 1.
    unfold RETURN_IF_ERROR at 1. unfold base_GetInput.
    destruct (IsOk (fst (GetInput (Config base) (ri_name input)))).
    + unfold RETURN_IF_ERROR, SetInputTensor, body, return_, bind. cbn.
      by destruct s.
    + cbn. by destruct s.
Qed.

Lemma past_checks_runs (base : t) (provider : InferRequestProvider)
    (total : N) (s : RunState) :
  fan_in_failure base provider = None →
  Context_Run_past_checks base provider total s =
    (match fst (the_OrtRun base (rs_context s)) with
     | Some e => ort_error_status e
     | None => ReadOutputTensors_status
     end,
     mkRunState
       (set_output_tensors (λ _, snd (the_OrtRun base (rs_context s))) (rs_context s))
       (rs_payloads s)
       (rs_trace s ++ [the_OrtRun_event base (rs_context s)])).
Proof.
  unfold fan_in_failure, Context_Run_past_checks, body, Context_Run_onnx_section.
  unfold bind at 1. unfold get at 1. unfold bind at 1.
  destruct (request_input provider) as [|input inputs]; [|done].
  intros Hov. cbn [for_each]. unfold ret at 1. unfold bind at 1.
  assert (∀ fr : RunFrame,
            match GetInputOverride provider with
            | Some input_override_map =>
                for_each input_override_map (λ pr,
                  RETURN_IF_ERROR
                    (SetInputTensor (fst pr) (datatype_ (snd pr)) (dims_ (snd pr))
                       total))
            | None => ret ()
            end fr = (Go tt, fr)) as ->.
  { intros fr. by destruct (GetInputOverride provider) as [[|pr prs]|]. }
  unfold bind at 1. rewrite output_placeholders.
  unfold bind at 1. unfold get at 1. unfold bind at 1. unfold modify at 1.
  unfold bind at 1. unfold modify at 1.
  unfold the_OrtRun_event, the_OrtRun. cbn.
  destruct (OrtRun _ _ _ _ _) as [[e|] outs]; cbn; by destruct s as [[] ? ?].
Qed.

(** What one [Context::Run] does to the caller's state, on every path: it
    never touches the payloads or the input tensors, and it adds to the
    trace either nothing or its single runtime invocation. *)
Lemma Context_Run_effect (base : t) (s : RunState) :
  let s' := (Context_Run base s).2 in
  rs_payloads s' = rs_payloads s
  ∧ input_tensors_ (rs_context s') = input_tensors_ (rs_context s)
  ∧ (s' = s
     ∨ rs_trace s' = rs_trace s ++ [the_OrtRun_event base (rs_context s)]
       ∧ output_tensors_ (rs_context s') = (the_OrtRun base (rs_context s)).2).
Proof.
  destruct (decide (all_ok (rs_payloads s))) as [Hok|Hbad].
  - rewrite (Context_Run_ok base s Hok).
    destruct (_ =? 0)%N; [cbn; auto|].
    destruct (negb _ && _); [cbn; auto|].
    destruct (representative (rs_payloads s)) as [provider|]; [|cbn; auto].
    destruct (fan_in_failure base provider) as [st|] eqn:Hfan.
    + rewrite (past_checks_fan_in_fails _ _ _ _ _ Hfan). cbn. auto.
    + rewrite (past_checks_runs _ _ _ _ Hfan). cbn. auto.
  - rewrite (Context_Run_non_ok base s (not_all_ok _ Hbad)). cbn. auto.
Qed.

Lemma release_tensors_releases (tensors : list (option OrtValue)) (tr : list Event) :
  release_tensors tensors tr = tr ++ releases tensors.
Proof.
  unfold release_tensors, releases. revert tr.
  induction tensors as [|[v|] tensors IH]; intros tr; cbn.
  - by rewrite app_nil_r.
  - rewrite IH. by rewrite <- app_assoc.
  - apply IH.
Qed.

Lemma ReleaseOrtRunResources_effect (s : RunState) :
  ReleaseOrtRunResources s =
    mkRunState
      (set_output_tensors (λ _, []) (set_input_tensors (λ _, []) (rs_context s)))
      (rs_payloads s)
      (rs_trace s ++ releases (input_tensors_ (rs_context s))
                  ++ releases (output_tensors_ (rs_context s))).
Proof.
  unfold ReleaseOrtRunResources. rewrite !release_tensors_releases.
  by rewrite <- app_assoc.
Qed.

Lemma releases_elem (tensors : list (option OrtValue)) (v : OrtValue) :
  Some v ∈ tensors → EvOrtReleaseValue v ∈ releases tensors.
Proof.
  intros Hv. unfold releases. apply list_elem_of_fmap. exists v. split; [done|].
  apply list_elem_of_omap. by exists (Some v).
Qed.

Lemma releases_only (tensors : list (option OrtValue)) (e : Event) :
  e ∈ releases tensors → is_release e = true.
Proof.
  unfold releases. intros (v & -> & _)%list_elem_of_fmap. done.
Qed.

Lemma runner_in_range (contexts : list Context) (runner_idx : N) (c : Context) :
  contexts !! N.to_nat runner_idx = Some c →
  (N.of_nat (length contexts) <=? runner_idx)%N = false.
Proof.
  intros Hc. apply lookup_lt_Some in Hc. apply N.leb_gt. lia.
Qed.

Lemma runner_out_of_range (contexts : list Context) (runner_idx : N) :
  contexts !! N.to_nat runner_idx = None →
  (N.of_nat (length contexts) <=? runner_idx)%N = true.
Proof.
  intros Hc. apply lookup_ge_None in Hc. apply N.leb_le. lia.
Qed.

(** The dispatcher on a valid runner index, step by step. *)
Lemma Run_in_range (runner_idx : N) (s : BackendState) (c : Context) :
  contexts_ (backend s) !! N.to_nat runner_idx = Some c →
  let r := Context_Run (backend s)
             (mkRunState c (start_compute (gpu_device_ c) <$> queued_payloads s)
                (events s)) in
  Run runner_idx s =
    mkBackendState
      (mkBackend (Config (backend s))
         (<[N.to_nat runner_idx :=
              set_output_tensors (λ _, [])
                (set_input_tensors (λ _, []) (rs_context r.2))]>
            (contexts_ (backend s))))
      (rs_payloads r.2)
      (rs_trace r.2 ++ releases (input_tensors_ (rs_context r.2))
         ++ releases (output_tensors_ (rs_context r.2))
         ++ [EvOnCompleteQueuedPayloads r.1]).
Proof.
  intros Hc r. unfold Run. rewrite (runner_in_range _ _ _ Hc), Hc.
  fold r. destruct r as [status rs]. rewrite ReleaseOrtRunResources_effect.
  cbn. by rewrite <- !app_assoc.
Qed.

Lemma size_t_of_int_nonneg (i : Z) :
  0 ≤ i ≤ INT_MAX → size_t_of_int i = Z.to_N i.
Proof.
  unfold INT_MAX, size_t_of_int, SIZE_MAX_plus_1.
  change (Z.of_N (2 ^ 64)) with 18446744073709551616.
  change (2 ^ 31 - 1) with 2147483647.
  intros Hi. rewrite Z.mod_small; [done|lia].
Qed.

Lemma representative_None (ps : list Payload) :
  representative ps = None → ps = [].
Proof.
  unfold representative. destruct (last ps) eqn:E; [done|].
  intros _. by apply last_None.
Qed.

(** The branches of the embedding that stand for dereferencing a null
    provider and for indexing past [contexts_] are never taken. *)
Lemma representative_of_nonzero_total (ps : list Payload) :
  accumulated_batch_size 0 ps ≠ 0%N → is_Some (representative ps).
Proof.
  intros Hne. destruct (representative ps) eqn:Hrep; [by eexists|].
  apply representative_None in Hrep. by subst ps.
Qed.

(** C6.  A Group with a payload whose status is not OK makes
    [Context::Run] return the INTERNAL precondition error and leaves the
    caller's state as it was: the context's tensor containers, the
    payloads and the trace of collaborator calls are unchanged, so no
    fan-in assembly and no runtime invocation took place. *)
Theorem Context_Run_rejects_non_ok_payload (base : t) (s : RunState) :
  Exists (λ p, IsOk (status_ p) = false) (rs_payloads s) →
  Context_Run base s = (non_ok_payload_error (rs_context s), s)
  ∧ Code (non_ok_payload_error (rs_context s)) = INTERNAL
  ∧ count is_OrtRun (rs_trace (Context_Run base s).2) = count is_OrtRun (rs_trace s).
Proof.
  intros Hbad. rewrite (Context_Run_non_ok base s Hbad). done.
Qed.

(** C7.  A Group of OK payloads whose batch sizes sum to zero makes
    [Context::Run] return success and leaves the caller's state as it
    was: no fan-in assembly, no runtime invocation, nothing written. *)
Theorem Context_Run_zero_batch_is_noop (base : t) (s : RunState) :
  all_ok (rs_payloads s) →
  sum_batch_size (rs_payloads s) = 0%N →
  Context_Run base s = (Status_Success, s).
Proof.
  intros Hok Hzero. rewrite (Context_Run_ok base s Hok).
  rewrite accumulated_batch_size_fits by (by rewrite Hzero).
  by rewrite Hzero.
Qed.

(** C2.  For a Group of OK payloads, with [total] the sum of the batch
    sizes as [Context::Run] accumulates it (the plain sum whenever that
    fits a [size_t]) and a context whose maximum is a non-negative [int]:
    if [total] is not 1 and exceeds the maximum, [Run] returns the
    batch-size error with the caller's state untouched (no fan-in, no
    runtime invocation); otherwise, for a non-zero [total], control passes
    the check and continues with the fan-in section.  A total of exactly
    1 always passes, whatever the maximum. *)
Theorem Context_Run_batch_size_check (base : t) (s : RunState) :
  all_ok (rs_payloads s) →
  0 ≤ max_batch_size_ (rs_context s) ≤ INT_MAX →
  let total := accumulated_batch_size 0 (rs_payloads s) in
  ((sum_batch_size (rs_payloads s) < SIZE_MAX_plus_1)%N →
     total = sum_batch_size (rs_payloads s))
  ∧ (total ≠ 1%N → max_batch_size_ (rs_context s) < Z.of_N total →
       Context_Run base s = (batch_size_error (rs_context s) total, s)
       ∧ IsOk (batch_size_error (rs_context s) total) = false)
  ∧ (total ≠ 0%N →
     total = 1%N ∨ Z.of_N total ≤ max_batch_size_ (rs_context s) →
       ∃ provider, representative (rs_payloads s) = Some provider
         ∧ Context_Run base s = Context_Run_past_checks base provider total s).
Proof.
  intros Hok Hmax total. split; [apply accumulated_batch_size_fits|].
  pose proof (Context_Run_ok base s Hok) as Hrun. cbn zeta in Hrun. fold total in Hrun.
  rewrite (size_t_of_int_nonneg _ Hmax) in Hrun.
  split.
  - intros Hne1 Hgt. split; [|done]. rewrite Hrun.
    destruct (total =? 0)%N eqn:E0; [apply N.eqb_eq in E0; lia|].
    destruct (total =? 1)%N eqn:E1; [by apply N.eqb_eq in E1|].
    destruct (Z.to_N _ <? total)%N eqn:E2; [done|].
    apply N.ltb_ge in E2. lia.
  - intros Hne0 Hpass.
    destruct (representative (rs_payloads s)) as [provider|] eqn:Hrep.
    + exists provider. split; [done|]. rewrite Hrun.
      destruct (total =? 0)%N eqn:E0; [by apply N.eqb_eq in E0|].
      destruct (total =? 1)%N eqn:E1; [done|].
      destruct (Z.to_N _ <? total)%N eqn:E2; [|done].
      apply N.ltb_lt in E2. apply N.eqb_neq in E1. lia.
    + apply representative_None in Hrep. subst total. by rewrite Hrep in Hne0.
Qed.

Lemma count_app (kind : Event → bool) (tr1 tr2 : list Event) :
  count kind (tr1 ++ tr2) = (count kind tr1 + count kind tr2)%nat.
Proof. unfold count. by rewrite List.filter_app, length_app. Qed.

Lemma count_none (kind : Event → bool) (tr : list Event) :
  (∀ e, e ∈ tr → kind e = false) → count kind tr = 0%nat.
Proof.
  intros Hnone. unfold count. induction tr as [|e tr IH]; [done|].
  cbn. rewrite Hnone by (by left). apply IH. intros e' He'. apply Hnone. by right.
Qed.

Lemma releases_no_callback (tensors : list (option OrtValue)) :
  count is_callback (releases tensors) = 0%nat.
Proof.
  apply count_none. intros e He. apply releases_only in He. by destruct e.
Qed.

Lemma count_one_callback (status : Status) :
  count is_callback [EvOnCompleteQueuedPayloads status] = 1%nat.
Proof. reflexivity. Qed.

(** What the dispatcher adds to the trace before it calls back, on a valid
    runner index: the run's events, then the releases. *)
Lemma Run_trace_in_range (runner_idx : N) (s : BackendState) (c : Context) :
  contexts_ (backend s) !! N.to_nat runner_idx = Some c →
  let r := Context_Run (backend s)
             (mkRunState c (start_compute (gpu_device_ c) <$> queued_payloads s)
                (events s)) in
  ∃ tr_run,
    events (Run runner_idx s) =
      events s ++ tr_run
        ++ (releases (input_tensors_ c) ++ releases (output_tensors_ (rs_context r.2)))
        ++ [EvOnCompleteQueuedPayloads r.1]
    ∧ (tr_run = []
       ∨ tr_run = [the_OrtRun_event (backend s) c]
         ∧ output_tensors_ (rs_context r.2) = (the_OrtRun (backend s) c).2).
Proof.
  intros Hc r. rewrite (Run_in_range _ _ _ Hc). fold r. cbn [events].
  destruct (Context_Run_effect (backend s)
              (mkRunState c (start_compute (gpu_device_ c) <$> queued_payloads s)
                 (events s))) as (_ & Hin & Hcases).
  fold r in Hin, Hcases. cbn [rs_context rs_trace] in Hin, Hcases. rewrite Hin.
  destruct Hcases as [->|[Htr Hout]].
  - exists []. cbn [rs_trace rs_context app]. split; [|by left].
    by rewrite <- !app_assoc.
  - exists [the_OrtRun_event (backend s) c]. rewrite Htr. split; [|by right].
    by rewrite <- !app_assoc.
Qed.

(** C5.  Every invocation of the dispatcher calls the completion callback
    exactly once, as the last thing it does, with one Status: the
    runner-index error when the index is out of range, and the status of
    the context's [Run] otherwise. *)
Theorem Run_invokes_callback_once (runner_idx : N) (s : BackendState) :
  ∃ status tr,
    events (Run runner_idx s) = events s ++ tr ++ [EvOnCompleteQueuedPayloads status]
    ∧ count is_callback tr = 0%nat
    ∧ count is_callback (events (Run runner_idx s)) = S (count is_callback (events s))
    ∧ status =
        match contexts_ (backend s) !! N.to_nat runner_idx with
        | None =>
            mkStatus INTERNAL
              ("unexpected runner index" +:+ to_string runner_idx
               +:+ ", max allowed " +:+ to_string (length (contexts_ (backend s))))
        | Some c =>
            (Context_Run (backend s)
               (mkRunState c (start_compute (gpu_device_ c) <$> queued_payloads s)
                  (events s))).1
        end.
Proof.
  destruct (contexts_ (backend s) !! N.to_nat runner_idx) as [c|] eqn:Hc.
  - destruct (Run_trace_in_range _ _ _ Hc) as (tr_run & Hev & Hrun).
    eexists _, (tr_run ++ releases _ ++ releases _). rewrite Hev.
    split; [by rewrite <- !app_assoc|].
    assert (count is_callback tr_run = 0%nat) as Hnone by (by destruct Hrun as [->|[-> _]]).
    rewrite !count_app, !releases_no_callback, Hnone, count_one_callback.
    split; [done|]. split; [lia|done].
  - unfold Run. rewrite (runner_out_of_range _ _ Hc). cbn [events].
    eexists _, []. split; [done|]. rewrite count_app, count_one_callback.
    split; [done|]. split; [cbn; lia|done].
Qed.

(** C1.  On a valid runner index the dispatcher's trace is: the events of
    the context's [Run], then only releases, then the completion
    callback.  Every tensor handle that the run's runtime invocation left
    in the output array, and every handle held in the input container, is
    released in between, and the context is left with both containers
    empty -- whatever status the context's [Run] returned. *)
Theorem Run_releases_before_callback (runner_idx : N) (s : BackendState) (c : Context) :
  contexts_ (backend s) !! N.to_nat runner_idx = Some c →
  ∃ status tr_run tr_release c',
    events (Run runner_idx s) =
      events s ++ tr_run ++ tr_release ++ [EvOnCompleteQueuedPayloads status]
    ∧ (∀ e, e ∈ tr_run → is_OrtRun e = true)
    ∧ (∀ e, e ∈ tr_release → is_release e = true)
    ∧ (∀ v, left_by_OrtRun tr_run v → EvOrtReleaseValue v ∈ tr_release)
    ∧ (∀ v, Some v ∈ input_tensors_ c → EvOrtReleaseValue v ∈ tr_release)
    ∧ contexts_ (backend (Run runner_idx s)) !! N.to_nat runner_idx = Some c'
    ∧ input_tensors_ c' = [] ∧ output_tensors_ c' = [].
Proof.
  intros Hc. destruct (Run_trace_in_range _ _ _ Hc) as (tr_run & Hev & Hrun).
  eexists _, tr_run, _, _. split; [exact Hev|].
  split; [by destruct Hrun as [->|[-> _]]; intros e; rewrite ?list_elem_of_singleton;
            [intros ?%elem_of_nil|intros ->]|].
  split; [intros e [He|He]%elem_of_app; by eapply releases_only|].
  split.
  { intros v (session & inames & ins & onames & outs & He & Hv).
    destruct Hrun as [->|[-> Hout]]; [by apply elem_of_nil in He|].
    apply list_elem_of_singleton in He. unfold the_OrtRun_event in He.
    injection He as -> -> -> -> ->.
    apply elem_of_app. right. apply releases_elem. by rewrite Hout. }
  split; [intros v Hv; apply elem_of_app; left; by apply releases_elem|].
  rewrite (Run_in_range _ _ _ Hc). cbn [backend contexts_].
  split; [apply list_lookup_insert_eq; by eapply lookup_lt_Some|done].
Qed.



Lemma fan_in_failure_not_ok (base : t) (provider : InferRequestProvider) (st : Status) :
  fan_in_failure base provider = Some st → IsOk st = false.
Proof.
  unfold fan_in_failure. destruct (request_input provider) as [|input inputs].
  - destruct (GetInputOverride provider) as [[|pr prs]|]; [done| |done].
    by intros [= <-].
  - intros [= <-]. by destruct (IsOk (GetInput _ _).1) eqn:E.
Qed.


End RunProperties.

Section CreationProperties.
Context `{!Collaborators}.

Lemma for_each_first_error {S A : Type} (error : A → option Status)
    (round : A → Stm S unit) (l : list A) (s : S) :
  (∀ a s, round a s = match error a with
                      | Some e => (Return e, s)
                      | None => (Go tt, s)
                      end) →
  for_each l round s = match head (omap error l) with
                       | Some e => (Return e, s)
                       | None => (Go tt, s)
                       end.
Proof.
  intros Hround. induction l as [|a l IH]; [done|].
  cbn [for_each]. unfold bind. rewrite Hround. cbn [omap list_omap].
  destruct (error a); [done|]. exact IH.
Qed.

Lemma ValidateInputs_effect (this : Context) (ios : list ModelInput) (s : CreateState) :
  ValidateInputs this ios s =
    (validation_status (InputNames (session_ this)).1
       (input_error this (InputNames (session_ this)).2) ios,
     mkCreateState (cs_backend s) (cs_events s ++ [EvInputNames (session_ this)])).
Proof.
  unfold ValidateInputs, body, validation_status.
  unfold bind at 1. unfold record at 1. unfold modify at 1.
  destruct (InputNames (session_ this)) as [names_status exposed]. cbn [fst snd].
  unfold bind at 1. unfold RETURN_IF_ERROR at 1. unfold call at 1.
  destruct (IsOk names_status); [|done].
  unfold bind at 1.
  rewrite (for_each_first_error (input_error this exposed)).
  - by destruct (head _).
  - intros io s0. unfold input_error, bind, RETURN_IF_ERROR, call.
    destruct (IsOk (CheckAllowedModelInput io exposed)); [|done]. cbn.
    by destruct (_ =? _).
Qed.

Lemma ValidateOutputs_effect (this : Context) (ios : list ModelOutput) (s : CreateState) :
  ValidateOutputs this ios s =
    (validation_status (OutputNames (session_ this)).1
       (output_error this (OutputNames (session_ this)).2) ios,
     mkCreateState (cs_backend s) (cs_events s ++ [EvOutputNames (session_ this)])).
Proof.
  unfold ValidateOutputs, body, validation_status.
  unfold bind at 1. unfold record at 1. unfold modify at 1.
  destruct (OutputNames (session_ this)) as [names_status exposed]. cbn [fst snd].
  unfold bind at 1. unfold RETURN_IF_ERROR at 1. unfold call at 1.
  destruct (IsOk names_status); [|done].
  unfold bind at 1.
  rewrite (for_each_first_error (output_error this exposed)).
  - by destruct (head _).
  - intros io s0. unfold output_error, bind, RETURN_IF_ERROR, call.
    destruct (IsOk (CheckAllowedModelOutput io exposed)); [|done]. cbn.
    by destruct (_ =? _).
Qed.

Lemma append_assoc (s1 s2 s3 : string) : (s1 +:+ s2) +:+ s3 = s1 +:+ s2 +:+ s3.
Proof.
  induction s1 as [|a s1 IH]; [done|].
  change (String a ((s1 +:+ s2) +:+ s3) = String a (s1 +:+ s2 +:+ s3)).
  by rewrite IH.
Qed.

Lemma mentions_here (pre s post : string) : mentions (pre +:+ s +:+ post) s.
Proof. by exists pre, post. Qed.

Lemma mentions_front (s post : string) : mentions (s +:+ post) s.
Proof. by exists "", post. Qed.

Lemma mentions_later (pre msg s : string) : mentions msg s → mentions (pre +:+ msg) s.
Proof.
  intros (pre' & post & ->). exists (pre +:+ pre'), post. by rewrite append_assoc.
Qed.

Lemma CheckAllowedModelInput_ok (io : ModelInput) (exposed : gset string) :
  IsOk (CheckAllowedModelInput io exposed) = true ↔ mi_name io ∈ exposed.
Proof. unfold CheckAllowedModelInput. by destruct (decide _). Qed.

Lemma CheckAllowedModelOutput_ok (io : ModelOutput) (exposed : gset string) :
  IsOk (CheckAllowedModelOutput io exposed) = true ↔ mo_name io ∈ exposed.
Proof. unfold CheckAllowedModelOutput. by destruct (decide _). Qed.

Lemma input_error_invalid (this : Context) (exposed : gset string) (io : ModelInput) :
  invalid_input exposed io → is_Some (input_error this exposed io).
Proof.
  unfold input_error. intros [Habsent|Hundef].
  - destruct (IsOk _) eqn:E; [by apply CheckAllowedModelInput_ok in E|]. by eexists.
  - destruct (IsOk _); [|by eexists]. cbn.
    apply Z.eqb_eq in Hundef. rewrite Hundef. by eexists.
Qed.

Lemma input_error_names_it (this : Context) (exposed : gset string)
    (io : ModelInput) (e : Status) :
  input_error this exposed io = Some e →
  IsOk e = false ∧ invalid_input exposed io ∧ mentions (Message e) (mi_name io).
Proof.
  unfold input_error. destruct (IsOk _) eqn:E; cbn.
  - destruct (_ =? _) eqn:Hdt; [|done]. intros [= <-]. split; [done|].
    split; [right; by apply Z.eqb_eq|]. cbn.
    do 3 apply mentions_later. apply mentions_front.
  - intros [= <-]. split; [done|].
    assert (mi_name io ∉ exposed) as Habsent.
    { intros Hin. apply CheckAllowedModelInput_ok in Hin. congruence. }
    split; [by left|]. unfold CheckAllowedModelInput.
    destruct (decide _); [done|]. apply mentions_here.
Qed.

Lemma output_error_invalid (this : Context) (exposed : gset string) (io : ModelOutput) :
  invalid_output exposed io → is_Some (output_error this exposed io).
Proof.
  unfold output_error. intros [Habsent|Hundef].
  - destruct (IsOk _) eqn:E; [by apply CheckAllowedModelOutput_ok in E|]. by eexists.
  - destruct (IsOk _); [|by eexists]. cbn.
    apply Z.eqb_eq in Hundef. rewrite Hundef. by eexists.
Qed.

Lemma output_error_names_it (this : Context) (exposed : gset string)
    (io : ModelOutput) (e : Status) :
  output_error this exposed io = Some e →
  IsOk e = false ∧ invalid_output exposed io ∧ mentions (Message e) (mo_name io).
Proof.
  unfold output_error. destruct (IsOk _) eqn:E; cbn.
  - destruct (_ =? _) eqn:Hdt; [|done]. intros [= <-]. split; [done|].
    split; [right; by apply Z.eqb_eq|]. cbn.
    do 3 apply mentions_later. apply mentions_front.
  - intros [= <-]. split; [done|].
    assert (mo_name io ∉ exposed) as Habsent.
    { intros Hin. apply CheckAllowedModelOutput_ok in Hin. congruence. }
    split; [by left|]. unfold CheckAllowedModelOutput.
    destruct (decide _); [done|]. apply mentions_here.
Qed.

(** The first error of a loop is the error of one of its rounds; there is
    one as soon as some round has one. *)
Lemma first_error_Some {A : Type} (error : A → option Status) (l : list A) :
  (∃ a, a ∈ l ∧ is_Some (error a)) →
  ∃ a e, a ∈ l ∧ error a = Some e ∧ head (omap error l) = Some e.
Proof.
  intros (a & Ha & [e He]).
  destruct (head (omap error l)) as [e'|] eqn:Hhead.
  - apply head_Some_elem_of in Hhead as Hin.
    apply list_elem_of_omap in Hin as (a' & Ha' & He'). by exists a', e'.
  - apply head_None in Hhead.
    assert (e ∈ omap error l) as Hin by (apply list_elem_of_omap; eauto).
    rewrite Hhead in Hin. by apply elem_of_nil in Hin.
Qed.

Lemma first_error_None {A : Type} (error : A → option Status) (l : list A) :
  (∀ a, a ∈ l → error a = None) → head (omap error l) = None.
Proof.
  intros Hnone. destruct (head (omap error l)) as [e|] eqn:Hhead; [|done].
  apply head_Some_elem_of, list_elem_of_omap in Hhead as (a & Ha & He).
  rewrite (Hnone a Ha) in He. done.
Qed.

(** *** Keeping a property of the state through a statement sequence *)

Lemma preserves_ret {S A : Type} (P : S → Prop) (a : A) : preserves P (ret a).
Proof. by intros s Hs. Qed.

Lemma preserves_return {S A : Type} (P : S → Prop) (st : Status) :
  preserves P (@return_ S A st).
Proof. by intros s Hs. Qed.

Lemma preserves_bind {S A B : Type} (P : S → Prop) (c : Stm S A) (k : A → Stm S B) :
  preserves P c → (∀ a, preserves P (k a)) → preserves P (bind c k).
Proof.
  intros Hc Hk s Hs. unfold bind. specialize (Hc s Hs).
  destruct (c s) as [[a|st] s']; [by apply Hk|done].
Qed.

Lemma preserves_modify {S : Type} (P : S → Prop) (f : S → S) :
  (∀ s, P s → P (f s)) → preserves P (modify f).
Proof. intros Hf s Hs. by apply Hf. Qed.

Lemma preserves_RETURN_IF_ERROR {S : Type} (P : S → Prop) (f : Fn S) :
  (∀ s, P s → P (f s).2) → preserves P (RETURN_IF_ERROR f).
Proof.
  intros Hf s Hs. unfold RETURN_IF_ERROR. specialize (Hf s Hs).
  destruct (f s) as [st s']. by destruct (IsOk st).
Qed.

Lemma preserves_RETURN_IF_ORT_ERROR {S : Type} (P : S → Prop) (o : option OrtStatus) :
  preserves P (@RETURN_IF_ORT_ERROR S o).
Proof. destruct o; [apply preserves_return|apply preserves_ret]. Qed.

Lemma on_back_last (f : Context → Context) (old : list Context) (c : Context) :
  on_back f (old ++ [c]) = old ++ [f c].
Proof.
  unfold on_back. rewrite length_app. cbn [length].
  replace (Nat.pred (length old + 1)) with (length old + 0)%nat by lia.
  by rewrite (alter_app_r f old [c] 0).
Qed.

Lemma preserves_on_back (old : list Context) (name : string) (gpu_device mbs : Z)
    (f : Context → Context) :
  (∀ c, name_ (f c) = name_ c ∧ gpu_device_ (f c) = gpu_device_ c
        ∧ max_batch_size_ (f c) = max_batch_size_ c
        ∧ input_tensors_ (f c) = input_tensors_ c
        ∧ output_tensors_ (f c) = output_tensors_ c) →
  preserves (emplaced old name gpu_device mbs) (set_contexts (on_back f)).
Proof.
  intros Hf. apply preserves_modify. intros [b evs] (c & Hc & ? & ? & ? & ? & ?).
  cbn in Hc. exists (f c). cbn. rewrite Hc, on_back_last.
  destruct (Hf c) as (-> & -> & -> & -> & ->). done.
Qed.

Lemma CreateExecutionContext_load_emplaces (instance_name : string) (gpu_device : Z)
    (options : OrtSessionOptions) (path : string) (s : CreateState) :
  let s' := (CreateExecutionContext_load instance_name gpu_device options path s).2 in
  emplaced (contexts_ (cs_backend s)) instance_name gpu_device
    (context_max_batch_size (Config (cs_backend s))) s'
  ∧ Config (cs_backend s') = Config (cs_backend s).
Proof.
  set (P := λ s' : CreateState,
         emplaced (contexts_ (cs_backend s)) instance_name gpu_device
           (context_max_batch_size (Config (cs_backend s))) s'
         ∧ Config (cs_backend s') = Config (cs_backend s)).
  assert (∀ e, preserves P (record e)) as Hrecord.
  { intros e. apply preserves_modify. by intros [b evs]. }
  assert (∀ f, (∀ c, name_ (f c) = name_ c ∧ gpu_device_ (f c) = gpu_device_ c
                     ∧ max_batch_size_ (f c) = max_batch_size_ c
                     ∧ input_tensors_ (f c) = input_tensors_ c
                     ∧ output_tensors_ (f c) = output_tensors_ c) →
               preserves P (set_contexts (on_back f))) as Hback.
  { intros f Hf s0 [Hem Hcfg]. split; [by apply preserves_on_back|done]. }
  unfold CreateExecutionContext_load. unfold bind at 1. unfold get at 1.
  unfold bind at 1. unfold set_contexts at 1. unfold modify at 1.
  match goal with |- context [bind ?c ?k ?s0] => apply (preserves_bind P c k) end.
  - unfold create_session.
    destruct (negb (gpu_device =? NO_GPU_DEVICE)); cbn [fst snd];
      repeat first
        [ apply preserves_ret | apply Hrecord
        | apply preserves_bind; [|intros ?]
        | by apply Hback
        | match goal with |- preserves _ (match ?x with _ => _ end) => destruct x end ].
  - intros [onnx_status context].
    apply preserves_bind; [apply preserves_RETURN_IF_ORT_ERROR|intros _].
    apply preserves_bind; [|intros _].
    { apply preserves_RETURN_IF_ERROR. intros s0 Hs0.
      rewrite ValidateInputs_effect. by destruct s0. }
    apply preserves_bind; [|intros _].
    { apply preserves_RETURN_IF_ERROR. intros s0 Hs0.
      rewrite ValidateOutputs_effect. by destruct s0. }
    apply preserves_bind; [apply Hrecord|intros _].
    destruct OrtCreateCpuAllocatorInfo; [apply preserves_return|].
    apply preserves_bind; [by apply Hback|intros _]. apply preserves_ret.
  - split; [|done]. by eexists.
Qed.

Lemma select_model_filename_effect (gpu_device : Z) (s : CreateState) :
  let config := Config (cs_backend s) in
  select_model_filename gpu_device s =
    if gpu_device =? NO_GPU_DEVICE then (Go ("", default_model_filename config), s)
    else
      match cudaGetDeviceProperties gpu_device with
      | inl cuerr =>
          (Return (mkStatus INTERNAL
                     ("unable to get CUDA device properties for "
                      +:+ Name (cs_backend s) +:+ ": " +:+ cuerr)),
           with_event (EvCudaGetDeviceProperties gpu_device) s)
      | inr (major, minor) =>
          (Go (compute_capability major minor,
               default (default_model_filename config)
                 (cc_model_filenames config !! compute_capability major minor)),
           with_event (EvCudaGetDeviceProperties gpu_device) s)
      end.
Proof.
  unfold select_model_filename. unfold bind at 1. unfold get at 1.
  destruct (gpu_device =? NO_GPU_DEVICE); [done|].
  unfold bind, record, modify, with_event.
  destruct (cudaGetDeviceProperties gpu_device) as [cuerr|[major minor]]; [done|].
  unfold ret, compute_capability. by destruct (_ !! _).
Qed.

(** The file [CreateExecutionContext] looks up is the one its contract
    names. *)
Lemma select_model_filename_spec (gpu_device : Z) (s : CreateState) (filename : string) :
  spec_model_filename (Config (cs_backend s)) gpu_device = Some filename →
  ∃ cc s1, select_model_filename gpu_device s = (Go (cc, filename), s1)
           ∧ cs_backend s1 = cs_backend s
           ∧ ∀ kind, kind (EvCudaGetDeviceProperties gpu_device) = false →
                     count kind (cs_events s1) = count kind (cs_events s).
Proof.
  unfold spec_model_filename. rewrite select_model_filename_effect.
  destruct (decide (gpu_device = NO_GPU_DEVICE)) as [->|Hgpu].
  - intros [= <-]. by eexists _, _.
  - apply Z.eqb_neq in Hgpu. rewrite Hgpu.
    destruct (cudaGetDeviceProperties gpu_device) as [cuerr|[major minor]]; [done|].
    intros [= <-]. eexists _, _. split; [done|]. split; [done|].
    intros kind Hkind. unfold with_event. cbn [cs_events]. rewrite count_app.
    unfold count at 2. cbn. rewrite Hkind. cbn. lia.
Qed.

Lemma CreateExecutionContext_found (instance_name : string) (gpu_device : Z)
    (options : OrtSessionOptions) (paths : gmap string string) (s s1 : CreateState)
    (cc filename path : string) :
  select_model_filename gpu_device s = (Go (cc, filename), s1) →
  paths !! filename = Some path →
  CreateExecutionContext instance_name gpu_device options paths s =
    body (CreateExecutionContext_load instance_name gpu_device options path) s1.
Proof.
  intros Hsel Hpath. unfold CreateExecutionContext, body.
  unfold bind at 1. rewrite Hsel. unfold bind at 1. unfold get at 1.
  by rewrite Hpath.
Qed.

Lemma CreateExecutionContext_not_found (instance_name : string) (gpu_device : Z)
    (options : OrtSessionOptions) (paths : gmap string string) (s s1 : CreateState)
    (cc filename : string) :
  select_model_filename gpu_device s = (Go (cc, filename), s1) →
  paths !! filename = None →
  CreateExecutionContext instance_name gpu_device options paths s =
    (model_not_found_error (cs_backend s1) filename, s1).
Proof.
  intros Hsel Hpath. unfold CreateExecutionContext, body.
  unfold bind at 1. rewrite Hsel. unfold bind at 1. unfold get at 1.
  by rewrite Hpath.
Qed.

(** C9.  A CPU instance resolves to the configuration's default model
    file, without a device query; a GPU instance queries its device and,
    when the device answers with (major, minor), resolves to the override
    for "major.minor", else to the default.  Whenever the resolved file is
    not a key of the available artifacts, creation returns an error that
    names the file, and [contexts_] is as it was. *)
Theorem CreateExecutionContext_resolves_model_file (instance_name : string)
    (gpu_device : Z) (options : OrtSessionOptions) (paths : gmap string string)
    (s : CreateState) :
  let config := Config (cs_backend s) in
  (gpu_device = NO_GPU_DEVICE →
     ∃ cc, select_model_filename gpu_device s
           = (Go (cc, default_model_filename config), s))
  ∧ (∀ major minor,
       gpu_device ≠ NO_GPU_DEVICE →
       cudaGetDeviceProperties gpu_device = inr (major, minor) →
       select_model_filename gpu_device s
       = (Go (compute_capability major minor,
              match cc_model_filenames config !! compute_capability major minor with
              | Some filename => filename
              | None => default_model_filename config
              end),
          with_event (EvCudaGetDeviceProperties gpu_device) s)
       ∧ compute_capability major minor
         = to_string major +:+ "." +:+ to_string minor)
  ∧ (∀ cc filename s1,
       select_model_filename gpu_device s = (Go (cc, filename), s1) →
       paths !! filename = None →
       let r := CreateExecutionContext instance_name gpu_device options paths s in
       r.1 = model_not_found_error (cs_backend s) filename
       ∧ IsOk r.1 = false
       ∧ mentions (Message r.1) filename
       ∧ contexts_ (cs_backend r.2) = contexts_ (cs_backend s)).
Proof.
  intros config. split; [|split].
  - intros ->. rewrite select_model_filename_effect. by eexists.
  - intros major minor Hgpu Hcuda. rewrite select_model_filename_effect.
    apply Z.eqb_neq in Hgpu. rewrite Hgpu, Hcuda. split; [|done].
    fold config. by destruct (_ !! _).
  - intros cc filename s1 Hsel Hpath r. subst r.
    rewrite (CreateExecutionContext_not_found _ _ _ _ _ _ _ _ Hsel Hpath).
    assert (cs_backend s1 = cs_backend s) as Hb.
    { rewrite select_model_filename_effect in Hsel.
      destruct (gpu_device =? NO_GPU_DEVICE); [by injection Hsel as _ _ <-|].
      destruct (cudaGetDeviceProperties gpu_device) as [?|[??]]; [done|].
      by injection Hsel as _ _ <-. }
    cbn [fst snd]. rewrite Hb. split; [done|]. split; [done|].
    split; [apply mentions_here|done].
Qed.

(** C10.  Whenever [CreateExecutionContext] gets as far as emplacing a
    context -- the model file was resolved and found -- that context is
    the new last element of [contexts_] and its [max_batch_size_] is the
    NO_BATCHING sentinel 0 for a configured maximum that is zero or
    negative, and the configured maximum itself when that is positive. *)
Theorem CreateExecutionContext_max_batch_size (instance_name : string)
    (gpu_device : Z) (options : OrtSessionOptions) (paths : gmap string string)
    (s : CreateState) (filename path : string) :
  spec_model_filename (Config (cs_backend s)) gpu_device = Some filename →
  paths !! filename = Some path →
  let config := Config (cs_backend s) in
  let r := CreateExecutionContext instance_name gpu_device options paths s in
  ∃ c, contexts_ (cs_backend r.2) = contexts_ (cs_backend s) ++ [c]
       ∧ name_ c = instance_name
       ∧ (max_batch_size config ≤ 0 → max_batch_size_ c = NO_BATCHING)
       ∧ (0 < max_batch_size config → max_batch_size_ c = max_batch_size config)
       ∧ NO_BATCHING = 0.
Proof.
  intros Hspec Hpath config r.
  destruct (select_model_filename_spec _ _ _ Hspec) as (cc & s1 & Hsel & Hb & _).
  subst r. rewrite (CreateExecutionContext_found _ _ _ _ _ _ _ _ _ Hsel Hpath).
  destruct (CreateExecutionContext_load_emplaces instance_name gpu_device options
              path s1) as [(c & Hc & Hname & _ & Hmbs & _) _].
  rewrite Hb in Hc, Hmbs. exists c.
  assert (∀ c : Stm CreateState Status, ∀ s0, (body c s0).2 = (c s0).2) as Hbody.
  { intros c0 s0. unfold body. by destruct (c0 s0) as [[?|?] ?]. }
  rewrite Hbody. split; [done|]. split; [done|].
  fold config in Hmbs. unfold context_max_batch_size in Hmbs.
  split; [|split; [|done]]; intros Hcfg; rewrite Hmbs.
  - by apply Z.leb_le in Hcfg as ->.
  - by apply Z.leb_gt in Hcfg as ->.
Qed.

Lemma create_session_loaded (gpu_device : Z) (options : OrtSessionOptions)
    (path : string) (c0 : Context) (s : CreateState) (session : OrtSession) :
  session_loaded gpu_device options path = Some session →
  ∃ options',
    create_session gpu_device options path c0 s =
      (Go (None, set_session (Some session) c0),
       mkCreateState
         (mkBackend (Config (cs_backend s))
            (on_back (set_session (Some session)) (contexts_ (cs_backend s))))
         (cs_events s ++ [EvOrtCreateSession path options'])).
Proof.
  unfold session_loaded, create_session.
  destruct (gpu_device =? NO_GPU_DEVICE); cbn [negb fst snd].
  - destruct (OrtCreateSession path options) as [e|session'] eqn:Hcreate; [done|].
    intros [= ->]. by exists options.
  - destruct (OrtSessionOptionsAppendExecutionProvider_CUDA options gpu_device);
      [done|].
    destruct (OrtCreateSession path _) as [e|session'] eqn:Hcreate; [done|].
    intros [= ->]. by eexists.
Qed.

(** Creation with a loaded session: the status is that of the first failed
    validation, and the trace grows by the session creation, one query of
    the input names, and -- only if the inputs are valid -- one query of
    the output names. *)
Lemma CreateExecutionContext_load_validated (instance_name : string) (gpu_device : Z)
    (options : OrtSessionOptions) (path : string) (s : CreateState)
    (session : OrtSession) :
  session_loaded gpu_device options path = Some session →
  let config := Config (cs_backend s) in
  let c1 := set_session (Some session)
              (new_Context instance_name gpu_device (context_max_batch_size config)) in
  let vi := validation_status (InputNames (Some session)).1
              (input_error c1 (InputNames (Some session)).2) (input config) in
  let vo := validation_status (OutputNames (Some session)).1
              (output_error c1 (OutputNames (Some session)).2) (output config) in
  ∃ options' tail status b,
    body (CreateExecutionContext_load instance_name gpu_device options path) s =
      (status,
       mkCreateState b
         (cs_events s
            ++ [EvOrtCreateSession path options'; EvInputNames (Some session)]
            ++ tail))
    ∧ (if IsOk vi then
         if IsOk vo then tail = [EvOutputNames (Some session); EvOrtCreateCpuAllocatorInfo]
         else tail = [EvOutputNames (Some session)] ∧ status = vo
       else tail = [] ∧ status = vi).
Proof.
  intros Hload config c1 vi vo.
  unfold CreateExecutionContext_load, body.
  unfold bind at 1. unfold get at 1. unfold bind at 1.
  unfold set_contexts at 1. unfold modify at 1. unfold bind at 1.
  fold config. fold (context_max_batch_size config).
  match goal with
  | |- context [create_session _ _ _ ?c0 ?s0] =>
      destruct (create_session_loaded gpu_device options path c0 s0 session Hload)
        as (options' & ->)
  end.
  fold c1. exists options'. cbn [cs_events cs_backend Config].
  unfold bind at 1. unfold RETURN_IF_ORT_ERROR at 1. unfold ret at 1.
  unfold bind at 1. unfold RETURN_IF_ERROR at 1. rewrite ValidateInputs_effect.
  change (session_ c1) with (Some session). fold config. fold vi.
  cbn [cs_events cs_backend Config].
  destruct (IsOk vi).
  - unfold bind at 1. unfold RETURN_IF_ERROR at 1. rewrite ValidateOutputs_effect.
    change (session_ c1) with (Some session). fold vo. cbn [cs_events cs_backend].
    destruct (IsOk vo).
    + exists [EvOutputNames (Some session); EvOrtCreateCpuAllocatorInfo].
      unfold bind at 1. unfold record at 1. unfold modify at 1.
      destruct OrtCreateCpuAllocatorInfo; cbn; rewrite <- !app_assoc;
        eexists _, _; (split; [reflexivity|done]).
    + exists [EvOutputNames (Some session)]. cbn. rewrite <- !app_assoc.
      eexists _, _. split; [reflexivity|done].
  - exists []. cbn. rewrite <- !app_assoc. eexists _, _. split; [reflexivity|done].
Qed.

Lemma Context_Run_no_schema_query (base : t) (rs : RunState) :
  count is_schema_query (rs_trace (Context_Run base rs).2)
  = count is_schema_query (rs_trace rs).
Proof.
  destruct (Context_Run_effect base rs) as (_ & _ & [->|[-> _]]); [done|].
  rewrite count_app. cbn. lia.
Qed.

Lemma releases_no_schema_query (tensors : list (option OrtValue)) :
  count is_schema_query (releases tensors) = 0%nat.
Proof.
  apply count_none. intros e He. apply releases_only in He. by destruct e.
Qed.

Lemma Run_no_schema_query (runner_idx : N) (bs : BackendState) :
  count is_schema_query (events (Run runner_idx bs))
  = count is_schema_query (events bs).
Proof.
  destruct (contexts_ (backend bs) !! N.to_nat runner_idx) as [c|] eqn:Hc.
  - destruct (Run_trace_in_range _ _ _ Hc) as (tr_run & -> & Hrun).
    rewrite !count_app, !releases_no_schema_query.
    destruct Hrun as [->|[-> _]]; cbn; lia.
  - unfold Run. rewrite (runner_out_of_range _ _ Hc). cbn [events].
    rewrite count_app. cbn. lia.
Qed.

(** C8.  When creation has resolved and found the model file and loaded
    the session, and the runtime answers both name queries: if a declared
    input or output is absent from the exposed names, or its datatype
    converts to the undefined element type, creation returns a non-OK
    status whose message names such an input or output.  Creation queries
    the input names exactly once and the output names at most once;
    neither [Context::Run] nor the dispatcher queries them at all.  (The
    name test is [CheckAllowedModelInput]/[CheckAllowedModelOutput] as
    modelled above; the datatype test is the source's.) *)
Theorem CreateExecutionContext_validates_schema (instance_name : string)
    (gpu_device : Z) (options : OrtSessionOptions) (paths : gmap string string)
    (s : CreateState) (filename path : string) (session : OrtSession) :
  spec_model_filename (Config (cs_backend s)) gpu_device = Some filename →
  paths !! filename = Some path →
  session_loaded gpu_device options path = Some session →
  IsOk (InputNames (Some session)).1 = true →
  IsOk (OutputNames (Some session)).1 = true →
  let config := Config (cs_backend s) in
  let exposed_inputs := (InputNames (Some session)).2 in
  let exposed_outputs := (OutputNames (Some session)).2 in
  let r := CreateExecutionContext instance_name gpu_device options paths s in
  ((∃ io, io ∈ input config ∧ invalid_input exposed_inputs io)
   ∨ (∃ io, io ∈ output config ∧ invalid_output exposed_outputs io) →
   IsOk r.1 = false
   ∧ ((∃ io, io ∈ input config ∧ invalid_input exposed_inputs io
             ∧ mentions (Message r.1) (mi_name io))
      ∨ (∃ io, io ∈ output config ∧ invalid_output exposed_outputs io
               ∧ mentions (Message r.1) (mo_name io))))
  ∧ count is_input_query (cs_events r.2) = S (count is_input_query (cs_events s))
  ∧ (count is_output_query (cs_events r.2) ≤ S (count is_output_query (cs_events s)))%nat
  ∧ (∀ base rs, count is_schema_query (rs_trace (Context_Run base rs).2)
                = count is_schema_query (rs_trace rs))
  ∧ (∀ runner_idx bs, count is_schema_query (events (Run runner_idx bs))
                      = count is_schema_query (events bs)).
Proof.
  intros Hspec Hpath Hload Hin Hout config exposed_inputs exposed_outputs r.
  split; [|split; [|split; [|split]]];
    [| | |apply Context_Run_no_schema_query|apply Run_no_schema_query].
  all: destruct (select_model_filename_spec _ _ _ Hspec) as (cc & s1 & Hsel & Hb & Hcount).
  all: subst r; rewrite (CreateExecutionContext_found _ _ _ _ _ _ _ _ _ Hsel Hpath).
  all: destruct (CreateExecutionContext_load_validated instance_name gpu_device options
                   path s1 session Hload) as (options' & tail & status & b & -> & Hcases).
  all: rewrite Hb in Hcases; fold config in Hcases; cbn [fst snd cs_events].
  all: unfold validation_status in Hcases; rewrite Hin, Hout in Hcases.
  all: fold exposed_inputs exposed_outputs in Hcases.
  - intros Hbad.
    destruct (head (omap (input_error _ exposed_inputs) (input config)))
      as [e|] eqn:Hfirst; cbn [default from_option id] in Hcases.
    + apply head_Some_elem_of, list_elem_of_omap in Hfirst as (io & Hio & He).
      apply input_error_names_it in He as (Hnok & Hinv & Hm).
      rewrite Hnok in Hcases. destruct Hcases as [_ ->].
      split; [done|]. left. by exists io.
    + change (IsOk Status_Success) with true in Hcases.
      destruct Hbad as [(io & Hio & Hinv)|(io & Hio & Hinv)].
      { destruct (first_error_Some (input_error
                    (set_session (Some session)
                       (new_Context instance_name gpu_device
                          (context_max_batch_size config))) exposed_inputs)
                    (input config)) as (? & ? & _ & _ & Hhead).
        { exists io. split; [done|]. by apply input_error_invalid. }
        congruence. }
      destruct (first_error_Some (output_error
                  (set_session (Some session)
                     (new_Context instance_name gpu_device
                        (context_max_batch_size config))) exposed_outputs)
                  (output config)) as (io' & e & Hio' & He & Hhead).
      { exists io. split; [done|]. by apply output_error_invalid. }
      rewrite Hhead in Hcases. cbn [default from_option id] in Hcases.
      apply output_error_names_it in He as (Hnok & Hinv' & Hm).
      rewrite Hnok in Hcases. destruct Hcases as [_ ->].
      split; [done|]. right. by exists io'.
  - rewrite !count_app, (Hcount is_input_query) by done.
    repeat case_match; destruct_and?; subst tail; cbn; lia.
  - rewrite !count_app, (Hcount is_output_query) by done.
    repeat case_match; destruct_and?; subst tail; cbn; lia.
Qed.

End CreationProperties.

(** ** More about the run path *)

Section MoreRunProperties.
Context `{!Collaborators}.
Import Lifecycle.

(** X1.  [ReleaseOrtRunResources] hands to [OrtReleaseValue], in order,
    exactly the non-null tensors of the input container and then those of
    the output container -- null placeholders are skipped --, empties both
    containers and touches nothing else; a second call releases nothing. *)
Theorem ReleaseOrtRunResources_releases_each_once (s : RunState) :
  let s' := ReleaseOrtRunResources s in
  rs_trace s' =
    rs_trace s
      ++ (EvOrtReleaseValue <$>
            omap id (input_tensors_ (rs_context s) ++ output_tensors_ (rs_context s)))
  ∧ rs_context s' = cleared (rs_context s)
  ∧ rs_payloads s' = rs_payloads s
  ∧ ReleaseOrtRunResources s' = s'.
Proof.
  intros s'. subst s'. rewrite !ReleaseOrtRunResources_effect.
  cbn [rs_trace rs_context rs_payloads]. unfold releases.
  split; [by rewrite omap_app, fmap_app|]. split; [done|]. split; [done|].
  cbn. by rewrite !app_nil_r.
Qed.

Lemma cleared_set_output_tensors (f : list (option OrtValue) → list (option OrtValue))
    (c : Context) :
  cleared (set_output_tensors f c) = cleared c.
Proof. done. Qed.

(** [Context::Run] changes nothing of the context but its output
    container. *)
Lemma Context_Run_context (base : t) (s : RunState) :
  cleared (rs_context (Context_Run base s).2) = cleared (rs_context s).
Proof.
  destruct (decide (all_ok (rs_payloads s))) as [Hok|Hbad].
  - rewrite (Context_Run_ok base s Hok).
    destruct (_ =? 0)%N; [done|].
    destruct (negb _ && _); [done|].
    destruct (representative (rs_payloads s)) as [provider|]; [|done].
    destruct (fan_in_failure base provider) as [st|] eqn:Hfan.
    + by rewrite (past_checks_fan_in_fails _ _ _ _ _ Hfan).
    + by rewrite (past_checks_runs _ _ _ _ Hfan).
  - by rewrite (Context_Run_non_ok base s (not_all_ok _ Hbad)).
Qed.

(** The backend after one call of the dispatcher. *)
Lemma Run_backend (runner_idx : N) (s : BackendState) :
  backend (Run runner_idx s) =
    mkBackend (Config (backend s))
      (match contexts_ (backend s) !! N.to_nat runner_idx with
       | Some c => <[N.to_nat runner_idx := cleared c]> (contexts_ (backend s))
       | None => contexts_ (backend s)
       end).
Proof.
  destruct (contexts_ (backend s) !! N.to_nat runner_idx) as [c|] eqn:Hc.
  - rewrite (Run_in_range _ _ _ Hc). cbn [backend]. f_equal. f_equal.
    apply (Context_Run_context (backend s)
             (mkRunState c (start_compute (gpu_device_ c) <$> queued_payloads s)
                (events s))).
  - unfold Run. rewrite (runner_out_of_range _ _ Hc). by destruct s as [[] ? ?].
Qed.

(** X2.  Whatever the outcome, the dispatcher leaves the backend as it
    was except that the context it ran has both tensor containers empty:
    the configuration, the number and order of the contexts, every other
    context, and the name, device, maximum batch size, session and
    allocator of the context itself are unchanged.  An index out of range
    changes nothing. *)
Theorem Run_leaves_backend_idle (runner_idx : N) (s : BackendState) :
  backend (Run runner_idx s) =
    mkBackend (Config (backend s))
      (match contexts_ (backend s) !! N.to_nat runner_idx with
       | Some c => <[N.to_nat runner_idx := cleared c]> (contexts_ (backend s))
       | None => contexts_ (backend s)
       end)
  ∧ length (contexts_ (backend (Run runner_idx s))) = length (contexts_ (backend s))
  ∧ (∀ c, contexts_ (backend s) !! N.to_nat runner_idx = Some c →
       ∃ c', contexts_ (backend (Run runner_idx s)) !! N.to_nat runner_idx = Some c'
             ∧ idle c'
             ∧ name_ c' = name_ c ∧ gpu_device_ c' = gpu_device_ c
             ∧ max_batch_size_ c' = max_batch_size_ c
             ∧ session_ c' = session_ c ∧ allocator_info_ c' = allocator_info_ c)
  ∧ (∀ j, j ≠ N.to_nat runner_idx →
       contexts_ (backend (Run runner_idx s)) !! j = contexts_ (backend s) !! j).
Proof.
  split; [apply Run_backend|]. rewrite Run_backend. cbn [contexts_].
  split; [by destruct (_ !! _); rewrite ?length_insert|].
  split.
  - intros c Hc. rewrite Hc. exists (cleared c).
    split; [apply list_lookup_insert_eq; by eapply lookup_lt_Some|done].
  - intros j Hj. destruct (_ !! N.to_nat runner_idx); [|done].
    by apply list_lookup_insert_ne.
Qed.

(** X3.  The dispatcher never changes a payload's status, request or
    output buffers.  On a valid runner index it stops every queue timer
    and gives every statistics object the context's device, before the
    context runs and whether or not it fails; on an index out of range
    the payloads are handed back as they came, timers running. *)
Theorem Run_payloads (runner_idx : N) (s : BackendState) :
  let after := queued_payloads (Run runner_idx s) in
  status_ <$> after = status_ <$> queued_payloads s
  ∧ request_provider_ <$> after = request_provider_ <$> queued_payloads s
  ∧ response_outputs_ <$> after = response_outputs_ <$> queued_payloads s
  ∧ (∀ c, contexts_ (backend s) !! N.to_nat runner_idx = Some c →
       after = start_compute (gpu_device_ c) <$> queued_payloads s
       ∧ Forall (λ p, queue_timer_ p = false
                      ∧ ∀ stats, stats_ p = Some stats →
                                 stats_gpu_device stats = gpu_device_ c
                                 ∧ compute_timer_started stats = true) after)
  ∧ (contexts_ (backend s) !! N.to_nat runner_idx = None → after = queued_payloads s).
Proof.
  intros after.
  assert (after = match contexts_ (backend s) !! N.to_nat runner_idx with
                  | Some c => start_compute (gpu_device_ c) <$> queued_payloads s
                  | None => queued_payloads s
                  end) as Hafter.
  { subst after. destruct (contexts_ (backend s) !! N.to_nat runner_idx) as [c|] eqn:Hc.
    - rewrite (Run_in_range _ _ _ Hc). cbn [queued_payloads].
      destruct (Context_Run_effect (backend s)
                  (mkRunState c (start_compute (gpu_device_ c) <$> queued_payloads s)
                     (events s))) as [Hsame _].
      exact Hsame.
    - unfold Run. by rewrite (runner_out_of_range _ _ Hc). }
  rewrite Hafter.
  split; [|split; [|split; [|split]]].
  - destruct (_ !! _); [|done]. rewrite <- list_fmap_compose. by apply list_fmap_ext.
  - destruct (_ !! _); [|done]. rewrite <- list_fmap_compose. by apply list_fmap_ext.
  - destruct (_ !! _); [|done]. rewrite <- list_fmap_compose. by apply list_fmap_ext.
  - intros c ->. split; [done|]. apply Forall_fmap, Forall_true. intros p. cbn.
    split; [by destruct (queue_timer_ p)|].
    intros stats. destruct (stats_ p); [|done]. by intros [= <-].
  - by intros ->.
Qed.

Lemma Context_Run_at_most_one_OrtRun (base : t) (rs : RunState) :
  (count is_OrtRun (rs_trace (Context_Run base rs).2)
   ≤ S (count is_OrtRun (rs_trace rs)))%nat.
Proof.
  destruct (Context_Run_effect base rs) as (_ & _ & [->|[-> _]]); [lia|].
  rewrite count_app. cbn. lia.
Qed.

Lemma releases_no_OrtRun (tensors : list (option OrtValue)) :
  count is_OrtRun (releases tensors) = 0%nat.
Proof.
  apply count_none. intros e He. apply releases_only in He. by destruct e.
Qed.

(** X4.  One call of the dispatcher invokes the runtime at most once, and
    not at all on a runner index out of range. *)
Theorem Run_invokes_runtime_at_most_once (runner_idx : N) (s : BackendState) :
  (count is_OrtRun (events (Run runner_idx s)) ≤ S (count is_OrtRun (events s)))%nat
  ∧ (contexts_ (backend s) !! N.to_nat runner_idx = None →
       count is_OrtRun (events (Run runner_idx s)) = count is_OrtRun (events s)).
Proof.
  destruct (contexts_ (backend s) !! N.to_nat runner_idx) as [c|] eqn:Hc.
  - split; [|done].
    destruct (Run_trace_in_range _ _ _ Hc) as (tr_run & -> & Hrun).
    rewrite !count_app, !releases_no_OrtRun.
    destruct Hrun as [->|[-> _]]; cbn; lia.
  - unfold Run. rewrite (runner_out_of_range _ _ Hc). cbn [events].
    rewrite count_app. cbn. split; [lia|intros _; lia].
Qed.

Lemma Context_Run_work_fails (base : t) (s : RunState) :
  all_ok (rs_payloads s) →
  accumulated_batch_size 0 (rs_payloads s) ≠ 0%N →
  IsOk (Context_Run base s).1 = false.
Proof.
  intros Hok Hne. rewrite (Context_Run_ok base s Hok).
  destruct (_ =? 0)%N eqn:E0; [by apply N.eqb_eq in E0|].
  destruct (negb _ && _); [done|].
  destruct (representative_of_nonzero_total _ Hne) as [provider ->].
  destruct (fan_in_failure base provider) as [st|] eqn:Hfan.
  - rewrite (past_checks_fan_in_fails _ _ _ _ _ Hfan).
    by apply fan_in_failure_not_ok in Hfan.
  - rewrite (past_checks_runs _ _ _ _ Hfan). cbn. by destruct (the_OrtRun _ _).1.
Qed.

(** X5.  [Context::Run] returns an OK status exactly for a Group of OK
    payloads whose accumulated batch size is zero: no Group with work in
    it completes. *)
Theorem Context_Run_ok_iff_nothing_to_run (base : t) (s : RunState) :
  IsOk (Context_Run base s).1 = true
  ↔ all_ok (rs_payloads s) ∧ accumulated_batch_size 0 (rs_payloads s) = 0%N.
Proof.
  split.
  - intros Hrun. destruct (decide (all_ok (rs_payloads s))) as [Hok|Hbad].
    + split; [done|].
      destruct (decide (accumulated_batch_size 0 (rs_payloads s) = 0%N)) as [|Hne];
        [done|].
      by rewrite (Context_Run_work_fails base s Hok Hne) in Hrun.
    + by rewrite (Context_Run_non_ok base s (not_all_ok _ Hbad)) in Hrun.
  - intros [Hok Hzero]. rewrite (Context_Run_ok base s Hok), Hzero. done.
Qed.

(** X6.  When the fan-in has nothing to assemble -- the Group passes both
    checks and its representative request has no input and no override --
    [Context::Run] invokes the runtime once, with no input names, the
    configured output names in order, and one null placeholder per output
    behind what the output container held.  A failed invocation gives the
    INTERNAL status with the runtime's code and message; a successful one
    still ends in the UNSUPPORTED status of [ReadOutputTensors].  Either
    way the output container holds what the runtime left. *)
Theorem Context_Run_invocation (base : t) (s : RunState)
    (provider : InferRequestProvider) :
  all_ok (rs_payloads s) →
  let total := accumulated_batch_size 0 (rs_payloads s) in
  total ≠ 0%N →
  total = 1%N ∨ (total ≤ size_t_of_int (max_batch_size_ (rs_context s)))%N →
  representative (rs_payloads s) = Some provider →
  request_input provider = [] →
  GetInputOverride provider = None ∨ GetInputOverride provider = Some [] →
  let c := rs_context s in
  let run := OrtRun (session_ c) [] (input_tensors_ c)
               (mo_name <$> output (Config base))
               (output_tensors_ c ++ replicate (length (output (Config base))) None) in
  Context_Run base s =
    (match run.1 with
     | Some e =>
         mkStatus INTERNAL
           ("onnx runtime error " +:+ to_string (OrtGetErrorCode e) +:+ ": "
            +:+ OrtGetErrorMessage e)
     | None => mkStatus UNSUPPORTED "ReadOutputTensors() implemented"
     end,
     mkRunState (set_output_tensors (λ _, run.2) c) (rs_payloads s)
       (rs_trace s
          ++ [EvOrtRun (session_ c) [] (input_tensors_ c)
                (mo_name <$> output (Config base)) run.2])).
Proof.
  intros Hok total Hne Hpass Hrep Hinputs Hoverride c run.
  assert (fan_in_failure base provider = None) as Hfan.
  { unfold fan_in_failure. rewrite Hinputs. by destruct Hoverride as [->| ->]. }
  rewrite (Context_Run_ok base s Hok). fold total.
  destruct (total =? 0)%N eqn:E0; [by apply N.eqb_eq in E0|].
  assert (negb (total =? 1)%N
          && (size_t_of_int (max_batch_size_ (rs_context s)) <? total)%N = false) as ->.
  { destruct Hpass as [->|Hle]; [done|].
    apply andb_false_iff. right. by apply N.ltb_ge. }
  rewrite Hrep, (past_checks_runs _ _ _ _ Hfan). done.
Qed.

End MoreRunProperties.

(** ** More about instance creation *)

Section MoreCreationProperties.
Context `{!Collaborators}.
Import Lifecycle.

Lemma session_failure_loaded (gpu_device : Z) (options : OrtSessionOptions)
    (path : string) (e : OrtStatus) (attempted : bool) :
  session_failure gpu_device options path = Some (e, attempted) →
  session_loaded gpu_device options path = None
  ∧ session_requested gpu_device options = attempted.
Proof.
  unfold session_failure, session_loaded, session_requested, session_options_for.
  destruct (gpu_device =? NO_GPU_DEVICE).
  - destruct (OrtCreateSession path options); [|done]. by intros [= _ <-].
  - destruct (OrtSessionOptionsAppendExecutionProvider_CUDA options gpu_device);
      [by intros [= _ <-]|].
    destruct (OrtCreateSession path _); [|done]. by intros [= _ <-].
Qed.

(** The block "Create Onnx session" on the context just emplaced: the
    session pointer of that context is written if the session loads and
    stays null otherwise. *)
Lemma create_session_effect (gpu_device : Z) (options : OrtSessionOptions)
    (path : string) (name : string) (mbs : Z) (config : ModelConfig)
    (old : list Context) (evs : list Event) :
  let session := session_loaded gpu_device options path in
  let c1 := mkContext name gpu_device mbs session None [] [] in
  ∃ onnx_status,
    create_session gpu_device options path (new_Context name gpu_device mbs)
      (mkCreateState (mkBackend config (old ++ [new_Context name gpu_device mbs])) evs)
    = (Go (onnx_status, c1),
       mkCreateState (mkBackend config (old ++ [c1]))
         (evs ++ session_events gpu_device options path)).
Proof.
  unfold session_loaded, create_session, session_events, session_requested,
    session_options_for.
  destruct (gpu_device =? NO_GPU_DEVICE); cbn [negb fst snd].
  - unfold set_contexts, record, bind, modify, ret.
    cbn [cs_backend cs_events Config contexts_].
    destruct (OrtCreateSession path options) as [e|session]; [by eexists|].
    cbn [cs_backend cs_events Config contexts_]. rewrite on_back_last. by eexists.
  - destruct (OrtSessionOptionsAppendExecutionProvider_CUDA options gpu_device).
    + unfold ret. rewrite app_nil_r. by eexists.
    + unfold set_contexts, record, bind, modify, ret.
      cbn [cs_backend cs_events Config contexts_].
      destruct (OrtCreateSession path _) as [e|session]; [by eexists|].
      cbn [cs_backend cs_events Config contexts_]. rewrite on_back_last. by eexists.
Qed.

(** Creation past the file lookup, on every path.  The status that the
    block "Create Onnx session" leaves in its variable is not the one the
    following [RETURN_IF_ORT_ERROR] tests, so validation and the allocator
    follow whether or not the session loaded. *)
Lemma CreateExecutionContext_load_effect (instance_name : string) (gpu_device : Z)
    (options : OrtSessionOptions) (path : string) (s : CreateState) :
  let config := Config (cs_backend s) in
  let old := contexts_ (cs_backend s) in
  let session := session_loaded gpu_device options path in
  let c1 := mkContext instance_name gpu_device (context_max_batch_size config)
              session None [] [] in
  let vi := inputs_status config instance_name gpu_device session in
  let vo := outputs_status config instance_name gpu_device session in
  let evs := cs_events s ++ session_events gpu_device options path
               ++ [EvInputNames session] in
  body (CreateExecutionContext_load instance_name gpu_device options path) s =
    if IsOk vi then
      if IsOk vo then
        match OrtCreateCpuAllocatorInfo with
        | inl e =>
            (ort_error_status e,
             mkCreateState (mkBackend config (old ++ [c1]))
               (evs ++ [EvOutputNames session; EvOrtCreateCpuAllocatorInfo]))
        | inr info =>
            (Status_Success,
             mkCreateState
               (mkBackend config (old ++ [set_allocator_info (Some info) c1]))
               (evs ++ [EvOutputNames session; EvOrtCreateCpuAllocatorInfo]))
        end
      else (vo, mkCreateState (mkBackend config (old ++ [c1]))
                  (evs ++ [EvOutputNames session]))
    else (vi, mkCreateState (mkBackend config (old ++ [c1])) evs).
Proof.
  intros config old session c1 vi vo evs.
  subst vi vo. unfold inputs_status, outputs_status. fold c1.
  set (vi := validation_status (InputNames session).1 _ (input config)).
  set (vo := validation_status (OutputNames session).1 _ (output config)).
  unfold CreateExecutionContext_load, body.
  unfold bind at 1. unfold get at 1. unfold bind at 1.
  unfold set_contexts at 1. unfold modify at 1. unfold bind at 1.
  fold config. fold (context_max_batch_size config). fold old.
  destruct (create_session_effect gpu_device options path instance_name
              (context_max_batch_size config) config old (cs_events s))
    as (onnx_status & ->).
  fold session. fold c1.
  unfold bind at 1. unfold RETURN_IF_ORT_ERROR at 1. unfold ret at 1.
  unfold bind at 1. unfold RETURN_IF_ERROR at 1. rewrite ValidateInputs_effect.
  change (session_ c1) with session.
  cbn [cs_events cs_backend Config]. fold vi.
  rewrite <- app_assoc. fold evs.
  assert (∀ l : list Event, ∀ a b : Event, (l ++ [a]) ++ [b] = l ++ [a; b]) as Happ
    by (intros; by rewrite <- app_assoc).
  destruct (IsOk vi); [|done].
  unfold bind at 1. unfold RETURN_IF_ERROR at 1. rewrite ValidateOutputs_effect.
  change (session_ c1) with session.
  cbn [cs_events cs_backend Config]. fold vo.
  destruct (IsOk vo); [|done].
  unfold bind at 1. unfold record at 1. unfold modify at 1.
  cbn [cs_events cs_backend]. rewrite Happ.
  destruct OrtCreateCpuAllocatorInfo as [e|info]; [done|].
  unfold bind, set_contexts, modify, ret. cbn [cs_backend contexts_ Config cs_events].
  by rewrite on_back_last.
Qed.

Lemma CreateExecutionContext_select_fails (instance_name : string) (gpu_device : Z)
    (options : OrtSessionOptions) (paths : gmap string string) (s s1 : CreateState)
    (status : Status) :
  select_model_filename gpu_device s = (Return status, s1) →
  CreateExecutionContext instance_name gpu_device options paths s = (status, s1).
Proof.
  intros Hsel. unfold CreateExecutionContext, body. unfold bind at 1. by rewrite Hsel.
Qed.

Lemma CreateExecutionContext_no_filename (instance_name : string)
    (gpu_device : Z) (options : OrtSessionOptions) (paths : gmap string string)
    (s : CreateState) :
  spec_model_filename (Config (cs_backend s)) gpu_device = None →
  ∃ cuerr,
    gpu_device ≠ NO_GPU_DEVICE
    ∧ cudaGetDeviceProperties gpu_device = inl cuerr
    ∧ CreateExecutionContext instance_name gpu_device options paths s =
        (mkStatus INTERNAL
           ("unable to get CUDA device properties for " +:+ Name (cs_backend s)
            +:+ ": " +:+ cuerr),
         with_event (EvCudaGetDeviceProperties gpu_device) s).
Proof.
  unfold spec_model_filename. destruct (decide _) as [|Hgpu]; [done|].
  destruct (cudaGetDeviceProperties gpu_device) as [cuerr|[major minor]] eqn:Hcuda;
    [|done].
  intros _. exists cuerr. split; [done|]. split; [done|].
  apply CreateExecutionContext_select_fails. rewrite select_model_filename_effect.
  apply Z.eqb_neq in Hgpu. by rewrite Hgpu, Hcuda.
Qed.

Lemma select_model_filename_found (gpu_device : Z) (s : CreateState) (filename : string) :
  spec_model_filename (Config (cs_backend s)) gpu_device = Some filename →
  ∃ cc, select_model_filename gpu_device s =
          (Go (cc, filename),
           mkCreateState (cs_backend s)
             (cs_events s ++ device_query_events gpu_device)).
Proof.
  unfold spec_model_filename, device_query_events.
  rewrite select_model_filename_effect.
  destruct (decide (gpu_device = NO_GPU_DEVICE)) as [->|Hgpu].
  - intros [= <-]. rewrite app_nil_r. exists "". by destruct s.
  - apply Z.eqb_neq in Hgpu. rewrite Hgpu.
    destruct (cudaGetDeviceProperties gpu_device) as [cuerr|[major minor]]; [done|].
    intros [= <-]. by eexists.
Qed.

(** Creation of an instance whose model file is found. *)
Lemma CreateExecutionContext_found_effect (instance_name : string) (gpu_device : Z)
    (options : OrtSessionOptions) (paths : gmap string string) (s : CreateState)
    (path : string) :
  instance_path (Config (cs_backend s)) paths gpu_device = Some path →
  CreateExecutionContext instance_name gpu_device options paths s =
    body (CreateExecutionContext_load instance_name gpu_device options path)
      (mkCreateState (cs_backend s) (cs_events s ++ device_query_events gpu_device)).
Proof.
  unfold instance_path.
  destruct (spec_model_filename _ gpu_device) as [filename|] eqn:Hspec; [|done].
  cbn. intros Hpath.
  destruct (select_model_filename_found _ _ _ Hspec) as (cc & Hsel).
  apply (CreateExecutionContext_found _ _ _ _ _ _ _ _ _ Hsel Hpath).
Qed.

(** Creation of an instance whose model file does not resolve or is not
    among the artifacts. *)
Lemma CreateExecutionContext_unfound (instance_name : string) (gpu_device : Z)
    (options : OrtSessionOptions) (paths : gmap string string) (s : CreateState) :
  instance_path (Config (cs_backend s)) paths gpu_device = None →
  ∃ message,
    CreateExecutionContext instance_name gpu_device options paths s =
      (mkStatus INTERNAL (message (Name (cs_backend s))),
       mkCreateState (cs_backend s) (cs_events s ++ device_query_events gpu_device))
    ∧ ∀ s' : CreateState,
        Config (cs_backend s') = Config (cs_backend s) →
        (CreateExecutionContext instance_name gpu_device options paths s').1
        = mkStatus INTERNAL (message (Name (cs_backend s'))).
Proof.
  unfold instance_path.
  destruct (spec_model_filename _ gpu_device) as [filename|] eqn:Hspec; cbn.
  - intros Hpath.
    exists (λ name, "unable to find model '" +:+ filename +:+ "' for " +:+ name).
    split.
    + destruct (select_model_filename_found _ _ _ Hspec) as (cc & Hsel).
      by rewrite (CreateExecutionContext_not_found _ _ _ _ _ _ _ _ Hsel Hpath).
    + intros s' Hcfg. rewrite <- Hcfg in Hspec.
      destruct (select_model_filename_found _ _ _ Hspec) as (cc & Hsel).
      by rewrite (CreateExecutionContext_not_found _ _ _ _ _ _ _ _ Hsel Hpath).
  - intros _.
    destruct (CreateExecutionContext_no_filename instance_name gpu_device options
                paths s Hspec) as (cuerr & Hgpu & Hcuda & Heq).
    exists (λ name, "unable to get CUDA device properties for " +:+ name
                    +:+ ": " +:+ cuerr).
    split.
    + rewrite Heq. unfold with_event, device_query_events.
      by destruct (decide _).
    + intros s' Hcfg. rewrite <- Hcfg in Hspec.
      destruct (CreateExecutionContext_no_filename instance_name gpu_device options
                  paths s' Hspec) as (cuerr' & _ & Hcuda' & Heq').
      rewrite Heq'. cbn [fst]. congruence.
Qed.

(** X7.  A GPU instance whose device cannot be queried is not created:
    the INTERNAL status names the model and carries the CUDA error
    string, [contexts_] is unchanged, and nothing is asked of the runtime
    -- the device query is the only call made. *)
Theorem CreateExecutionContext_device_query_fails (instance_name : string)
    (gpu_device : Z) (options : OrtSessionOptions) (paths : gmap string string)
    (s : CreateState) (cuerr : string) :
  gpu_device ≠ NO_GPU_DEVICE →
  cudaGetDeviceProperties gpu_device = inl cuerr →
  CreateExecutionContext instance_name gpu_device options paths s =
    (mkStatus INTERNAL
       ("unable to get CUDA device properties for " +:+ Name (cs_backend s)
        +:+ ": " +:+ cuerr),
     mkCreateState (cs_backend s)
       (cs_events s ++ [EvCudaGetDeviceProperties gpu_device])).
Proof.
  intros Hgpu Hcuda. apply CreateExecutionContext_select_fails.
  rewrite select_model_filename_effect.
  apply Z.eqb_neq in Hgpu. by rewrite Hgpu, Hcuda.
Qed.

(** X8.  A session that does not load is not reported.  When the model
    file is found and the block "Create Onnx session" leaves an error in
    its variable -- the CUDA provider cannot be appended, or
    [OrtCreateSession] fails --, the [RETURN_IF_ORT_ERROR] that follows
    tests the macro's own null variable, so creation goes on as after a
    successful load: it queries the input names of the null session and
    validates against them, then the outputs, then creates the allocator
    information.  Its status is the first of these to fail, else
    [Status::Success], and does not depend on the session error; the
    emplaced context stays in [contexts_] with a null session, and has the
    allocator information exactly when creation got that far. *)
Theorem CreateExecutionContext_session_error_dropped (instance_name : string)
    (gpu_device : Z) (options : OrtSessionOptions) (paths : gmap string string)
    (s : CreateState) (filename path : string) (e : OrtStatus) (attempted : bool) :
  spec_model_filename (Config (cs_backend s)) gpu_device = Some filename →
  paths !! filename = Some path →
  session_failure gpu_device options path = Some (e, attempted) →
  let config := Config (cs_backend s) in
  let r := CreateExecutionContext instance_name gpu_device options paths s in
  let vi := inputs_status config instance_name gpu_device None in
  let vo := outputs_status config instance_name gpu_device None in
  r.1 = (if IsOk vi then
           if IsOk vo then
             match OrtCreateCpuAllocatorInfo with
             | inl e' => ort_error_status e'
             | inr _ => Status_Success
             end
           else vo
         else vi)
  ∧ contexts_ (cs_backend r.2) =
      contexts_ (cs_backend s)
        ++ [mkContext instance_name gpu_device (context_max_batch_size config) None
              (if IsOk vi && IsOk vo then
                 match OrtCreateCpuAllocatorInfo with
                 | inl _ => None
                 | inr info => Some info
                 end
               else None) [] []]
  ∧ cs_events r.2 =
      cs_events s ++ device_query_events gpu_device
        ++ (if attempted
            then [EvOrtCreateSession path (session_options_for gpu_device options)]
            else [])
        ++ [EvInputNames None]
        ++ (if IsOk vi then
              EvOutputNames None
                :: (if IsOk vo then [EvOrtCreateCpuAllocatorInfo] else [])
            else []).
Proof.
  intros Hspec Hpath Hfail config r vi vo.
  assert (instance_path config paths gpu_device = Some path) as Hip.
  { unfold instance_path. fold config in Hspec. by rewrite Hspec. }
  destruct (session_failure_loaded _ _ _ _ _ Hfail) as [Hnone Hreq].
  subst r. rewrite (CreateExecutionContext_found_effect _ _ _ _ _ _ Hip).
  rewrite CreateExecutionContext_load_effect.
  cbn [cs_backend cs_events]. fold config. rewrite Hnone. fold vi vo.
  unfold session_events. rewrite Hreq.
  destruct (IsOk vi), (IsOk vo); cbn [andb fst snd cs_backend cs_events contexts_];
    try destruct OrtCreateCpuAllocatorInfo as [e'|info];
    cbn [fst snd cs_backend cs_events contexts_];
    rewrite <- ?app_assoc; done.
Qed.

Lemma validation_status_inputs_ok (this : Context) (names_status : Status)
    (exposed : gset string) (ios : list ModelInput) :
  IsOk (validation_status names_status (input_error this exposed) ios) = true
  ↔ IsOk names_status = true ∧ ∀ io, io ∈ ios → ¬ invalid_input exposed io.
Proof.
  unfold validation_status. destruct (IsOk names_status) eqn:Hnames.
  - destruct (head (omap (input_error this exposed) ios)) as [e|] eqn:Hhead.
    + apply head_Some_elem_of, list_elem_of_omap in Hhead as (io & Hio & He).
      apply input_error_names_it in He as (Hnok & Hinv & _). cbn. rewrite Hnok.
      split; [done|]. intros [_ Hvalid]. by destruct (Hvalid io Hio).
    + cbn. split; [|done]. intros _. split; [done|]. intros io Hio Hinv.
      destruct (first_error_Some (input_error this exposed) ios) as (? & ? & _ & _ & ?);
        [|congruence].
      exists io. split; [done|]. by apply input_error_invalid.
  - rewrite Hnames. split; [done|]. by intros [? _].
Qed.

Lemma validation_status_outputs_ok (this : Context) (names_status : Status)
    (exposed : gset string) (ios : list ModelOutput) :
  IsOk (validation_status names_status (output_error this exposed) ios) = true
  ↔ IsOk names_status = true ∧ ∀ io, io ∈ ios → ¬ invalid_output exposed io.
Proof.
  unfold validation_status. destruct (IsOk names_status) eqn:Hnames.
  - destruct (head (omap (output_error this exposed) ios)) as [e|] eqn:Hhead.
    + apply head_Some_elem_of, list_elem_of_omap in Hhead as (io & Hio & He).
      apply output_error_names_it in He as (Hnok & Hinv & _). cbn. rewrite Hnok.
      split; [done|]. intros [_ Hvalid]. by destruct (Hvalid io Hio).
    + cbn. split; [|done]. intros _. split; [done|]. intros io Hio Hinv.
      destruct (first_error_Some (output_error this exposed) ios) as (? & ? & _ & _ & ?);
        [|congruence].
      exists io. split; [done|]. by apply output_error_invalid.
  - rewrite Hnames. split; [done|]. by intros [? _].
Qed.

(** X9.  [ValidateInputs] and [ValidateOutputs] accept exactly the valid
    schemas: each returns an OK status if and only if the runtime answers
    the name query and every declared input (output) is among the exposed
    names with a datatype that does not convert to the undefined element
    type.  In particular an empty declaration is accepted.  Neither
    changes the backend. *)
Theorem Validate_accepts_exactly_valid (this : Context) (inputs : list ModelInput)
    (outputs : list ModelOutput) (s : CreateState) :
  (IsOk (ValidateInputs this inputs s).1 = true
   ↔ IsOk (InputNames (session_ this)).1 = true
     ∧ ∀ io, io ∈ inputs → ¬ invalid_input (InputNames (session_ this)).2 io)
  ∧ (IsOk (ValidateOutputs this outputs s).1 = true
     ↔ IsOk (OutputNames (session_ this)).1 = true
       ∧ ∀ io, io ∈ outputs → ¬ invalid_output (OutputNames (session_ this)).2 io)
  ∧ cs_backend (ValidateInputs this inputs s).2 = cs_backend s
  ∧ cs_backend (ValidateOutputs this outputs s).2 = cs_backend s.
Proof.
  rewrite ValidateInputs_effect, ValidateOutputs_effect. cbn [fst snd cs_backend].
  split; [apply validation_status_inputs_ok|].
  split; [apply validation_status_outputs_ok|done].
Qed.

Lemma omap_all_None {A B : Type} (f : A → option B) (l : list A) :
  (∀ a, a ∈ l → f a = None) → omap f l = [].
Proof.
  induction l as [|a l IH]; [done|]. intros Hnone. cbn.
  rewrite (Hnone a) by (by left). apply IH. intros a' Ha'. apply Hnone. by right.
Qed.

(** X10.  Validation reports the first offender in declaration order and
    stops there: when the inputs before [io] are valid and [io] is not,
    the status is [io]'s -- the name check's status if the name is not
    exposed, else the INTERNAL "unsupported datatype" status naming the
    datatype, the input and the instance -- whatever is declared after
    it. *)
Theorem ValidateInputs_reports_first_offender (this : Context)
    (before after : list ModelInput) (io : ModelInput) (s : CreateState) :
  IsOk (InputNames (session_ this)).1 = true →
  (∀ io', io' ∈ before → ¬ invalid_input (InputNames (session_ this)).2 io') →
  invalid_input (InputNames (session_ this)).2 io →
  let exposed := (InputNames (session_ this)).2 in
  (ValidateInputs this (before ++ io :: after) s).1 =
    if decide (mi_name io ∈ exposed) then
      mkStatus INTERNAL
        ("unsupported datatype " +:+ DataType_Name (mi_data_type io)
         +:+ " for input '" +:+ mi_name io +:+ "' for model '" +:+ name_ this +:+ "'")
    else CheckAllowedModelInput io exposed.
Proof.
  intros Hnames Hbefore Hinv exposed.
  rewrite ValidateInputs_effect. cbn [fst]. unfold validation_status.
  rewrite Hnames, omap_app. fold exposed.
  assert (omap (input_error this exposed) before = []) as ->.
  { apply omap_all_None. intros io' Hio'.
    destruct (input_error this exposed io') as [e|] eqn:He; [|done].
    apply input_error_names_it in He as (_ & Hinv' & _).
    by destruct (Hbefore io' Hio'). }
  cbn. unfold input_error.
  destruct (decide (mi_name io ∈ exposed)) as [Hin|Hout].
  - rewrite (proj2 (CheckAllowedModelInput_ok io exposed) Hin). cbn.
    destruct Hinv as [Hout|Hundef]; [done|].
    apply Z.eqb_eq in Hundef. by rewrite Hundef.
  - destruct (IsOk (CheckAllowedModelInput io exposed)) eqn:E;
      [by apply CheckAllowedModelInput_ok in E|done].
Qed.

Lemma inputs_status_ok (config : ModelConfig) (instance_name : string)
    (gpu_device : Z) (session : option OrtSession) :
  IsOk (inputs_status config instance_name gpu_device session) = true
  ↔ IsOk (InputNames session).1 = true
    ∧ ∀ io, io ∈ input config → ¬ invalid_input (InputNames session).2 io.
Proof. apply validation_status_inputs_ok. Qed.

Lemma outputs_status_ok (config : ModelConfig) (instance_name : string)
    (gpu_device : Z) (session : option OrtSession) :
  IsOk (outputs_status config instance_name gpu_device session) = true
  ↔ IsOk (OutputNames session).1 = true
    ∧ ∀ io, io ∈ output config → ¬ invalid_output (OutputNames session).2 io.
Proof. apply validation_status_outputs_ok. Qed.

Lemma ready_instance_path (config : ModelConfig) (gpu_device : Z)
    (options : OrtSessionOptions) (paths : gmap string string)
    (filename path : string) (info : OrtAllocatorInfo) :
  ready_to_create config gpu_device options paths filename path info →
  instance_path config paths gpu_device = Some path.
Proof. intros (Hspec & Hpath & _). unfold instance_path. by rewrite Hspec. Qed.

(** With the model file found, an instance can be created exactly when
    both validations pass and the allocator information is created. *)
Lemma creatable_found (config : ModelConfig) (options : OrtSessionOptions)
    (paths : gmap string string) (instance_name : string) (gpu_device : Z)
    (path : string) :
  instance_path config paths gpu_device = Some path →
  let session := session_loaded gpu_device options path in
  creatable config options paths gpu_device
  ↔ IsOk (inputs_status config instance_name gpu_device session) = true
    ∧ IsOk (outputs_status config instance_name gpu_device session) = true
    ∧ ∃ info, OrtCreateCpuAllocatorInfo = inr info.
Proof.
  intros Hip session. rewrite inputs_status_ok, outputs_status_ok. split.
  - intros (filename & path' & info & Hr).
    pose proof (ready_instance_path _ _ _ _ _ _ _ Hr) as Hip'.
    rewrite Hip in Hip'. injection Hip' as <-.
    destruct Hr as (_ & _ & Hin & Hins & Hout & Houts & Halloc). eauto 10.
  - intros ([Hin Hins] & [Hout Houts] & info & Halloc).
    unfold instance_path in Hip.
    destruct (spec_model_filename config gpu_device) as [filename|] eqn:Hspec;
      [|done].
    exists filename, path, info. by repeat split.
Qed.

Lemma creation_when_ready (instance_name : string) (gpu_device : Z)
    (options : OrtSessionOptions) (paths : gmap string string) (s : CreateState)
    (filename path : string) (info : OrtAllocatorInfo) :
  let config := Config (cs_backend s) in
  ready_to_create config gpu_device options paths filename path info →
  CreateExecutionContext instance_name gpu_device options paths s =
    (Status_Success,
     mkCreateState
       (mkBackend config
          (contexts_ (cs_backend s)
             ++ [mkContext instance_name gpu_device (context_max_batch_size config)
                   (session_loaded gpu_device options path) (Some info) [] []]))
       (CreateExecutionContext instance_name gpu_device options paths s).2.(cs_events)).
Proof.
  intros config Hr.
  pose proof (ready_instance_path _ _ _ _ _ _ _ Hr) as Hip.
  destruct Hr as (_ & _ & Hin & Hins & Hout & Houts & Halloc).
  rewrite (CreateExecutionContext_found_effect _ _ _ _ _ _ Hip).
  rewrite CreateExecutionContext_load_effect. cbn [cs_backend cs_events]. fold config.
  rewrite (proj2 (inputs_status_ok _ _ _ _) (conj Hin Hins)).
  rewrite (proj2 (outputs_status_ok _ _ _ _) (conj Hout Houts)).
  by rewrite Halloc.
Qed.

(** What one instance creation does to [contexts_], by its status. *)
Lemma CreateExecutionContext_outcome (instance_name : string) (gpu_device : Z)
    (options : OrtSessionOptions) (paths : gmap string string) (s : CreateState) :
  let config := Config (cs_backend s) in
  let r := CreateExecutionContext instance_name gpu_device options paths s in
  Config (cs_backend r.2) = config
  ∧ if IsOk r.1
    then creatable config options paths gpu_device
         ∧ ∃ c, contexts_ (cs_backend r.2) = contexts_ (cs_backend s) ++ [c]
                ∧ initialised config options paths (instance_name, gpu_device) c
    else ¬ creatable config options paths gpu_device
         ∧ contexts_ (cs_backend r.2)
           = contexts_ (cs_backend s)
               ++ left_by_failure config options paths (instance_name, gpu_device).
Proof.
  intros config r. unfold left_by_failure, initialised. cbn [fst snd].
  destruct (instance_path config paths gpu_device) as [path|] eqn:Hip.
  - pose proof (creatable_found config options paths instance_name gpu_device path Hip)
      as Hiff. cbn zeta in Hiff.
    subst r. rewrite (CreateExecutionContext_found_effect _ _ _ _ _ _ Hip).
    rewrite CreateExecutionContext_load_effect. cbn [cs_backend cs_events]. fold config.
    set (vi := inputs_status config instance_name gpu_device _) in *.
    set (vo := outputs_status config instance_name gpu_device _) in *.
    destruct (IsOk vi) eqn:Hvi.
    2:{ cbn [fst snd cs_backend Config contexts_]. rewrite Hvi.
        split; [done|]. split; [|done]. rewrite Hiff. by intros (? & _). }
    destruct (IsOk vo) eqn:Hvo.
    2:{ cbn [fst snd cs_backend Config contexts_]. rewrite Hvo.
        split; [done|]. split; [|done]. rewrite Hiff. by intros (_ & ? & _). }
    destruct OrtCreateCpuAllocatorInfo as [e|info] eqn:Halloc;
      cbn [fst snd cs_backend Config contexts_ IsOk ort_error_status Code].
    + split; [done|]. split; [|done]. rewrite Hiff. by intros (_ & _ & ? & ?).
    + split; [done|]. split; [apply Hiff; eauto|].
      eexists. split; [done|]. by repeat split; try by eexists.
  - destruct (CreateExecutionContext_unfound instance_name gpu_device options paths s
                Hip) as (message & Heq & _).
    subst r. rewrite Heq. cbn [fst snd cs_backend IsOk Code].
    split; [done|]. rewrite app_nil_r. split; [|done].
    intros (filename & path & info & Hr).
    apply ready_instance_path in Hr. fold config in Hip. congruence.
Qed.

Lemma creation_ok_was_ready (instance_name : string) (gpu_device : Z)
    (options : OrtSessionOptions) (paths : gmap string string) (s : CreateState) :
  IsOk (CreateExecutionContext instance_name gpu_device options paths s).1 = true →
  creatable (Config (cs_backend s)) options paths gpu_device.
Proof.
  intros Hok.
  destruct (CreateExecutionContext_outcome instance_name gpu_device options paths s)
    as [_ Hcases].
  rewrite Hok in Hcases. by destruct Hcases.
Qed.

(** The status of a creation depends on the state only through the
    configuration. *)
Lemma CreateExecutionContext_status_config (instance_name : string) (gpu_device : Z)
    (options : OrtSessionOptions) (paths : gmap string string) (s s' : CreateState) :
  Config (cs_backend s') = Config (cs_backend s) →
  (CreateExecutionContext instance_name gpu_device options paths s').1
  = (CreateExecutionContext instance_name gpu_device options paths s).1.
Proof.
  intros Hcfg.
  destruct (instance_path (Config (cs_backend s)) paths gpu_device) as [path|] eqn:Hip.
  - rewrite (CreateExecutionContext_found_effect _ _ _ _ _ _ Hip).
    rewrite <- Hcfg in Hip.
    rewrite (CreateExecutionContext_found_effect _ _ _ _ _ _ Hip).
    rewrite !CreateExecutionContext_load_effect. cbn [cs_backend cs_events].
    rewrite Hcfg. by repeat case_match.
  - destruct (CreateExecutionContext_unfound instance_name gpu_device options paths s
                Hip) as (message & Heq & Hother).
    rewrite (Hother s' Hcfg), Heq. cbn [fst]. unfold Name. by rewrite Hcfg.
Qed.

(** X11.  Creation of an instance returns an OK status exactly when the
    model file resolves and is among the artifacts, both name queries
    answer on the session pointer that the block "Create Onnx session"
    left in the context, every declared input and output is valid against
    those answers, and the allocator information is created.  Whether the
    session loaded is not among the conditions: the pointer is null when
    it did not.  Creation then returns [Status::Success] and appends to
    [contexts_] one context with the given name and device, the maximum
    batch size of the configuration (0 if that is not positive), that
    session pointer, the allocator, and empty tensor containers. *)
Theorem CreateExecutionContext_succeeds_iff (instance_name : string)
    (gpu_device : Z) (options : OrtSessionOptions) (paths : gmap string string)
    (s : CreateState) :
  let config := Config (cs_backend s) in
  let r := CreateExecutionContext instance_name gpu_device options paths s in
  let ready filename path info :=
    let session := session_loaded gpu_device options path in
    spec_model_filename config gpu_device = Some filename
    ∧ paths !! filename = Some path
    ∧ IsOk (InputNames session).1 = true
    ∧ (∀ io, io ∈ input config → ¬ invalid_input (InputNames session).2 io)
    ∧ IsOk (OutputNames session).1 = true
    ∧ (∀ io, io ∈ output config → ¬ invalid_output (OutputNames session).2 io)
    ∧ OrtCreateCpuAllocatorInfo = inr info in
  (IsOk r.1 = true ↔ ∃ filename path info, ready filename path info)
  ∧ (∀ filename path info,
       ready filename path info →
       r.1 = Status_Success
       ∧ cs_backend r.2 =
           mkBackend config
             (contexts_ (cs_backend s)
                ++ [mkContext instance_name gpu_device (context_max_batch_size config)
                      (session_loaded gpu_device options path) (Some info) [] []])).
Proof.
  intros config r ready. split; [split|].
  - apply creation_ok_was_ready.
  - intros (filename & path & info & Hr). subst r.
    by rewrite (creation_when_ready instance_name _ _ _ _ _ _ _ Hr).
  - intros filename path info Hr. subst r.
    by rewrite (creation_when_ready instance_name _ _ _ _ _ _ _ Hr).
Qed.

Lemma for_each_app {S A : Type} (l1 l2 : list A) (f : A → Stm S unit) (s : S) :
  for_each (l1 ++ l2) f s = bind (for_each l1 f) (λ _, for_each l2 f) s.
Proof.
  revert s. induction l1 as [|a l1 IH]; intros s; [done|].
  cbn [app for_each]. unfold bind.
  destruct (f a s) as [[[]|st] s']; [|done]. rewrite IH. done.
Qed.

Lemma for_each_ext {S A : Type} (l : list A) (f g : A → Stm S unit) (s : S) :
  (∀ a s, f a s = g a s) → for_each l f s = for_each l g s.
Proof.
  intros Hfg. revert s. induction l as [|a l IH]; intros s; [done|].
  cbn [for_each]. unfold bind. rewrite Hfg. by destruct (g a s) as [[[]|?] ?].
Qed.

Lemma for_each_fmap {S A B : Type} (g : A → B) (l : list A) (f : B → Stm S unit) (s : S) :
  for_each (g <$> l) f s = for_each l (λ a, f (g a)) s.
Proof.
  revert s. induction l as [|a l IH]; intros s; [done|].
  cbn [fmap list_fmap for_each]. unfold bind.
  by destruct (f (g a) s) as [[[]|?] ?].
Qed.

Lemma for_each_singleton {S A : Type} (a : A) (f : A → Stm S unit) (s : S) :
  for_each [a] f s = f a s.
Proof. cbn. unfold bind, ret. by destruct (f a s) as [[[]|?] ?]. Qed.

Lemma for_each_bind_list {S A B : Type} (g : A → list B) (l : list A)
    (f : B → Stm S unit) (s : S) :
  for_each (l ≫= g) f s = for_each l (λ a, for_each (g a) f) s.
Proof.
  revert s. induction l as [|a l IH]; intros s; [done|].
  cbn [mbind list_bind]. rewrite for_each_app. cbn [for_each]. unfold bind.
  by destruct (for_each (g a) f s) as [[[]|?] ?].
Qed.

Lemma create_instance_effect (instance_name : string) (gpu_device : Z) (options : OrtSessionOptions)
    (paths : gmap string string) (s : CreateAllState) :
  let r := CreateExecutionContext instance_name gpu_device options paths (ca_create s) in
  create_instance instance_name gpu_device options paths s =
    if IsOk r.1
    then (Go tt, mkCreateAllState r.2
                   ((total_context_cnt s + 1) mod UINT32_MAX_plus_1)%N
                   (scheduler_runners s))
    else (Return r.1, mkCreateAllState r.2 (total_context_cnt s) (scheduler_runners s)).
Proof.
  intros r. unfold create_instance, bind, RETURN_IF_ERROR, on_create. fold r.
  destruct r as [status c]. cbn. by destruct (IsOk status).
Qed.

(** The loops of [CreateExecutionContexts] visit the instances in the
    order of [instances]. *)
Lemma instance_loops_flat (instance_group : list ModelInstanceGroup)
    (options : OrtSessionOptions) (paths : gmap string string) (s : CreateAllState) :
  for_each instance_group (λ group,
    for_each (seqZ 0 (ig_count group)) (λ c,
      if decide (ig_kind group = KIND_CPU) then
        create_instance (ig_name group +:+ "_" +:+ to_string c +:+ "_cpu")
          NO_GPU_DEVICE options paths
      else
        for_each (ig_gpus group) (λ gpu_device,
          create_instance
            (ig_name group +:+ "_" +:+ to_string c +:+ "_gpu" +:+ to_string gpu_device)
            gpu_device options paths))) s
  = for_each (instances instance_group)
      (λ inst, create_instance inst.1 inst.2 options paths) s.
Proof.
  unfold instances. rewrite for_each_bind_list. apply for_each_ext.
  intros group s0. unfold instances_of_group. rewrite for_each_bind_list.
  apply for_each_ext. intros c s1.
  destruct (decide (ig_kind group = KIND_CPU)).
  - by rewrite for_each_singleton.
  - by rewrite for_each_fmap.
Qed.

Lemma initialised_well_formed (config : ModelConfig) (options : OrtSessionOptions)
    (paths : gmap string string) (insts : list (string * Z)) (cs : list Context) :
  Forall2 (initialised config options paths) insts cs → Forall (well_formed config) cs.
Proof.
  induction 1 as [|inst c insts cs (_ & _ & ? & _ & _ & ?) _ IH]; by constructor.
Qed.

Lemma left_by_failure_well_formed (config : ModelConfig) (options : OrtSessionOptions)
    (paths : gmap string string) (inst : string * Z) :
  Forall (well_formed config) (left_by_failure config options paths inst).
Proof.
  unfold left_by_failure. destruct (instance_path _ _ _); by repeat constructor.
Qed.

(** The instance loop, by induction on the instances still to create: it
    either creates them all, or stops at the first that cannot be created
    and leaves what was emplaced until then. *)
Lemma create_instances_effect (insts : list (string * Z)) (options : OrtSessionOptions)
    (paths : gmap string string) (s : CreateAllState) :
  (total_context_cnt s < UINT32_MAX_plus_1)%N →
  let config := Config (cs_backend (ca_create s)) in
  let old := contexts_ (cs_backend (ca_create s)) in
  let r := for_each insts (λ inst, create_instance inst.1 inst.2 options paths) s in
  scheduler_runners r.2 = scheduler_runners s
  ∧ Config (cs_backend (ca_create r.2)) = config
  ∧ match r.1 with
    | Go _ =>
        Forall (λ inst, creatable config options paths inst.2) insts
        ∧ (∃ cs, contexts_ (cs_backend (ca_create r.2)) = old ++ cs
                 ∧ Forall2 (initialised config options paths) insts cs)
        ∧ total_context_cnt r.2
          = ((total_context_cnt s + N.of_nat (length insts)) mod UINT32_MAX_plus_1)%N
    | Return status =>
        ∃ done inst rest cs,
          insts = done ++ inst :: rest
          ∧ Forall (λ inst, creatable config options paths inst.2) done
          ∧ ¬ creatable config options paths inst.2
          ∧ status = (CreateExecutionContext inst.1 inst.2 options paths (ca_create s)).1
          ∧ IsOk status = false
          ∧ Forall2 (initialised config options paths) done cs
          ∧ contexts_ (cs_backend (ca_create r.2))
            = old ++ cs ++ left_by_failure config options paths inst
    end.
Proof.
  revert s. induction insts as [|[name gpu] insts IH]; intros s Hcnt config old r.
  - subst r. cbn. split; [done|]. split; [done|]. split; [constructor|].
    split; [exists []; by rewrite app_nil_r|].
    by rewrite N.add_0_r, N.mod_small.
  - set (r1 := CreateExecutionContext name gpu options paths (ca_create s)).
    set (s1 := mkCreateAllState r1.2
                 ((total_context_cnt s + 1) mod UINT32_MAX_plus_1)%N
                 (scheduler_runners s)).
    assert (r = if IsOk r1.1
                then for_each insts
                       (λ inst, create_instance inst.1 inst.2 options paths) s1
                else (Return r1.1,
                      mkCreateAllState r1.2 (total_context_cnt s) (scheduler_runners s)))
      as Hr.
    { subst r. cbn [for_each]. unfold bind.
      rewrite create_instance_effect. cbn [fst snd]. fold r1.
      by destruct (IsOk r1.1). }
    rewrite Hr. clear Hr r.
    destruct (CreateExecutionContext_outcome name gpu options paths (ca_create s))
      as (Hcfg & Hcases).
    fold config r1 old in Hcfg, Hcases.
    destruct (IsOk r1.1) eqn:Hok.
    + destruct Hcases as (Hready & c & Hc & Hinit).
      destruct (IH s1) as (Hsched & Hcfg' & Hloop).
      { apply N.mod_lt. by vm_compute. }
      cbn [s1 ca_create scheduler_runners total_context_cnt] in Hsched, Hcfg', Hloop.
      rewrite Hcfg, Hc in Hloop. rewrite Hcfg in Hcfg'.
      split; [exact Hsched|]. split; [exact Hcfg'|].
      destruct (for_each insts _ s1).1 as [[]|status].
      * destruct Hloop as (Hall & (cs & Hcs & Hinits) & Hn).
        split; [by constructor|]. split.
        { exists (c :: cs). rewrite Hcs, <- app_assoc. split; [done|]. by constructor. }
        rewrite Hn. unfold UINT32_MAX_plus_1. rewrite N.Div0.add_mod_idemp_l.
        f_equal. cbn [length]. lia.
      * destruct Hloop
          as (done & inst & rest & cs & -> & Hdone & Hnot & -> & Hnok & Hinits & Hcs).
        exists ((name, gpu) :: done), inst, rest, (c :: cs).
        split; [done|]. split; [by constructor|]. split; [done|].
        split; [by apply CreateExecutionContext_status_config|].
        split; [done|]. split; [by constructor|].
        rewrite Hcs, <- app_assoc. done.
    + destruct Hcases as [Hnot Hleft]. cbn [fst snd ca_create scheduler_runners].
      split; [done|]. split; [exact Hcfg|].
      exists [], (name, gpu), insts, [].
      split; [done|]. split; [constructor|]. split; [done|]. split; [done|].
      split; [done|]. split; [constructor|]. done.
Qed.

Lemma CreateExecutionContexts_effect (SetConfiguredScheduler : N → Status)
    (instance_group : list ModelInstanceGroup) (paths : gmap string string)
    (s : CreateState) :
  let r := for_each (instances instance_group)
             (λ inst, create_instance inst.1 inst.2 (mkOrtSessionOptions 1 0 None) paths)
             (mkCreateAllState s 0%N None) in
  CreateExecutionContexts SetConfiguredScheduler instance_group paths s =
    match r.1 with
    | Return status => (status, ca_create r.2, scheduler_runners r.2)
    | Go _ =>
        let n := total_context_cnt r.2 in
        (if IsOk (SetConfiguredScheduler n) then Status_Success
         else SetConfiguredScheduler n,
         ca_create r.2, Some n)
    end.
Proof.
  intros r. unfold CreateExecutionContexts, body, CreateExecutionContexts_body.
  unfold bind at 1. rewrite instance_loops_flat. fold r.
  destruct r as [[[]|status] s']; [|done].
  unfold bind, RETURN_IF_ERROR, call_SetConfiguredScheduler, ret. cbn.
  by destruct (IsOk _).
Qed.

(** X12.  When [CreateExecutionContexts] returns an OK status it has
    appended to [contexts_] exactly one context per instance, in the order
    of the loops -- groups in configuration order, replicas 0, 1, ... of a
    group, and for a GPU group the listed devices of each replica.  A CPU
    instance is named group_replica_cpu and bound to no device, a GPU
    instance group_replica_gpuDEVICE and bound to that device; every one
    has its allocator, the context maximum of the configuration, empty
    tensor containers, and as its session what the one-thread prototype
    options gave for its artifact -- null if that session did not load.
    A group with a count of zero or less contributes no instance. *)
Theorem CreateExecutionContexts_creates_instances_in_order
    (SetConfiguredScheduler : N → Status) (instance_group : list ModelInstanceGroup)
    (paths : gmap string string) (s : CreateState) :
  let r := CreateExecutionContexts SetConfiguredScheduler instance_group paths s in
  IsOk r.1.1 = true →
  ∃ cs, contexts_ (cs_backend r.1.2) = contexts_ (cs_backend s) ++ cs
        ∧ Forall2 (initialised (Config (cs_backend s)) (mkOrtSessionOptions 1 0 None) paths)
            (instances instance_group) cs
        ∧ (λ c, (name_ c, gpu_device_ c)) <$> cs = instances instance_group
        ∧ (∀ group, ig_count group ≤ 0 → instances_of_group group = []).
Proof.
  intros r Hok. subst r. rewrite CreateExecutionContexts_effect in Hok |- *.
  destruct (create_instances_effect (instances instance_group)
              (mkOrtSessionOptions 1 0 None) paths (mkCreateAllState s 0%N None))
    as (_ & _ & Hcases); [by vm_compute|].
  cbn [ca_create] in Hcases.
  destruct (for_each _ _ _).1 as [[]|status].
  - destruct Hcases as (_ & (cs & Hcs & Hall) & _). cbn [fst snd]. exists cs.
    split; [exact Hcs|]. split; [exact Hall|]. split.
    + clear Hcs Hok.
      induction Hall as [|[name gpu] c insts cs' (Hn & Hg & _) _ IH]; [done|].
      cbn in *. by rewrite Hn, Hg, IH.
    + intros group Hcount. unfold instances_of_group.
      rewrite seqZ_nil by lia. done.
  - destruct Hcases as (? & ? & ? & ? & _ & _ & _ & _ & Hnok & _).
    cbn [fst] in Hok. congruence.
Qed.

(** X13.  When [CreateExecutionContexts] returns an OK status the
    scheduler was asked for exactly as many runners as instances were
    created (fewer than 2^32 of them), and, starting from a backend
    without contexts, [contexts_] holds a context for each of those runner
    indices and for no other: the dispatcher's runner-index error cannot
    arise for a runner the scheduler was promised. *)
Theorem CreateExecutionContexts_runner_per_context
    (SetConfiguredScheduler : N → Status) (instance_group : list ModelInstanceGroup)
    (paths : gmap string string) (s : CreateState) :
  let r := CreateExecutionContexts SetConfiguredScheduler instance_group paths s in
  let n := N.of_nat (length (instances instance_group)) in
  IsOk r.1.1 = true →
  (n < UINT32_MAX_plus_1)%N →
  contexts_ (cs_backend s) = [] →
  r.2 = Some n
  ∧ IsOk (SetConfiguredScheduler n) = true
  ∧ ∀ runner_idx : N,
      is_Some (contexts_ (cs_backend r.1.2) !! N.to_nat runner_idx)
      ↔ (runner_idx < n)%N.
Proof.
  intros r n Hok Hn Hempty. subst r.
  rewrite CreateExecutionContexts_effect in Hok |- *.
  destruct (create_instances_effect (instances instance_group)
              (mkOrtSessionOptions 1 0 None) paths (mkCreateAllState s 0%N None))
    as (_ & _ & Hcases); [by vm_compute|].
  cbn [ca_create total_context_cnt] in Hcases. rewrite Hempty in Hcases.
  destruct (for_each _ _ _).1 as [[]|status].
  - destruct Hcases as (_ & (cs & Hcs & Hall) & Hcnt). cbn [fst snd] in Hok |- *.
    rewrite N.add_0_l in Hcnt. fold n in Hcnt. rewrite N.mod_small in Hcnt by done.
    rewrite Hcnt in Hok |- *. split; [done|].
    split; [destruct (IsOk (SetConfiguredScheduler n)) eqn:E;
              [done|rewrite ?E in Hok; congruence]|].
    intros runner_idx. rewrite Hcs. cbn [app]. rewrite lookup_lt_is_Some.
    apply Forall2_length in Hall. subst n. lia.
  - destruct Hcases as (? & ? & ? & ? & _ & _ & _ & _ & Hnok & _).
    cbn [fst] in Hok. congruence.
Qed.

(** X14.  [CreateExecutionContexts] stops at the first instance that
    cannot be created, and there is no rollback.  The scheduler is not
    asked for anything exactly when some instance cannot be created.  In
    that case the instances before the first such one were all created,
    the call returns the error status of that one's creation, and
    [contexts_] has grown by the contexts of the instances before it
    followed by what the failed creation itself left -- its emplaced
    context without allocator if the model file had been found, otherwise
    nothing.  When every instance was created the scheduler is asked for
    their number (modulo 2^32), and if it refuses, its status is returned
    with all contexts in place. *)
Theorem CreateExecutionContexts_failure
    (SetConfiguredScheduler : N → Status) (instance_group : list ModelInstanceGroup)
    (paths : gmap string string) (s : CreateState) :
  let r := CreateExecutionContexts SetConfiguredScheduler instance_group paths s in
  let config := Config (cs_backend s) in
  let options := mkOrtSessionOptions 1 0 None in
  let old := contexts_ (cs_backend s) in
  (r.2 = None
   ↔ ∃ inst, inst ∈ instances instance_group ∧ ¬ creatable config options paths inst.2)
  ∧ match r.2 with
    | None =>
        ∃ done inst rest cs,
          instances instance_group = done ++ inst :: rest
          ∧ Forall (λ inst, creatable config options paths inst.2) done
          ∧ ¬ creatable config options paths inst.2
          ∧ r.1.1 = (CreateExecutionContext inst.1 inst.2 options paths s).1
          ∧ IsOk r.1.1 = false
          ∧ Forall2 (initialised config options paths) done cs
          ∧ contexts_ (cs_backend r.1.2)
            = old ++ cs ++ left_by_failure config options paths inst
    | Some n =>
        n = (N.of_nat (length (instances instance_group)) mod UINT32_MAX_plus_1)%N
        ∧ r.1.1 = (if IsOk (SetConfiguredScheduler n) then Status_Success
                   else SetConfiguredScheduler n)
        ∧ ∃ cs, contexts_ (cs_backend r.1.2) = old ++ cs
                ∧ Forall2 (initialised config options paths)
                    (instances instance_group) cs
    end.
Proof.
  intros r config options old. subst r options.
  rewrite CreateExecutionContexts_effect.
  destruct (create_instances_effect (instances instance_group)
              (mkOrtSessionOptions 1 0 None) paths (mkCreateAllState s 0%N None))
    as (Hsched & _ & Hcases); [by vm_compute|].
  cbn [ca_create scheduler_runners total_context_cnt] in Hsched, Hcases.
  fold config old in Hcases.
  destruct (for_each _ _ _).1 as [[]|status]; cbn [fst snd].
  - destruct Hcases as (Hall & Hcs & Hn). split.
    + split; [done|]. intros (inst & Hin & Hnot).
      rewrite Forall_forall in Hall. by destruct (Hnot (Hall inst Hin)).
    + rewrite Hn, N.add_0_l. by repeat split.
  - rewrite Hsched. split; [|exact Hcases].
    split; [|done]. intros _.
    destruct Hcases as (done & inst & rest & cs & Heq & _ & Hnot & _).
    exists inst. split; [|done]. rewrite Heq. apply elem_of_app. right. by left.
Qed.

Lemma CreateExecutionContexts_contexts
    (SetConfiguredScheduler : N → Status) (instance_group : list ModelInstanceGroup)
    (paths : gmap string string) (s : CreateState) :
  ∃ cs, contexts_ (cs_backend
          (CreateExecutionContexts SetConfiguredScheduler instance_group paths s).1.2)
        = contexts_ (cs_backend s) ++ cs
        ∧ Forall (well_formed (Config (cs_backend s))) cs.
Proof.
  rewrite CreateExecutionContexts_effect.
  destruct (create_instances_effect (instances instance_group)
              (mkOrtSessionOptions 1 0 None) paths (mkCreateAllState s 0%N None))
    as (_ & _ & Hcases); [by vm_compute|].
  cbn [ca_create] in Hcases.
  destruct (for_each _ _ _).1 as [[]|status]; cbn [fst snd].
  - destruct Hcases as (_ & (cs & Hcs & Hall) & _). exists cs.
    split; [exact Hcs|]. by eapply initialised_well_formed.
  - destruct Hcases as (done & inst & rest & cs & _ & _ & _ & _ & _ & Hall & Hcs).
    eexists. split; [exact Hcs|]. apply Forall_app. split.
    + by eapply initialised_well_formed.
    + apply left_by_failure_well_formed.
Qed.

(** X15.  Every context is ready between runs.  Creation only ever
    appends contexts whose tensor containers are empty and whose
    [max_batch_size_] is a non-negative [int] (for a configured maximum
    that fits an [int]), whatever its outcome; the dispatcher keeps both
    for every context, whatever the run's outcome.  So the batch-size
    check of every run compares against a non-negative maximum, and every
    runtime invocation starts from empty containers. *)
Theorem contexts_stay_ready
    (SetConfiguredScheduler : N → Status) (instance_group : list ModelInstanceGroup)
    (paths : gmap string string) (s : CreateState) (runner_idx : N)
    (bs : BackendState) :
  let ready c := idle c ∧ 0 ≤ max_batch_size_ c ≤ INT_MAX in
  (max_batch_size (Config (cs_backend s)) ≤ INT_MAX →
   Forall ready (contexts_ (cs_backend s)) →
   Forall ready
     (contexts_ (cs_backend
        (CreateExecutionContexts SetConfiguredScheduler instance_group paths s).1.2)))
  ∧ (Forall ready (contexts_ (backend bs)) →
     Forall ready (contexts_ (backend (Run runner_idx bs)))).
Proof.
  intros ready. split.
  - intros Hmax Hold.
    destruct (CreateExecutionContexts_contexts SetConfiguredScheduler instance_group
                paths s) as (cs & -> & Hwf).
    apply Forall_app. split; [exact Hold|].
    eapply Forall_impl; [exact Hwf|]. intros c [Hmbs Hidle]. split; [done|].
    rewrite Hmbs. unfold context_max_batch_size, NO_BATCHING.
    destruct (_ <=? 0) eqn:E; [by vm_compute|]. apply Z.leb_gt in E. lia.
  - intros Hold. rewrite Run_backend.
    cbn [contexts_]. destruct (_ !! N.to_nat runner_idx) as [c|] eqn:Hc; [|done].
    apply Forall_insert; [exact Hold|].
    split; [done|]. by apply (Forall_lookup_1 _ _ _ _ Hold Hc).
Qed.

(** X16.  Destroying a context after the dispatcher has run it hands no
    tensor to the runtime -- the run has released them all, so none is
    released twice -- and releases the session and then the allocator
    information, each exactly when the context holds one.  The same holds
    for every context whose containers are empty, such as one that
    creation has just emplaced. *)
Theorem Context_destroy_after_Run (runner_idx : N) (bs : BackendState) (c : Context) :
  contexts_ (backend bs) !! N.to_nat runner_idx = Some c →
  ∃ c', contexts_ (backend (Run runner_idx bs)) !! N.to_nat runner_idx = Some c'
        ∧ Context_destroy c' =
            match session_ c with
            | Some session => [TdOrtReleaseSession session]
            | None => []
            end
            ++ match allocator_info_ c with
               | Some info => [TdOrtReleaseAllocatorInfo info]
               | None => []
               end
        ∧ (∀ c0, idle c0 →
             List.filter is_tensor_release (Context_destroy c0) = []).
Proof.
  intros Hc. rewrite Run_backend.
  cbn [contexts_]. rewrite Hc. exists (cleared c).
  split; [apply list_lookup_insert_eq; by eapply lookup_lt_Some|].
  split; [done|].
  intros c0 [Hin Hout]. unfold Context_destroy.
  rewrite ReleaseOrtRunResources_effect. cbn [rs_trace rs_context]. rewrite Hin, Hout.
  cbn. by destruct (session_ c0), (allocator_info_ c0).
Qed.

Lemma CreateExecutionContext_load_events (instance_name : string)
    (gpu_device : Z) (options : OrtSessionOptions) (path : string) (s : CreateState) :
  ∃ post,
    cs_events (body (CreateExecutionContext_load instance_name gpu_device options path)
                 s).2
    = cs_events s ++ session_events gpu_device options path ++ post
    ∧ ∀ e, e ∈ post → is_create_session e = false.
Proof.
  rewrite CreateExecutionContext_load_effect. cbn zeta.
  repeat case_match; cbn [snd cs_events]; rewrite <- ?app_assoc; cbn [app];
    eexists; (split; [reflexivity|]); intros e' Hin;
    repeat (apply elem_of_cons in Hin as [->|Hin]; [done|]);
    by apply elem_of_nil in Hin.
Qed.

Lemma device_query_no_session (gpu_device : Z) (e : Event) :
  e ∈ device_query_events gpu_device → is_create_session e = false.
Proof.
  unfold device_query_events. destruct (decide _); [by intros ?%elem_of_nil|].
  by intros ->%list_elem_of_singleton.
Qed.

(** X20.  One instance creation asks the runtime for at most one session,
    and only after the model file was resolved and found: the session is
    created from the artifact path that [paths] gives for the resolved
    file, with the options handed in -- plus the CUDA provider for the
    instance's device when, and only when, the instance is bound to a
    device. *)
Theorem CreateExecutionContext_session_request (instance_name : string)
    (gpu_device : Z) (options : OrtSessionOptions) (paths : gmap string string)
    (s : CreateState) :
  let r := CreateExecutionContext instance_name gpu_device options paths s in
  (∃ evs, cs_events r.2 = cs_events s ++ evs
          ∧ (count is_create_session evs ≤ 1)%nat
          ∧ ∀ path' options',
              EvOrtCreateSession path' options' ∈ evs →
              options' = session_options_for gpu_device options
              ∧ ∃ filename,
                  spec_model_filename (Config (cs_backend s)) gpu_device = Some filename
                  ∧ paths !! filename = Some path')
  ∧ thread_pool_size (session_options_for gpu_device options) = thread_pool_size options
  ∧ graph_optimization_level (session_options_for gpu_device options)
    = graph_optimization_level options
  ∧ cuda_provider (session_options_for gpu_device options)
    = if decide (gpu_device = NO_GPU_DEVICE) then cuda_provider options
      else Some gpu_device.
Proof.
  intros r. split.
  2:{ unfold session_options_for. destruct (decide _) as [->|Hgpu]; [done|].
      apply Z.eqb_neq in Hgpu. by rewrite Hgpu. }
  pose proof (device_query_no_session gpu_device) as Hpre.
  destruct (instance_path (Config (cs_backend s)) paths gpu_device) as [path|] eqn:Hip.
  - subst r. rewrite (CreateExecutionContext_found_effect _ _ _ _ _ _ Hip).
    destruct (CreateExecutionContext_load_events instance_name gpu_device options path
                (mkCreateState (cs_backend s)
                   (cs_events s ++ device_query_events gpu_device)))
      as (post & -> & Hpost).
    cbn [cs_events].
    exists (device_query_events gpu_device
              ++ session_events gpu_device options path ++ post).
    split; [by rewrite <- !app_assoc|].
    rewrite !count_app, (count_none _ _ Hpre), (count_none _ _ Hpost).
    unfold session_events. split; [destruct (session_requested _ _); cbn; lia|].
    intros path' options' [Hin|[Hin|Hin]%elem_of_app]%elem_of_app.
    + by apply Hpre in Hin.
    + destruct (session_requested _ _); [|by apply elem_of_nil in Hin].
      apply list_elem_of_singleton in Hin. injection Hin as -> ->.
      split; [done|]. unfold instance_path in Hip.
      destruct (spec_model_filename _ gpu_device) as [filename|]; [|done].
      by exists filename.
    + by apply Hpost in Hin.
  - destruct (CreateExecutionContext_unfound instance_name gpu_device options paths s
                Hip) as (message & Heq & _).
    subst r. rewrite Heq. cbn [snd cs_events].
    exists (device_query_events gpu_device). split; [done|].
    rewrite (count_none _ _ Hpre). split; [lia|].
    intros path' options' Hin. by apply Hpre in Hin.
Qed.

End MoreCreationProperties.

(** ** The SavedModel loader and the debug strings *)

Section LoaderProperties.
Import TensorflowLoader.

Lemma find_serve_tag_elem (serve : string) (tags : list string) :
  find_serve_tag serve tags false = true ↔ serve ∈ tags.
Proof.
  induction tags as [|tag tags IH]; cbn.
  - split; [done|]. by intros ?%elem_of_nil.
  - destruct (String.eqb tag serve) eqn:E.
    + apply String.eqb_eq in E as ->. split; [|done]. intros _. by left.
    + apply String.eqb_neq in E. rewrite IH, elem_of_cons.
      split; [by right|]. by intros [->|?].
Qed.

(** X17.  [LoadSavedModel] returns [Status::Success] when TensorFlow loads
    the session, the meta graph carries the "serve" tag and it has a
    "serving_default" signature; the caller then holds the session, and
    the signature if it asked for one.  Provided [FromTFError] maps no
    failure code to SUCCESS, these three conditions are also necessary for
    an OK status. *)
Theorem LoadSavedModel_succeeds_iff (serve : string)
    (FromTFError : TF_Code → RequestStatusCode) (model_name : string)
    (loaded : Loaded) (sig_is_null : bool) (sig : option SignatureDef) :
  (∀ code, code ≠ TF_OK → FromTFError code ≠ SUCCESS) →
  let r := LoadSavedModel serve FromTFError model_name loaded sig_is_null sig in
  let signatures := signature_def (meta_graph_def loaded) in
  (IsOk r.1 = true
   ↔ TF_GetCode loaded = TF_OK
     ∧ serve ∈ tags (meta_graph_def loaded)
     ∧ is_Some (signatures !! "serving_default"))
  ∧ (IsOk r.1 = true →
     r.1 = Status_Success
     ∧ out_session r.2 = loaded_session loaded
     ∧ out_sig r.2 = if sig_is_null then sig else signatures !! "serving_default").
Proof.
  intros Herr r signatures. subst r. unfold LoadSavedModel.
  fold signatures. change DEFAULT_SERVING_SIGNATURE_DEF_KEY with "serving_default".
  destruct (TF_GetCode loaded =? TF_OK) eqn:Hcode; cbn [negb].
  - apply Z.eqb_eq in Hcode.
    destruct (find_serve_tag serve (tags (meta_graph_def loaded)) false) eqn:Htag;
      cbn [negb].
    + apply find_serve_tag_elem in Htag.
      destruct (signatures !! "serving_default") as [signature|] eqn:Hsig; cbn.
      * split; [|done]. split; [|done]. intros _. by repeat split; try by eexists.
      * split; [|done]. split; [done|]. by intros (_ & _ & [? ?]).
    + assert (serve ∉ tags (meta_graph_def loaded)) as Hno.
      { intros Hin. apply find_serve_tag_elem in Hin. congruence. }
      cbn. split; [|done]. split; [done|]. by intros (_ & ? & _).
  - apply Z.eqb_neq in Hcode. cbn [fst snd].
    assert (IsOk (mkStatus (FromTFError (TF_GetCode loaded)) (TF_Message loaded)) = false)
      as Hnok.
    { unfold IsOk. cbn. apply bool_decide_eq_false_2. by apply Herr. }
    rewrite Hnok. split; [|done]. split; [done|]. by intros (? & _).
Qed.

(** X18.  On a failed load [LoadSavedModel] hands back a null session and
    TensorFlow's message.  Past the load it keeps the session TensorFlow
    returned, also when it then refuses the model: a meta graph without
    the "serve" tag gives the INTERNAL status, before signatures are
    looked at, and one with the tag but without a "serving_default"
    signature the INVALID_ARG status; both name the model.  [*sig] is
    written on success only. *)
Theorem LoadSavedModel_failures (serve : string)
    (FromTFError : TF_Code → RequestStatusCode) (model_name : string)
    (loaded : Loaded) (sig_is_null : bool) (sig : option SignatureDef) :
  let r := LoadSavedModel serve FromTFError model_name loaded sig_is_null sig in
  let signatures := signature_def (meta_graph_def loaded) in
  (TF_GetCode loaded ≠ TF_OK →
     r = (mkStatus (FromTFError (TF_GetCode loaded)) (TF_Message loaded),
          mkOutcome None sig))
  ∧ (TF_GetCode loaded = TF_OK → serve ∉ tags (meta_graph_def loaded) →
       r = (mkStatus INTERNAL
              ("unable to load model '" +:+ model_name +:+ "', expected '"
               +:+ serve +:+ "' tag"),
            mkOutcome (loaded_session loaded) sig))
  ∧ (TF_GetCode loaded = TF_OK → serve ∈ tags (meta_graph_def loaded) →
     signatures !! "serving_default" = None →
       r = (mkStatus INVALID_ARG
              ("unable to load model '" +:+ model_name
               +:+ "', expected 'serving_default' signature"),
            mkOutcome (loaded_session loaded) sig))
  ∧ (out_sig r.2 ≠ sig → r.1 = Status_Success ∧ sig_is_null = false).
Proof.
  intros r signatures. subst r. unfold LoadSavedModel.
  fold signatures. change DEFAULT_SERVING_SIGNATURE_DEF_KEY with "serving_default".
  destruct (TF_GetCode loaded =? TF_OK) eqn:Hcode; cbn [negb].
  - apply Z.eqb_eq in Hcode.
    destruct (find_serve_tag serve (tags (meta_graph_def loaded)) false) eqn:Htag;
      cbn [negb].
    + apply find_serve_tag_elem in Htag.
      destruct (signatures !! "serving_default") as [signature|] eqn:Hsig.
      * split; [done|]. split; [done|]. split; [done|]. cbn.
        by destruct sig_is_null.
      * by repeat split.
    + assert (serve ∉ tags (meta_graph_def loaded)) as Hno.
      { intros Hin. apply find_serve_tag_elem in Hin. congruence. }
      by repeat split.
  - apply Z.eqb_neq in Hcode. by repeat split.
Qed.

End LoaderProperties.

Section DebugStringProperties.
Import LibTorch.

Lemma append_nil_r (s : string) : s +:+ "" = s.
Proof.
  induction s as [|a s IH]; [done|].
  change (String a (s +:+ "") = String a s). by rewrite IH.
Qed.

Lemma DimsDebugString_loop_join (dims : list Z) (first : bool) (str : string) :
  DimsDebugString_loop dims first str =
    str +:+ (if first then "" else match dims with [] => "" | _ => "," end)
        +:+ String.concat "," (to_string <$> dims).
Proof.
  revert first str. induction dims as [|d dims IH]; intros first str.
  - cbn [DimsDebugString_loop fmap list_fmap String.concat].
    by destruct first; rewrite !append_nil_r.
  - cbn [DimsDebugString_loop]. rewrite IH.
    destruct dims as [|d' dims].
    + cbn [fmap list_fmap String.concat]. rewrite !append_nil_r.
      destruct first; cbn [negb]; [done|]. by rewrite append_assoc.
    + cbn [fmap list_fmap String.concat].
      destruct first; cbn [negb]; by rewrite ?append_assoc.
Qed.

(** X19.  [DimsDebugString] prints the dimensions in decimal, separated by
    single commas, between square brackets: no comma leads or trails, and
    the empty shape prints as "[]". *)
Theorem DimsDebugString_format (dims : list Z) :
  DimsDebugString dims = "[" +:+ String.concat "," (to_string <$> dims) +:+ "]"
  ∧ DimsDebugString [] = "[]".
Proof.
  split; [|done]. unfold DimsDebugString. rewrite DimsDebugString_loop_join.
  change ("" +:+ "[") with "[". by rewrite !append_assoc.
Qed.

End DebugStringProperties.

(** ** The statements at the sample groups and configurations *)

Section Instances.
Import Samples.

Lemma Context_Run_rejects_non_ok_payload_witness :
  let s := run_state 4 [request_a 1 2; payload_of 1 [] (mkStatus INVALID_ARG "malformed")] in
  Exists (λ p, IsOk (status_ p) = false) (rs_payloads s)
  ∧ @Context_Run filling_runtime (backend_of ["a"] 4) s
    = (non_ok_payload_error (rs_context s), s).
Proof.
  intros s.
  assert (Exists (λ p, IsOk (status_ p) = false) (rs_payloads s)) as Hbad.
  { apply Exists_cons_tl, Exists_cons_hd. reflexivity. }
  split; [exact Hbad|].
  apply (@Context_Run_rejects_non_ok_payload filling_runtime (backend_of ["a"] 4) s Hbad).
Defined.

Lemma Context_Run_zero_batch_is_noop_witness :
  let s := run_state 4 [request_a 0 0; request_none 0] in
  all_ok (rs_payloads s)
  ∧ sum_batch_size (rs_payloads s) = 0%N
  ∧ @Context_Run filling_runtime (backend_of ["a"] 4) s = (Status_Success, s).
Proof.
  intros s.
  assert (all_ok (rs_payloads s)) as Hok by (repeat constructor).
  split; [exact Hok|]. split; [reflexivity|].
  apply (@Context_Run_zero_batch_is_noop filling_runtime (backend_of ["a"] 4) s Hok).
  reflexivity.
Defined.

(** A group of total batch size 5 on a context whose maximum is 4, and a
    lone request of batch size 1 on a context that does not batch. *)
Lemma Context_Run_batch_size_check_witness :
  let s := run_state 4 [request_a 2 4; request_a 3 6] in
  let s1 := run_state 0 [request_a 1 2] in
  (all_ok (rs_payloads s) ∧ 0 ≤ max_batch_size_ (rs_context s) ≤ INT_MAX)
  ∧ @Context_Run filling_runtime (backend_of ["a"] 4) s
    = (batch_size_error (rs_context s) 5, s)
  ∧ ∃ provider,
      @Context_Run filling_runtime (backend_of ["a"] 0) s1
      = @Context_Run_past_checks filling_runtime (backend_of ["a"] 0) provider 1 s1.
Proof.
  intros s s1.
  assert (all_ok (rs_payloads s)) as Hok by (repeat constructor).
  assert (0 ≤ max_batch_size_ (rs_context s) ≤ INT_MAX) as Hmax by (vm_compute; split; discriminate).
  assert (all_ok (rs_payloads s1)) as Hok1 by (repeat constructor).
  assert (0 ≤ max_batch_size_ (rs_context s1) ≤ INT_MAX) as Hmax1 by (vm_compute; split; discriminate).
  split; [by split|]. split.
  - destruct (@Context_Run_batch_size_check filling_runtime (backend_of ["a"] 4) s Hok Hmax)
      as (_ & Hreject & _).
    apply Hreject; [discriminate|reflexivity].
  - destruct (@Context_Run_batch_size_check filling_runtime (backend_of ["a"] 0) s1 Hok1 Hmax1)
      as (_ & _ & Hpass).
    destruct Hpass as (provider & _ & Hrun); [discriminate|by left|].
    by exists provider.
Defined.

(** The runtime fails after it has produced a tensor: the tensor is
    released before the callback. *)
Lemma Run_releases_before_callback_witness :
  let s := dispatch_state [request_none 1] in
  contexts_ (backend s) !! N.to_nat 0 = Some (cpu_context 4)
  ∧ ∃ status tr_run tr_release c',
      events (@Run failing_runtime 0 s) =
        events s ++ tr_run ++ tr_release ++ [EvOnCompleteQueuedPayloads status]
      ∧ (∀ e, e ∈ tr_run → is_OrtRun e = true)
      ∧ (∀ e, e ∈ tr_release → is_release e = true)
      ∧ (∀ v, left_by_OrtRun tr_run v → EvOrtReleaseValue v ∈ tr_release)
      ∧ (∀ v, Some v ∈ input_tensors_ (cpu_context 4) → EvOrtReleaseValue v ∈ tr_release)
      ∧ contexts_ (backend (@Run failing_runtime 0 s)) !! N.to_nat 0 = Some c'
      ∧ input_tensors_ c' = [] ∧ output_tensors_ c' = [].
Proof.
  intros s. split; [reflexivity|].
  apply (@Run_releases_before_callback failing_runtime 0 s (cpu_context 4)).
  reflexivity.
Defined.

Example failing_run_trace :
  events (@Run failing_runtime 0 (dispatch_state [request_none 1])) =
    [EvOrtRun (Some 1%N) [] [] ["y"] [Some 100%N];
     EvOrtReleaseValue 100%N;
     EvOnCompleteQueuedPayloads (mkStatus INTERNAL "onnx runtime error 1: run failed")].
Proof. reflexivity. Qed.


(** The configuration declares inputs {a, c}; the runtime exposes {a, b}. *)
Lemma CreateExecutionContext_validates_schema_witness :
  let s := create_state ["a"; "c"] 4 in
  let r := @CreateExecutionContext filling_runtime "m_0_cpu" NO_GPU_DEVICE
             base_options paths s in
  (@spec_model_filename filling_runtime (Config (cs_backend s)) NO_GPU_DEVICE
     = Some "model.onnx"
   ∧ paths !! "model.onnx" = Some "/models/m/1/model.onnx"
   ∧ @session_loaded filling_runtime NO_GPU_DEVICE base_options
       "/models/m/1/model.onnx" = Some 1%N
   ∧ IsOk (@InputNames filling_runtime (Some 1%N)).1 = true
   ∧ IsOk (@OutputNames filling_runtime (Some 1%N)).1 = true)
  ∧ IsOk r.1 = false
  ∧ count is_input_query (cs_events r.2) = 1%nat.
Proof.
  intros s r.
  assert (paths !! "model.onnx" = Some "/models/m/1/model.onnx") as Hpath
    by (vm_compute; reflexivity).
  split; [by repeat split|].
  destruct (@CreateExecutionContext_validates_schema filling_runtime "m_0_cpu"
              NO_GPU_DEVICE base_options paths s "model.onnx"
              "/models/m/1/model.onnx" 1%N eq_refl Hpath eq_refl eq_refl eq_refl)
    as (Hfail & Hquery & _).
  split; [|exact Hquery].
  apply Hfail. left. exists (mkModelInput "c" TYPE_UINT8 [2]).
  split; [right; left|left; cbn].
  rewrite elem_of_union, !elem_of_singleton. intros [?|?]; discriminate.
Defined.

Example undeclared_input_is_named :
  (@CreateExecutionContext filling_runtime "m_0_cpu" NO_GPU_DEVICE base_options paths
     (create_state ["a"; "c"] 4)).1
  = mkStatus INVALID_ARG "unexpected inference input 'c'".
Proof. vm_compute. reflexivity. Qed.

(** A device of compute capability 6.1 resolves to the override, which is
    not among the artifacts. *)
Example override_not_found :
  (@CreateExecutionContext filling_runtime "m_0_gpu0" 0 base_options paths
     (create_state ["a"; "b"] 4)).1
  = mkStatus INTERNAL "unable to find model 'model_61.onnx' for m".
Proof. vm_compute. reflexivity. Qed.

(** A configured maximum of -3. *)
Lemma CreateExecutionContext_max_batch_size_witness :
  let s := create_state ["a"; "b"] (-3) in
  let r := @CreateExecutionContext filling_runtime "m_0_cpu" NO_GPU_DEVICE
             base_options paths s in
  (@spec_model_filename filling_runtime (Config (cs_backend s)) NO_GPU_DEVICE
     = Some "model.onnx"
   ∧ paths !! "model.onnx" = Some "/models/m/1/model.onnx")
  ∧ ∃ c, contexts_ (cs_backend r.2) = contexts_ (cs_backend s) ++ [c]
         ∧ name_ c = "m_0_cpu"
         ∧ max_batch_size_ c = NO_BATCHING.
Proof.
  intros s r.
  assert (paths !! "model.onnx" = Some "/models/m/1/model.onnx") as Hpath
    by (vm_compute; reflexivity).
  split; [by split|].
  destruct (@CreateExecutionContext_max_batch_size filling_runtime "m_0_cpu"
              NO_GPU_DEVICE base_options paths s "model.onnx"
              "/models/m/1/model.onnx" eq_refl Hpath)
    as (c & Hc & Hname & Hzero & _).
  exists c. split; [exact Hc|]. split; [exact Hname|].
  apply Hzero. vm_compute. discriminate.
Defined.

(** C3.  The code does not make the round trip.  One well-formed request
    -- batch size 1, input "a" of two one-byte elements, two bytes
    supplied -- on a context of maximum 4, through a runtime that hands
    its inputs back as outputs: [Context::Run] returns the UNSUPPORTED
    status with which [SetInputTensor] opens, ahead of the concatenation
    that its call site and its declaration announce, and the payload holds
    no output byte where it submitted two. *)
Lemma round_trip_fails_for_one_request :
  let group := [request_a 1 2] in
  let r := @Context_Run passthrough_runtime (backend_of ["a"] 4) (run_state 4 group) in
  (@pass_through passthrough_runtime
   ∧ length group = 1%nat ∧ all_ok group
   ∧ expected_byte_size width TYPE_UINT8 [2] 1 = Z.of_nat (length (bytes 2)))
  ∧ r.1 = SetInputTensor_status
  ∧ ∃ payload, payload ∈ rs_payloads r.2
               ∧ returned_bytes payload ≠ submitted_bytes payload.
Proof.
  intros group r. split; [|split].
  - split; [by intros ? ? ? ? ?|]. split; [reflexivity|].
    split; [repeat constructor|reflexivity].
  - reflexivity.
  - exists (request_a 1 2). split; [by left|]. discriminate.
Qed.


End Instances.

(** ** The further statements at samples *)

Section MoreInstances.
Import Samples MoreSamples Lifecycle TensorflowLoader.

(** A lone request without inputs on a context of maximum 4, with a
    runtime that fails. *)
Lemma Context_Run_invocation_witness :
  let s := run_state 4 [request_none 1] in
  let provider := request_provider_ (request_none 1) in
  (all_ok (rs_payloads s)
   ∧ accumulated_batch_size 0 (rs_payloads s) ≠ 0%N
   ∧ representative (rs_payloads s) = Some provider
   ∧ request_input provider = []
   ∧ GetInputOverride provider = None)
  ∧ @Context_Run failing_runtime (backend_of ["a"] 4) s =
      (mkStatus INTERNAL "onnx runtime error 1: run failed",
       mkRunState (set_output_tensors (λ _, [Some 100%N]) (rs_context s))
         (rs_payloads s) [EvOrtRun (Some 1%N) [] [] ["y"] [Some 100%N]]).
Proof.
  intros s provider.
  assert (all_ok (rs_payloads s)) as Hok by (repeat constructor).
  assert (accumulated_batch_size 0 (rs_payloads s) ≠ 0%N) as Hne by discriminate.
  split; [by repeat split|].
  apply (@Context_Run_invocation failing_runtime (backend_of ["a"] 4) s provider
           Hok Hne (or_introl eq_refl) eq_refl eq_refl (or_introl eq_refl)).
Defined.

Lemma CreateExecutionContext_device_query_fails_witness :
  let s := create_state ["a"; "b"] 4 in
  (5 ≠ NO_GPU_DEVICE
   ∧ @cudaGetDeviceProperties filling_runtime 5 = inl "invalid device ordinal")
  ∧ @CreateExecutionContext filling_runtime "m_0_gpu5" 5 base_options paths s =
      (mkStatus INTERNAL "unable to get CUDA device properties for m: invalid device ordinal",
       mkCreateState (cs_backend s) [EvCudaGetDeviceProperties 5]).
Proof.
  intros s.
  assert (5 ≠ NO_GPU_DEVICE) as Hgpu by discriminate.
  split; [by split|].
  apply (@CreateExecutionContext_device_query_fails filling_runtime "m_0_gpu5" 5
           base_options paths s "invalid device ordinal" Hgpu eq_refl).
Defined.

(** A CPU instance whose session does not load: the runtime's "no such
    file" is not returned, the names are asked of the null session, and
    creation succeeds with a context that has no session. *)
Lemma CreateExecutionContext_session_error_dropped_witness :
  let s := create_state ["a"; "b"] 4 in
  let r := @CreateExecutionContext session_failing_runtime "m_0_cpu" NO_GPU_DEVICE
             base_options paths s in
  (@spec_model_filename session_failing_runtime (Config (cs_backend s)) NO_GPU_DEVICE
     = Some "model.onnx"
   ∧ paths !! "model.onnx" = Some "/models/m/1/model.onnx"
   ∧ @session_failure session_failing_runtime NO_GPU_DEVICE base_options
       "/models/m/1/model.onnx" = Some (mkOrtStatus 3 "no such file", true))
  ∧ r.1 = Status_Success
  ∧ contexts_ (cs_backend r.2)
    = [mkContext "m_0_cpu" NO_GPU_DEVICE 4 None (Some 2%N) [] []]
  ∧ cs_events r.2
    = [EvOrtCreateSession "/models/m/1/model.onnx" base_options;
       EvInputNames None; EvOutputNames None; EvOrtCreateCpuAllocatorInfo].
Proof.
  intros s r.
  assert (paths !! "model.onnx" = Some "/models/m/1/model.onnx") as Hpath
    by (vm_compute; reflexivity).
  split; [by repeat split|].
  destruct (@CreateExecutionContext_session_error_dropped session_failing_runtime
              "m_0_cpu" NO_GPU_DEVICE base_options paths s "model.onnx"
              "/models/m/1/model.onnx" (mkOrtStatus 3 "no such file") true
              eq_refl Hpath eq_refl)
    as (Hstatus & Hcontexts & Hevents).
  split; [exact Hstatus|]. split; [exact Hcontexts|exact Hevents].
Defined.

(** Of the declared inputs a, b, c the second has an undefined datatype
    and the third is not exposed: the second is reported. *)
Lemma ValidateInputs_reports_first_offender_witness :
  let this := cpu_context 4 in
  let s := create_state [] 4 in
  (IsOk (@InputNames filling_runtime (session_ this)).1 = true
   ∧ (∀ io, io ∈ [mkModelInput "a" TYPE_UINT8 [2]] →
        ¬ @invalid_input filling_runtime (@InputNames filling_runtime (session_ this)).2 io)
   ∧ @invalid_input filling_runtime (@InputNames filling_runtime (session_ this)).2
       (mkModelInput "b" TYPE_INVALID [2]))
  ∧ (@ValidateInputs filling_runtime this declared s).1
    = mkStatus INTERNAL "unsupported datatype TYPE_0 for input 'b' for model 'm_0_cpu'".
Proof.
  intros this s.
  assert (∀ io, io ∈ [mkModelInput "a" TYPE_UINT8 [2]] →
            ¬ @invalid_input filling_runtime
                (@InputNames filling_runtime (session_ this)).2 io) as Hbefore.
  { intros io ->%list_elem_of_singleton [Habsent|Hundef]; [|discriminate].
    apply Habsent. cbn. apply elem_of_union_l. by apply elem_of_singleton. }
  assert (@invalid_input filling_runtime (@InputNames filling_runtime (session_ this)).2
            (mkModelInput "b" TYPE_INVALID [2])) as Hinvalid by (by right).
  split; [by repeat split|].
  refine (eq_trans
            (@ValidateInputs_reports_first_offender filling_runtime this
               [mkModelInput "a" TYPE_UINT8 [2]] [mkModelInput "c" TYPE_UINT8 [2]]
               (mkModelInput "b" TYPE_INVALID [2]) s eq_refl Hbefore Hinvalid) _).
  vm_compute. reflexivity.
Defined.

Lemma CreateExecutionContexts_creates_instances_in_order_witness :
  let r := @CreateExecutionContexts filling_runtime scheduler_accepts groups paths
             (create_state ["a"; "b"] 4) in
  IsOk r.1.1 = true
  ∧ (λ c, (name_ c, gpu_device_ c)) <$> contexts_ (cs_backend r.1.2)
    = [("g_0_cpu", NO_GPU_DEVICE); ("h_0_gpu1", 1); ("h_1_gpu1", 1)].
Proof.
  intros r.
  assert (IsOk r.1.1 = true) as Hok by (vm_compute; reflexivity).
  split; [exact Hok|].
  destruct (@CreateExecutionContexts_creates_instances_in_order filling_runtime
              scheduler_accepts groups paths (create_state ["a"; "b"] 4) Hok)
    as (cs & Hcs & _ & Hnames & _).
  fold r in Hcs. rewrite Hcs.
  change (contexts_ (cs_backend (create_state ["a"; "b"] 4))) with (@nil Context).
  cbn [app]. rewrite Hnames. reflexivity.
Defined.

Lemma CreateExecutionContexts_runner_per_context_witness :
  let r := @CreateExecutionContexts filling_runtime scheduler_accepts groups paths
             (create_state ["a"; "b"] 4) in
  (IsOk r.1.1 = true
   ∧ (N.of_nat (length (instances groups)) < UINT32_MAX_plus_1)%N
   ∧ contexts_ (cs_backend (create_state ["a"; "b"] 4)) = [])
  ∧ r.2 = Some 3%N
  ∧ is_Some (contexts_ (cs_backend r.1.2) !! N.to_nat 2).
Proof.
  intros r.
  assert (IsOk r.1.1 = true) as Hok by (vm_compute; reflexivity).
  assert (N.of_nat (length (instances groups)) < UINT32_MAX_plus_1)%N as Hn
    by (vm_compute; reflexivity).
  split; [by repeat split|].
  destruct (@CreateExecutionContexts_runner_per_context filling_runtime
              scheduler_accepts groups paths (create_state ["a"; "b"] 4) Hok Hn eq_refl)
    as (Hrunners & _ & Hidx).
  split; [exact Hrunners|]. apply Hidx. vm_compute. reflexivity.
Defined.

(** The CPU instance is created, the device of the next instance cannot be
    queried: the error is returned, the scheduler is not asked, and the
    CPU instance's context stays. *)
Example creation_stops_at_first_failure :
  let r := @CreateExecutionContexts filling_runtime scheduler_accepts
             groups_with_bad_device paths (create_state ["a"; "b"] 4) in
  r.1.1 = mkStatus INTERNAL
            "unable to get CUDA device properties for m: invalid device ordinal"
  ∧ contexts_ (cs_backend r.1.2)
    = [mkContext "g_0_cpu" NO_GPU_DEVICE 4 (Some 1%N) (Some 2%N) [] []]
  ∧ r.2 = None.
Proof. vm_compute. done. Qed.

(** With a runtime none of whose sessions load, both CPU instances are
    created with null sessions and handed to the scheduler. *)
Example instances_without_sessions_are_scheduled :
  let r := @CreateExecutionContexts session_failing_runtime scheduler_accepts
             cpu_groups paths (create_state ["a"; "b"] 4) in
  r.1.1 = Status_Success
  ∧ contexts_ (cs_backend r.1.2)
    = [mkContext "g_0_cpu" NO_GPU_DEVICE 4 None (Some 2%N) [] [];
       mkContext "g_1_cpu" NO_GPU_DEVICE 4 None (Some 2%N) [] []]
  ∧ r.2 = Some 2%N.
Proof. vm_compute. done. Qed.

(** The context that a failing run has left is destroyed without a tensor
    release. *)
Lemma Context_destroy_after_Run_witness :
  let bs := dispatch_state [request_none 1] in
  contexts_ (backend bs) !! N.to_nat 0 = Some (cpu_context 4)
  ∧ ∃ c', contexts_ (backend (@Run failing_runtime 0 bs)) !! N.to_nat 0 = Some c'
          ∧ Context_destroy c' = [TdOrtReleaseSession 1%N; TdOrtReleaseAllocatorInfo 2%N].
Proof.
  intros bs. split; [reflexivity|].
  destruct (@Context_destroy_after_Run failing_runtime 0 bs (cpu_context 4) eq_refl)
    as (c' & Hc' & Hdestroy & _).
  by exists c'.
Defined.

Lemma LoadSavedModel_succeeds_iff_witness :
  (∀ code, code ≠ TF_OK → from_tf_error code ≠ SUCCESS)
  ∧ (LoadSavedModel "serve" from_tf_error "m" loaded_model false None).1 = Status_Success.
Proof.
  assert (∀ code, code ≠ TF_OK → from_tf_error code ≠ SUCCESS) as Herr.
  { intros code Hcode. unfold from_tf_error.
    apply Z.eqb_neq in Hcode. by rewrite Hcode. }
  split; [exact Herr|].
  destruct (LoadSavedModel_succeeds_iff "serve" from_tf_error "m" loaded_model false None
              Herr) as [Hiff Hsuccess].
  apply Hsuccess, Hiff. split; [reflexivity|]. split.
  - right. left.
  - exists 3%N. vm_compute. reflexivity.
Defined.

End MoreInstances.
